(** * Knowledge-graph builder of the travel planner: model and properties

    A shallow embedding of [knowledge_graph.py]: the ingestion path
    ([process_record] and the transaction functions it runs) and the two
    lookups ([fetch_trip_plans], [fetch_trip_plans_from_origin]); of the
    reasoner of [symbolic_reasoner.py]; and of the extractors and the
    lookup step of [main] in [travel_planner.py].

    Conventions of the model.
    - A Python [str] is a [string]; a character stands for the code point
      of the same number (0..255). A Python [bytes] is a [string] too, a
      character standing for a byte.
    - The values [ast.literal_eval] can return are the type [pyval]; floats,
      complex numbers, sets and Ellipsis are left out.
    - The graph store is an append-only list of nodes and a list of
      relationships; the internal id of a node is its position in the list.
    - The store does not take every value as a property value: which ones
      it takes is a parameter, [storable], of the writer.
    - Every Cypher statement the writer runs is one definition named
      [cy_...], which gives its meaning on that store. *)

From Stdlib Require Import List String Ascii ZArith Bool Arith Lia.
From Stdlib Require Import DecimalString DecimalZ.
Import ListNotations.
Open Scope string_scope.
Open Scope list_scope.
Set Warnings "-register-all".

(** ** Python values *)

Inductive pyval : Type :=
| PyNone
| PyBool (b : bool)
| PyInt (z : Z)
| PyStr (s : string)
| PyBytes (b : string)
| PyTuple (l : list pyval)
| PyList (l : list pyval)
| PyDict (d : list (pyval * pyval)).

(** [bool(v)]: the truth value Python gives [v] in a condition. *)
Definition truthy (v : pyval) : bool :=
  match v with
  | PyNone => false
  | PyBool b => b
  | PyInt z => negb (Z.eqb z 0)
  | PyStr s => negb (s =? "")
  | PyBytes b => negb (b =? "")
  | PyTuple l => match l with [] => false | _ => true end
  | PyList l => match l with [] => false | _ => true end
  | PyDict d => match d with [] => false | _ => true end
  end.

Definition key_is (k : string) (v : pyval) : bool :=
  match v with
  | PyStr s => s =? k
  | _ => false
  end.

(** [d.get(k, default)] for a string key [k]. *)
Fixpoint dict_get (d : list (pyval * pyval)) (k : string) (default : pyval) : pyval :=
  match d with
  | [] => default
  | (k', v) :: d' => if key_is k k' then v else dict_get d' k default
  end.

(** [k in d] for a string key [k]. *)
Definition dict_has (d : list (pyval * pyval)) (k : string) : bool :=
  existsb (fun kv => key_is k (fst kv)) d.

(** ** Strings: [str.strip], [str.upper], Cypher's [toLower] *)

Definition is_space (c : ascii) : bool :=
  let n := nat_of_ascii c in
  (((9 <=? n) && (n <=? 13)) || ((28 <=? n) && (n <=? 32))
   || (n =? 133) || (n =? 160))%nat.

Fixpoint lstrip (s : string) : string :=
  match s with
  | EmptyString => EmptyString
  | String c s' => if is_space c then lstrip s' else s
  end.

Fixpoint rstrip (s : string) : string :=
  match s with
  | EmptyString => EmptyString
  | String c s' =>
      let r := rstrip s' in
      if is_space c && (r =? "") then EmptyString else String c r
  end.

Definition strip (s : string) : string := rstrip (lstrip s).

Definition lower_char (c : ascii) : ascii :=
  let n := nat_of_ascii c in
  if (((65 <=? n) && (n <=? 90))
      || ((192 <=? n) && (n <=? 222) && negb (n =? 215)))%nat
  then ascii_of_nat (n + 32) else c.

(** The upper-case form of a character: one character, or the two of SS
    for the sharp s (223). The upper-case forms of the micro sign (181) and
    of the y with diaeresis (255) are the code points 924 and 376, which are
    no characters of the model: these two are left as they are, and [upper]
    is [str.upper] on the strings without them. *)
Definition upper_char (c : ascii) : string :=
  let n := nat_of_ascii c in
  if (n =? 223)%nat then "SS"
  else if (((97 <=? n) && (n <=? 122))
           || ((224 <=? n) && (n <=? 254) && negb (n =? 247)))%nat
  then String (ascii_of_nat (n - 32)) EmptyString
  else String c EmptyString.

Fixpoint map_string (f : ascii -> ascii) (s : string) : string :=
  match s with
  | EmptyString => EmptyString
  | String c s' => String (f c) (map_string f s')
  end.

Definition toLower (s : string) : string := map_string lower_char s.

Fixpoint upper (s : string) : string :=
  match s with
  | EmptyString => EmptyString
  | String c s' => (upper_char c ++ upper s')%string
  end.

(** ** Exceptions *)

(** [StoreError] stands for the exception, of the driver or of the
    database, for a property value that cannot be stored. *)
Inductive exn : Type := AttributeError | TypeError | StoreError.

Inductive result (A : Type) : Type :=
| Ok (a : A)
| Raise (e : exn).
Arguments Ok {A} a.
Arguments Raise {A} e.

(** ** The graph store *)

Record node : Type := mkNode {
  nlabel : string;
  nprops : list (string * pyval)
}.

Record edge : Type := mkEdge {
  esrc : nat;
  etype : string;
  edst : nat
}.

Record graph : Type := mkGraph {
  nodes : list node;
  edges : list edge
}.

Definition empty_graph : graph := mkGraph [] [].

(** [n.k]; a property that is not set reads as null, here [PyNone]. *)
Fixpoint prop_get (ps : list (string * pyval)) (k : string) : pyval :=
  match ps with
  | [] => PyNone
  | (k', v) :: ps' => if k' =? k then v else prop_get ps' k
  end.

Definition prop (n : node) (k : string) : pyval := prop_get (nprops n) k.

(** The pattern [(x:lbl {k: s})] for a string [s]. *)
Definition node_is (lbl k s : string) (n : node) : bool :=
  (nlabel n =? lbl) &&
  match prop n k with
  | PyStr s' => s' =? s
  | _ => false
  end.

(** The same pattern for a value [v] that is a string or a byte string. *)
Definition value_eqb (a b : pyval) : bool :=
  match a, b with
  | PyStr s, PyStr s' => s =? s'
  | PyBytes s, PyBytes s' => s =? s'
  | _, _ => false
  end.

Definition node_has (lbl k : string) (v : pyval) (n : node) : bool :=
  (nlabel n =? lbl) && value_eqb (prop n k) v.

(** Ids (positions) of the nodes of [l] that satisfy [p], counted from [i]. *)
Fixpoint ids_from (p : node -> bool) (i : nat) (l : list node) : list nat :=
  match l with
  | [] => []
  | n :: l' => if p n then i :: ids_from p (S i) l' else ids_from p (S i) l'
  end.

Definition match_nodes (p : node -> bool) (g : graph) : list nat :=
  ids_from p 0 (nodes g).

(** [MATCH (x:lbl) WHERE id(x) = i] has a row. *)
Definition match_id (lbl : string) (i : nat) (g : graph) : bool :=
  match nth_error (nodes g) i with
  | Some n => nlabel n =? lbl
  | None => false
  end.

(** [CREATE (x:lbl {ps})], returning [id(x)]. *)
Definition create_node (lbl : string) (ps : list (string * pyval)) (g : graph)
  : graph * nat :=
  (mkGraph (nodes g ++ [mkNode lbl ps]) (edges g), List.length (nodes g)).

Definition edge_eqb (e1 e2 : edge) : bool :=
  (esrc e1 =? esrc e2)%nat && (etype e1 =? etype e2) && (edst e1 =? edst e2)%nat.

(** [MERGE (a)-[:ty]->(b)] for bound [a] and [b]. *)
Definition merge_edge (a : nat) (ty : string) (b : nat) (g : graph) : graph :=
  if existsb (edge_eqb (mkEdge a ty b)) (edges g) then g
  else mkGraph (nodes g) (edges g ++ [mkEdge a ty b]).

(** ** What the store accepts

    A property value goes through the driver to the database, and either
    of them may refuse it: the database holds no dict and no nested list as
    a property value, for one. Which values are taken is the parameter
    [storable] of the writer; strings and byte strings always are. A
    statement that is to store a refused value raises. *)
Definition stored (storable : pyval -> bool) (v : pyval) : bool :=
  match v with
  | PyStr _ | PyBytes _ => true
  | _ => storable v
  end.

(** ** Transactions and sessions

    Inside a transaction function the store is threaded through the calls
    and an exception discards it; a session keeps the committed store. *)

Definition tx (A : Type) : Type := graph -> result (A * graph).

Definition tx_ret {A} (a : A) : tx A := fun g => Ok (a, g).

Definition tx_bind {A B} (c : tx A) (k : A -> tx B) : tx B :=
  fun g =>
    match c g with
    | Ok (a, g') => k a g'
    | Raise e => Raise e
    end.

Definition tx_raise {A} (e : exn) : tx A := fun _ => Raise e.

(** A statement whose result the caller does not read. *)
Definition tx_run (stmt : graph -> graph) : tx unit :=
  fun g => Ok (tt, stmt g).

(** A statement whose result the caller reads. *)
Definition tx_run_returning {A} (stmt : graph -> graph * A) : tx A :=
  fun g => let (g', a) := stmt g in Ok (a, g').

(** A statement that raises on a value the store refuses. *)
Definition tx_exec (stmt : graph -> result graph) : tx unit :=
  fun g =>
    match stmt g with
    | Ok g' => Ok (tt, g')
    | Raise e => Raise e
    end.

Definition tx_exec_returning {A} (stmt : graph -> result (graph * A)) : tx A :=
  fun g =>
    match stmt g with
    | Ok (g', a) => Ok (a, g')
    | Raise e => Raise e
    end.

Definition tx_lift {A} (r : result A) : tx A :=
  fun g =>
    match r with
    | Ok a => Ok (a, g)
    | Raise e => Raise e
    end.

Declare Scope tx_scope.
Delimit Scope tx_scope with tx.
Notation "x <- c ;; k" := (tx_bind c (fun x => k))
  (at level 61, c at next level, right associativity) : tx_scope.
Notation "c ;; k" := (tx_bind c (fun _ => k))
  (at level 61, right associativity) : tx_scope.
Open Scope tx_scope.

Definition tx_when (b : bool) (c : tx unit) : tx unit :=
  if b then c else tx_ret tt.

(** [for x in l: body(x)]. *)
Fixpoint tx_for {A} (l : list A) (body : A -> tx unit) : tx unit :=
  match l with
  | [] => tx_ret tt
  | x :: l' => body x ;; tx_for l' body
  end.

Definition session (A : Type) : Type := graph -> graph * result A.

(** [session.write_transaction(f, ...)]: commit when [f] returns, roll back
    and re-raise when it raises. *)
Definition write_transaction {A} (f : tx A) : session A :=
  fun g =>
    match f g with
    | Ok (a, g') => (g', Ok a)
    | Raise e => (g, Raise e)
    end.

Definition session_seq {A B} (c : session A) (k : session B) : session B :=
  fun g =>
    match c g with
    | (g', Ok _) => k g'
    | (g', Raise e) => (g', Raise e)
    end.

(** ** The Cypher statements of the writer *)

(** [MERGE (c:City {name: $city_name})]. *)
Definition cy_merge_city (city_name : string) (g : graph) : graph :=
  if existsb (node_is "City" "name" city_name) (nodes g) then g
  else fst (create_node "City" [("name", PyStr city_name)] g).

(** [CREATE (tp:TripPlan {...}) RETURN id(tp) AS tp_id]. *)
Definition cy_create_trip_plan
    (org dest : string) (days visiting_city_number : Z) (date : string)
    (people_number : Z) (local_constraint : string) (budget : Z)
    (query_text level annotated_plan reference_information : string)
    (g : graph) : graph * nat :=
  create_node "TripPlan"
    [("org", PyStr org);
     ("dest", PyStr dest);
     ("days", PyInt days);
     ("visiting_city_number", PyInt visiting_city_number);
     ("date", PyStr date);
     ("people_number", PyInt people_number);
     ("local_constraint", PyStr local_constraint);
     ("budget", PyInt budget);
     ("query", PyStr query_text);
     ("level", PyStr level);
     ("annotated_plan", PyStr annotated_plan);
     ("reference_information", PyStr reference_information)] g.

(** [MATCH (tp:TripPlan) WHERE id(tp) = $tp_id
     MATCH (c1:City {name: $org}) MATCH (c2:City {name: $dest})
     MERGE (tp)-[:ORIGIN]->(c1) MERGE (tp)-[:DESTINATION]->(c2)]:
    the two merges run once for every row of the three matches. *)
Definition cy_link_cities (tp_id : nat) (org dest : string) (g : graph) : graph :=
  if match_id "TripPlan" tp_id g then
    fold_left
      (fun acc row =>
         merge_edge tp_id "DESTINATION" (snd row)
           (merge_edge tp_id "ORIGIN" (fst row) acc))
      (list_prod (match_nodes (node_is "City" "name" org) g)
                 (match_nodes (node_is "City" "name" dest) g))
      g
  else g.

(** [MATCH (tp:TripPlan) WHERE id(tp) = $tp_id
     CREATE (dp:DayPlan {day: $day_number, current_city: $current_city})
     MERGE (tp)-[:HAS_DAY_PLAN]->(dp) RETURN id(dp) AS dp_id];
    the value is [result.single()]: the row, or [None] without one. The two
    values come from the decoded day entry as they are: the statement
    raises when the store refuses one of them. *)
Definition cy_create_day_plan (storable : pyval -> bool) (tp_id : nat)
    (day_number current_city : pyval) (g : graph)
  : result (graph * option nat) :=
  if match_id "TripPlan" tp_id g then
    if stored storable day_number && stored storable current_city then
      let (g1, dp_id) :=
        create_node "DayPlan"
          [("day", day_number); ("current_city", current_city)] g in
      Ok (merge_edge tp_id "HAS_DAY_PLAN" dp_id g1, Some dp_id)
    else Raise StoreError
  else Ok (g, None).

(** [MERGE (c:City {name: $current_city})] in [_create_day_plan]. The test
    before it lets a string or a byte string through: on a string the
    statement is that of [_merge_city]; on a byte string it matches the City
    nodes whose name is the same byte string. *)
Definition cy_merge_current_city (current_city : pyval) (g : graph) : graph :=
  match current_city with
  | PyStr s => cy_merge_city s g
  | v =>
      if existsb (node_has "City" "name" v) (nodes g) then g
      else fst (create_node "City" [("name", v)] g)
  end.

(** [MATCH (dp:DayPlan) WHERE id(dp) = $dp_id
     MATCH (c:City {name: $current_city}) MERGE (dp)-[:IN_CITY]->(c)]
    for a string [current_city]. *)
Definition cy_link_in_city (dp_id : nat) (current_city : string) (g : graph)
  : graph :=
  if match_id "DayPlan" dp_id g then
    fold_left (fun acc c => merge_edge dp_id "IN_CITY" c acc)
      (match_nodes (node_is "City" "name" current_city) g) g
  else g.

(** The same statement on the value the test lets through. *)
Definition cy_link_current_city (dp_id : nat) (current_city : pyval)
    (g : graph) : graph :=
  match current_city with
  | PyStr s => cy_link_in_city dp_id s g
  | v =>
      if match_id "DayPlan" dp_id g then
        fold_left (fun acc c => merge_edge dp_id "IN_CITY" c acc)
          (match_nodes (node_has "City" "name" v) g) g
      else g
  end.

(** [MATCH (dp:DayPlan) WHERE id(dp) = $dp_id
     CREATE (n:<label> {<props>}) MERGE (dp)-[:<rel>]->(n)], the statement
    text being built by the caller from [label]. The writer runs it with a
    value that passed the test of [valid_data], a string or a byte string,
    which the store takes, and with a literal string as meal type: the
    statement does not fail. *)
Definition cy_create_related (dp_id : nat) (label : string)
    (props : list (string * pyval)) (rel : string) (g : graph) : graph :=
  if match_id "DayPlan" dp_id g then
    let (g1, n) := create_node label props g in
    merge_edge dp_id rel n g1
  else g.

(** [MATCH (tp:TripPlan) WHERE id(tp) = $tp_id
     CREATE (ri:ReferenceInfo {description: $description, content: $content})
     MERGE (tp)-[:HAS_REFERENCE]->(ri)]. The two values come from the
    decoded reference entry as they are: the statement raises when the store
    refuses one of them. *)
Definition cy_create_reference (storable : pyval -> bool) (tp_id : nat)
    (description content : pyval) (g : graph) : result graph :=
  if match_id "TripPlan" tp_id g then
    if stored storable description && stored storable content then
      let (g1, ri) :=
        create_node "ReferenceInfo"
          [("description", description); ("content", content)] g in
      Ok (merge_edge tp_id "HAS_REFERENCE" ri g1)
    else Raise StoreError
  else Ok g.

(** ** The transaction functions of [KnowledgeGraphBuilder] *)

Definition _merge_city (city_name : string) : tx unit :=
  tx_run (cy_merge_city city_name).

(** The condition [v and v.strip() != "-"] of [_create_day_plan]: a falsy
    [v] decides it without the call; a truthy [str] is trimmed and compared;
    a truthy [bytes] is trimmed to a [bytes], which is never equal to the
    [str] of a dash; every other truthy [v] has no [strip]. *)
Definition valid_data (v : pyval) : result bool :=
  if truthy v then
    match v with
    | PyStr s => Ok (negb (strip s =? "-"))
    | PyBytes _ => Ok true
    | _ => Raise AttributeError
    end
  else Ok false.

(** [if v and v.strip() != "-": body]. *)
Definition tx_if_data (v : pyval) (body : tx unit) : tx unit :=
  b <- tx_lift (valid_data v) ;;
  tx_when b body.

(** [record["dp_id"]] for [record = result.single()]. *)
Definition single_id (record : option nat) : result nat :=
  match record with
  | Some i => Ok i
  | None => Raise TypeError
  end.

Definition _create_related_node (dp_id : nat) (value : pyval) (label : string)
    (meal_type : option string) : tx unit :=
  match meal_type with
  | Some m =>
      if negb (m =? "") then
        tx_run (cy_create_related dp_id label
                  [("value", value); ("meal_type", PyStr m)]
                  ("HAS_" ++ upper label)%string)
      else
        tx_run (cy_create_related dp_id label [("value", value)]
                  ("HAS_" ++ upper label)%string)
  | None =>
      tx_run (cy_create_related dp_id label [("value", value)]
                ("HAS_" ++ upper label)%string)
  end.

(** A record of the dataset: each field is absent or has the type the
    dataset gives it. *)
Record raw_record : Type := mkRecord {
  rec_org : option string;
  rec_dest : option string;
  rec_days : option Z;
  rec_visiting_city_number : option Z;
  rec_date : option string;
  rec_people_number : option Z;
  rec_local_constraint : option string;
  rec_budget : option Z;
  rec_query : option string;
  rec_level : option string;
  rec_annotated_plan : option string;
  rec_reference_information : option string
}.

(** [record.get(key, default)]. *)
Definition get {A} (field : option A) (default : A) : A :=
  match field with
  | Some v => v
  | None => default
  end.

Section Builder.

(** The property values the store takes. *)
Variable storable : pyval -> bool.

(** [ast.literal_eval]: the decoded value, or [None] when it raises. *)
Variable literal_eval : string -> option pyval.

Definition _create_day_plan (tp_id : nat) (day_plan : list (pyval * pyval))
  : tx unit :=
  let day_number := dict_get day_plan "days" PyNone in
  let current_city := dict_get day_plan "current_city" (PyStr "") in
  let transportation := dict_get day_plan "transportation" (PyStr "") in
  let breakfast := dict_get day_plan "breakfast" (PyStr "") in
  let attraction := dict_get day_plan "attraction" (PyStr "") in
  let lunch := dict_get day_plan "lunch" (PyStr "") in
  let dinner := dict_get day_plan "dinner" (PyStr "") in
  let accommodation := dict_get day_plan "accommodation" (PyStr "") in
  record <- tx_exec_returning
              (cy_create_day_plan storable tp_id day_number current_city) ;;
  dp_id <- tx_lift (single_id record) ;;
  tx_if_data current_city
    (tx_run (cy_merge_current_city current_city) ;;
     tx_run (cy_link_current_city dp_id current_city)) ;;
  tx_if_data transportation
    (_create_related_node dp_id transportation "Transportation" None) ;;
  tx_if_data breakfast
    (_create_related_node dp_id breakfast "Meal" (Some "Breakfast")) ;;
  tx_if_data lunch
    (_create_related_node dp_id lunch "Meal" (Some "Lunch")) ;;
  tx_if_data dinner
    (_create_related_node dp_id dinner "Meal" (Some "Dinner")) ;;
  tx_if_data attraction
    (_create_related_node dp_id attraction "Attraction" None) ;;
  tx_if_data accommodation
    (_create_related_node dp_id accommodation "Accommodation" None).

Definition _create_reference_info (tp_id : nat) (ref : list (pyval * pyval))
  : tx unit :=
  let description := dict_get ref "Description" (PyStr "") in
  let content := dict_get ref "Content" (PyStr "") in
  tx_exec (cy_create_reference storable tp_id description content).

(** [try: v = ast.literal_eval(text) except Exception: v = []]. *)
Definition decode_or_empty (text : string) : pyval :=
  match literal_eval text with
  | Some v => v
  | None => PyList []
  end.

Definition _create_trip_plan
    (org dest : string) (days visiting_city_number : Z) (date : string)
    (people_number : Z) (local_constraint : string) (budget : Z)
    (query_text level annotated_plan reference_information : string)
  : tx unit :=
  tp_id <- tx_run_returning
             (cy_create_trip_plan org dest days visiting_city_number date
                people_number local_constraint budget query_text level
                annotated_plan reference_information) ;;
  tx_run (cy_link_cities tp_id org dest) ;;
  let day_plans := decode_or_empty annotated_plan in
  match day_plans with
  | PyList l =>
      tx_for l (fun day_plan =>
        match day_plan with
        | PyDict d => tx_when (truthy day_plan) (_create_day_plan tp_id d)
        | _ => tx_ret tt
        end)
  | _ => tx_ret tt
  end ;;
  let ref_infos := decode_or_empty reference_information in
  match ref_infos with
  | PyList l =>
      tx_for l (fun ref =>
        match ref with
        | PyDict d =>
            tx_when (dict_has d "Description" && dict_has d "Content")
              (_create_reference_info tp_id d)
        | _ => tx_ret tt
        end)
  | _ => tx_ret tt
  end.

Definition process_record (record : raw_record) : session unit :=
  let org := get (rec_org record) "Unknown" in
  let dest := get (rec_dest record) "Unknown" in
  let days := get (rec_days record) 0%Z in
  let visiting_city_number := get (rec_visiting_city_number record) 0%Z in
  let date := get (rec_date record) "[]" in
  let people_number := get (rec_people_number record) 0%Z in
  let local_constraint := get (rec_local_constraint record) "{}" in
  let budget := get (rec_budget record) 0%Z in
  let query_text := get (rec_query record) "" in
  let level := get (rec_level record) "unknown" in
  let annotated_plan := get (rec_annotated_plan record) "[]" in
  let reference_information := get (rec_reference_information record) "[]" in
  session_seq (write_transaction (_merge_city org))
    (session_seq (write_transaction (_merge_city dest))
       (write_transaction
          (_create_trip_plan org dest days visiting_city_number date
             people_number local_constraint budget query_text level
             annotated_plan reference_information))).

(** The loop of [build_graph_from_travel_dataset] over the records of the
    split: an exception of [process_record] leaves the loop. *)
Fixpoint build_graph (dataset : list raw_record) : session unit :=
  match dataset with
  | [] => fun g => (g, Ok tt)
  | record :: rest => session_seq (process_record record) (build_graph rest)
  end.

End Builder.

(** ** The lookups *)

Definition trip_summary (t : node) : list (string * pyval) :=
  [("org", prop t "org");
   ("dest", prop t "dest");
   ("days", prop t "days");
   ("date", prop t "date");
   ("people_number", prop t "people_number");
   ("budget", prop t "budget");
   ("query_text", prop t "query");
   ("level", prop t "level");
   ("annotated_plan", prop t "annotated_plan");
   ("reference_information", prop t "reference_information")].

(** [toLower(t.k) = toLower($s)]. The writer stores [org] and [dest] of a
    TripPlan as strings; a property that is not set makes the comparison
    null, which [WHERE] drops. *)
Definition lower_eq (t : node) (k s : string) : bool :=
  match prop t k with
  | PyStr v => toLower v =? toLower s
  | _ => false
  end.

Definition _get_trip_plans (g : graph) (origin destination : string)
  : list (list (string * pyval)) :=
  map trip_summary
    (filter (fun t => (nlabel t =? "TripPlan")
                      && (lower_eq t "org" origin && lower_eq t "dest" destination))
       (nodes g)).

Definition _get_trip_plans_from_origin (g : graph) (origin : string)
  : list (list (string * pyval)) :=
  map trip_summary
    (filter (fun t => (nlabel t =? "TripPlan") && lower_eq t "org" origin)
       (nodes g)).

(** [session.read_transaction(f, ...)]. *)
Definition read_transaction {A} (f : graph -> A) (g : graph) : A := f g.

Definition fetch_trip_plans (g : graph) (origin destination : string)
  : list (list (string * pyval)) :=
  map (fun tp => tp)
    (read_transaction (fun t => _get_trip_plans t origin destination) g).

Definition fetch_trip_plans_from_origin (g : graph) (origin : string)
  : list (list (string * pyval)) :=
  map (fun tp => tp)
    (read_transaction (fun t => _get_trip_plans_from_origin t origin) g).

(** ** A decoder for a fragment of the literal syntax

    [Literal.literal_eval] reads the texts made of [None], [True], [False],
    decimal integers below 10^18, quoted strings and byte strings ([b'...'])
    of printable ASCII characters without escapes, lists, and dicts with
    string keys, separated by spaces and nested at most [max_depth] deep. On a text it accepts it
    returns the value [ast.literal_eval] returns; it rejects every other
    text, among them all those [ast.literal_eval] rejects. The theorems
    below hold for any decoder; this one serves to run the writer on
    concrete records. *)
Module Literal.

Fixpoint skip_spaces (s : string) : string :=
  match s with
  | String " " s' => skip_spaces s'
  | _ => s
  end.

Definition digit_of (c : ascii) : option Z :=
  let n := nat_of_ascii c in
  if ((48 <=? n) && (n <=? 57))%nat then Some (Z.of_nat (n - 48)) else None.

(** The digits at the head of [s], as a number, and what follows them. *)
Fixpoint read_digits (acc : Z) (s : string) : Z * string :=
  match s with
  | String c s' =>
      match digit_of c with
      | Some d => read_digits (acc * 10 + d) s'
      | None => (acc, s)
      end
  | EmptyString => (acc, s)
  end.

(** A decimal integer below 10^18 without a superfluous leading zero. *)
Definition read_int (s : string) : option (Z * string) :=
  match s with
  | String c s' =>
      match digit_of c with
      | Some 0%Z =>
          match s' with
          | String c' _ =>
              match digit_of c' with
              | Some _ => None
              | None => Some (0%Z, s')
              end
          | EmptyString => Some (0%Z, s')
          end
      | Some d =>
          let (z, rest) := read_digits d s' in
          if (z <? 10 ^ 18)%Z then Some (z, rest) else None
      | None => None
      end
  | EmptyString => None
  end.

(** The characters up to the closing quote [q]: printable ASCII, no
    backslash. *)
Fixpoint read_quoted (q : ascii) (s : string) : option (string * string) :=
  match s with
  | EmptyString => None
  | String c s' =>
      if Ascii.eqb c q then Some (EmptyString, s')
      else if Ascii.eqb c "\" || (nat_of_ascii c <? 32)%nat
              || (126 <? nat_of_ascii c)%nat
      then None
      else
        match read_quoted q s' with
        | Some (body, rest) => Some (String c body, rest)
        | None => None
        end
  end.

(** Python keeps the first position of a repeated key and its last value. *)
Fixpoint dict_set (d : list (pyval * pyval)) (k : string) (v : pyval)
  : list (pyval * pyval) :=
  match d with
  | [] => [(PyStr k, v)]
  | (k', v') :: d' =>
      if key_is k k' then (k', v) :: d' else (k', v') :: dict_set d' k v
  end.

Definition strip_prefix (p s : string) : option string :=
  if prefix p s
  then Some (substring (String.length p) (String.length s - String.length p) s)
  else None.

(** How deep lists and dicts may nest. *)
Definition max_depth : nat := 20.

Fixpoint parse_value (fuel depth : nat) (s : string)
  : option (pyval * string) :=
  match fuel with
  | O => None
  | S f =>
      match s with
      | String "[" s' =>
          match depth with
          | O => None
          | S dp => parse_items f dp (skip_spaces s') []
          end
      | String "{" s' =>
          match depth with
          | O => None
          | S dp => parse_pairs f dp (skip_spaces s') []
          end
      | String "'" s' =>
          match read_quoted "'" s' with
          | Some (body, rest) => Some (PyStr body, rest)
          | None => None
          end
      | String "034" s' =>
          match read_quoted "034" s' with
          | Some (body, rest) => Some (PyStr body, rest)
          | None => None
          end
      | String "-" s' =>
          match read_int s' with
          | Some (z, rest) => Some (PyInt (- z), rest)
          | None => None
          end
      | String "b" (String "'" s') =>
          match read_quoted "'" s' with
          | Some (body, rest) => Some (PyBytes body, rest)
          | None => None
          end
      | String "b" (String "034" s') =>
          match read_quoted "034" s' with
          | Some (body, rest) => Some (PyBytes body, rest)
          | None => None
          end
      | _ =>
          match strip_prefix "None" s, strip_prefix "True" s,
                strip_prefix "False" s with
          | Some rest, _, _ => Some (PyNone, rest)
          | _, Some rest, _ => Some (PyBool true, rest)
          | _, _, Some rest => Some (PyBool false, rest)
          | _, _, _ =>
              match read_int s with
              | Some (z, rest) => Some (PyInt z, rest)
              | None => None
              end
          end
      end
  end

(** The items of a list after its bracket or after a comma. *)
with parse_items (fuel depth : nat) (s : string) (acc : list pyval)
  : option (pyval * string) :=
  match fuel with
  | O => None
  | S f =>
      match s with
      | String "]" rest => Some (PyList (rev acc), rest)
      | _ =>
          match parse_value f depth s with
          | Some (v, s1) =>
              match skip_spaces s1 with
              | String "," s2 => parse_items f depth (skip_spaces s2) (v :: acc)
              | String "]" rest => Some (PyList (rev (v :: acc)), rest)
              | _ => None
              end
          | None => None
          end
      end
  end

(** The entries of a dict after its brace or after a comma. *)
with parse_pairs (fuel depth : nat) (s : string)
    (acc : list (pyval * pyval))
  : option (pyval * string) :=
  match fuel with
  | O => None
  | S f =>
      match s with
      | String "}" rest => Some (PyDict acc, rest)
      | _ =>
          match parse_value f depth s with
          | Some (PyStr k, s1) =>
              match skip_spaces s1 with
              | String ":" s2 =>
                  match parse_value f depth (skip_spaces s2) with
                  | Some (v, s3) =>
                      match skip_spaces s3 with
                      | String "," s4 =>
                          parse_pairs f depth (skip_spaces s4) (dict_set acc k v)
                      | String "}" rest =>
                          Some (PyDict (dict_set acc k v), rest)
                      | _ => None
                      end
                  | None => None
                  end
              | _ => None
              end
          | _ => None
          end
      end
  end.

Definition literal_eval (text : string) : option pyval :=
  match
    parse_value (2 * String.length text + 4) max_depth (skip_spaces text)
  with
  | Some (v, rest) =>
      match skip_spaces rest with
      | EmptyString => Some v
      | _ => None
      end
  | None => None
  end.

End Literal.

(** ** A store for sample runs

    [Scalars.storable] takes [None], the booleans and the integers of 64
    bits, and refuses every tuple, list and dict. A database takes some
    lists; the sample runs below store none. *)
Module Scalars.

Definition storable (v : pyval) : bool :=
  match v with
  | PyNone | PyBool _ | PyStr _ | PyBytes _ => true
  | PyInt z => ((- 2 ^ 63 <=? z) && (z <? 2 ^ 63))%Z
  | PyTuple _ | PyList _ | PyDict _ => false
  end.

End Scalars.

(** ** The symbolic reasoner

    [symbolic_reasoner.py]. Its messages hold characters above 255, so a
    text is here the list of its code points; [txt] reads a string of the
    rest of the model as one. The model that answers
    [ask_ollama_for_city_type] and the method [str.title] are parameters. *)

Definition text : Type := list N.

Definition txt (s : string) : text :=
  map N_of_ascii (list_ascii_of_string s).

(** The dash and the arrow of the messages. *)
Definition en_dash : text := [8211%N].
Definition arrow : text := [8594%N].

(** [str(z)]. *)
Definition str_int (z : Z) : text := txt (NilZero.string_of_int (Z.to_int z)).

(** [sep.join(parts)]. *)
Fixpoint join (sep : text) (parts : list text) : text :=
  match parts with
  | [] => []
  | [p] => p
  | p :: rest => p ++ sep ++ join sep rest
  end.

Definition classify_budget (budget : Z) : text * text :=
  if (budget <? 500)%Z then
    (txt "low",
     txt "Stay in hostels or budget Airbnbs and use public transport.")
  else if ((500 <=? budget) && (budget <=? 1500))%Z then
    (txt "medium", txt "Use 3-star hotels and eat at mid-range restaurants.")
  else
    (txt "high",
     txt "Go for 4-star hotels, guided tours, and premium transport.").

(** [bool(days)] for an optional integer. *)
Definition int_truthy (n : option Z) : bool :=
  match n with
  | Some z => negb (z =? 0)%Z
  | None => false
  end.

(** The integer of an optional integer that is not [None]. *)
Definition int_of (n : option Z) : Z :=
  match n with
  | Some z => z
  | None => 0%Z
  end.

Definition trip_length_reasoning (days : option Z) : text :=
  if negb (int_truthy days) then txt "Trip length not mentioned."
  else if (int_of days <=? 2)%Z then
    txt "Short trip " ++ en_dash ++ txt " focus on 1" ++ en_dash
    ++ txt "2 major attractions."
  else if (int_of days <=? 5)%Z then
    txt "Medium trip " ++ en_dash
    ++ txt " include sightseeing, food, and leisure time."
  else
    txt "Long trip " ++ en_dash ++ txt " plan multiple cities or themed days.".

(** [bool(destination)] for an optional text. *)
Definition text_truthy (t : option text) : bool :=
  match t with
  | Some (_ :: _) => true
  | _ => false
  end.

(** The text of an optional text that is not [None]. *)
Definition text_of (t : option text) : text :=
  match t with
  | Some s => s
  | None => []
  end.

Definition infer_trip_type_from_gpe (ask_ollama_for_city_type : text -> text)
    (destination : option text) : option text :=
  if negb (text_truthy destination) then None
  else Some (ask_ollama_for_city_type (text_of destination)).

(** [inferred_type.title()]: [None] has no [title]. *)
Definition title_of (title : text -> text) (inferred_type : option text)
  : result text :=
  match inferred_type with
  | Some t => Ok (title t)
  | None => Raise AttributeError
  end.

(** An optional text inside an f-string. *)
Definition format_opt (t : option text) : text :=
  match t with
  | Some s => s
  | None => txt "None"
  end.

Definition symbolic_reasoning (ask_ollama_for_city_type title : text -> text)
    (query : text) (destination : option text) (budget days : option Z)
  : result text :=
  let inferred_type :=
    infer_trip_type_from_gpe ask_ollama_for_city_type destination in
  match title_of title inferred_type with
  | Raise e => Raise e
  | Ok titled =>
      let reasoning :=
        [txt "Trip Type (inferred from destination: " ++ format_opt destination
         ++ txt "): " ++ titled] in
      let reasoning :=
        if int_truthy budget then
          let (level, tip) := classify_budget (int_of budget) in
          reasoning
          ++ [txt "Budget Tier: " ++ title level ++ txt " ($"
              ++ str_int (int_of budget) ++ txt ")" ++ [10%N] ++ arrow
              ++ txt " " ++ tip]
        else reasoning in
      let reasoning :=
        if int_truthy days then
          reasoning
          ++ [txt "Trip Duration: " ++ str_int (int_of days) ++ txt " days"
              ++ [10%N] ++ arrow ++ txt " " ++ trip_length_reasoning days]
        else reasoning in
      Ok (join [10%N] reasoning)
  end.

(** ** The caller of the lookups

    [travel_planner.py]: [extract_locations], with the entity recogniser as
    a parameter, and the part of [main] that fetches the trips and calls the
    reasoner. *)

(** [bool(s)] for an optional string. *)
Definition opt_truthy (o : option string) : bool :=
  match o with
  | Some s => negb (s =? "")
  | None => false
  end.

(** The string of an optional string that is not [None]. *)
Definition opt_str (o : option string) : string :=
  match o with
  | Some s => s
  | None => ""
  end.

(** [gpe_entities text] stands for the texts of the entities labelled GPE
    that the recogniser finds in [text], in order. *)
Definition extract_locations (gpe_entities : string -> list string)
    (text : string) : option string * option string :=
  let locations := gpe_entities text in
  if (2 <=? List.length locations)%nat then
    (nth_error locations 0, nth_error locations 1)
  else if (List.length locations =? 1)%nat then (nth_error locations 0, None)
  else (None, None).

(** The trips [main] goes on with for the extracted [origin] and
    [destination], or [None] where it stops with the message that no city
    was detected. *)
Definition main_trips (g : graph) (origin destination : option string)
  : option (list (list (string * pyval))) :=
  if opt_truthy origin && opt_truthy destination then
    let trips := fetch_trip_plans g (opt_str origin) (opt_str destination) in
    if (match trips with [] => true | _ => false end) && opt_truthy origin
    then Some (fetch_trip_plans_from_origin g (opt_str origin))
    else Some trips
  else if opt_truthy origin then
    Some (fetch_trip_plans_from_origin g (opt_str origin))
  else None.

(** The call of [symbolic_reasoning] in [main], with the destination
    [extract_locations] gave. *)
Definition main_reasoning (gpe_entities : string -> list string)
    (ask_ollama_for_city_type title : text -> text)
    (query : string) (budget days : option Z) : result text :=
  let (origin, destination) := extract_locations gpe_entities query in
  symbolic_reasoning ask_ollama_for_city_type title (txt query)
    (option_map txt destination) budget days.

(** ** The extractors of the query

    [extract_budget] and [extract_days] of [travel_planner.py]. Each
    searches the text with a regular expression and converts the text of
    the first group with [int]. The expressions are taken element by
    element: a literal under [re.IGNORECASE] matches a letter in either
    case, [\s] is [is_space], [\d] is one of the ten digits (the only
    decimal digits below 256), a starred or plussed class takes the longest
    run, which is the only choice that can lead to a match in these two
    expressions, and [re.search] takes the leftmost position that
    matches. *)

(** The outcome of a call that returns or raises ValueError. *)
Inductive converted (A : Type) : Type :=
| Value (a : A)
| ValueError.

Arguments Value {A} a.
Arguments ValueError {A}.

Definition is_digit (c : ascii) : bool :=
  let n := nat_of_ascii c in ((48 <=? n) && (n <=? 57))%nat.

(** The longest run of characters of the class [p] at the start of [s],
    and what follows it. *)
Fixpoint span (p : ascii -> bool) (s : string) : string * string :=
  match s with
  | EmptyString => (EmptyString, EmptyString)
  | String c s' =>
      if p c then let (run, rest) := span p s' in (String c run, rest)
      else (EmptyString, s)
  end.

(** The lower-case literal [lit] at the start of [s], in either case: what
    follows it. *)
Fixpoint literal (lit s : string) : option string :=
  match lit, s with
  | EmptyString, _ => Some s
  | String p lit', String c s' =>
      if Ascii.eqb (lower_char c) p then literal lit' s' else None
  | String _ _, EmptyString => None
  end.

(** [re.search]: the match at the leftmost position that has one. *)
Fixpoint search {A : Type} (match_at : string -> option A) (s : string)
  : option A :=
  match match_at s with
  | Some m => Some m
  | None =>
      match s with
      | EmptyString => None
      | String _ s' => search match_at s'
      end
  end.

(** [s.replace(',', '')]. *)
Fixpoint remove_commas (s : string) : string :=
  match s with
  | EmptyString => EmptyString
  | String c s' =>
      if Ascii.eqb c "," then remove_commas s' else String c (remove_commas s')
  end.

(** The number of digits [int] converts by default. *)
Definition max_str_digits : nat := 4300.

(** [int(s)] for a string of digits and nothing else: the empty string
    and a string of more than [max_str_digits] digits raise. *)
Definition py_int (s : string) : converted Z :=
  if (s =? "") || (max_str_digits <? String.length s)%nat then ValueError
  else
    match NilEmpty.uint_of_string s with
    | Some d => Value (Z.of_uint d)
    | None => ValueError
    end.

(** The first group of [budget\s*of\s*\$?([\d,]+)] matched at the start
    of [s]. *)
Definition budget_at (s : string) : option string :=
  match literal "budget" s with
  | None => None
  | Some s1 =>
      match literal "of" (snd (span is_space s1)) with
      | None => None
      | Some s2 =>
          let s3 := snd (span is_space s2) in
          let s4 := match s3 with
                    | String "$" rest => rest
                    | _ => s3
                    end in
          let group :=
            fst (span (fun c => is_digit c || Ascii.eqb c ",") s4) in
          if group =? "" then None else Some group
      end
  end.

(** The first group of [(\d+)\s+days?] matched at the start of [s]. *)
Definition days_at (s : string) : option string :=
  let (group, s1) := span is_digit s in
  if group =? "" then None
  else
    let (spaces, s2) := span is_space s1 in
    if spaces =? "" then None
    else
      match literal "day" s2 with
      | Some _ => Some group
      | None => None
      end.

Definition extract_budget (text : string) : converted (option Z) :=
  match search budget_at text with
  | Some group =>
      match py_int (remove_commas group) with
      | Value n => Value (Some n)
      | ValueError => ValueError
      end
  | None => Value None
  end.

Definition extract_days (text : string) : converted (option Z) :=
  match search days_at text with
  | Some group =>
      match py_int group with
      | Value n => Value (Some n)
      | ValueError => ValueError
      end
  | None => Value None
  end.

(** * Vocabulary of the properties

    The notions the statements below are written in, the parts the proofs
    take the transaction functions in, and the sample records and stores
    the statements are run on. *)







(** A store with three trips, used to run the lookups. *)
Definition three_trips : graph :=
  let step (r : raw_record) (g : graph) :=
    fst (process_record Scalars.storable Literal.literal_eval r g) in
  let trip (o d : string) (n : Z) :=
    mkRecord (Some o) (Some d) (Some n) None None None None None None None
      None None in
  step (trip "Boston" "Seattle" 2%Z)
    (step (trip "boston" "Miami" 5%Z)
       (step (trip "Boston" "Miami" 4%Z) empty_graph)).

(** The labels of the four kinds of ActivityNode. *)
Definition activity_labels : list string :=
  ["Transportation"; "Meal"; "Attraction"; "Accommodation"].

(** [c], when it returns, takes a store to one related to it by [R]. *)
Definition tx_rel (R : graph -> graph -> Prop) {A} (c : tx A) : Prop :=
  forall g a g', c g = Ok (a, g') -> R g g'.

(** The number of City nodes whose name is [s]. *)
Definition count_city (s : string) (g : graph) : nat :=
  List.length (filter (node_is "City" "name" s) (nodes g)).

(** Across the writer's statements the City nodes of a name are kept, and
    stay at most one when they were at most one. *)
Definition city_step (s : string) (g g' : graph) : Prop :=
  (count_city s g <= count_city s g')%nat
  /\ ((count_city s g <= 1)%nat -> (count_city s g' <= 1)%nat).

(** The records of [dataset] that name the city [s] as origin or as
    destination. *)
Definition names_city (s : string) (record : raw_record) : Prop :=
  get (rec_org record) "Unknown" = s \/ get (rec_dest record) "Unknown" = s.

(** A load of three records, two of them with malformed or empty payloads. *)
Definition sample_dataset : list raw_record :=
  [mkRecord (Some "Boston") (Some "Miami") (Some 4%Z) None None None None None
     None None (Some "[{'days': 1, 'current_city': 'Miami', 'lunch': 'Deli'}]")
     None;
   mkRecord (Some "Miami") (Some "Boston") (Some 2%Z) None None None None None
     None None (Some "[[[") (Some "7");
   mkRecord (Some "Boston") None None None None None None None None None None
     None].

(** The relationships of the graph schema: label of the source, type,
    label of the target. *)
Definition schema : list (string * string * string) :=
  [("TripPlan", "ORIGIN", "City");
   ("TripPlan", "DESTINATION", "City");
   ("TripPlan", "HAS_DAY_PLAN", "DayPlan");
   ("DayPlan", "IN_CITY", "City");
   ("TripPlan", "HAS_REFERENCE", "ReferenceInfo");
   ("DayPlan", "HAS_TRANSPORTATION", "Transportation");
   ("DayPlan", "HAS_MEAL", "Meal");
   ("DayPlan", "HAS_ATTRACTION", "Attraction");
   ("DayPlan", "HAS_ACCOMMODATION", "Accommodation")].

(** The relationship types from a DayPlan to an ActivityNode. *)
Definition activity_rel_types : list string :=
  ["HAS_TRANSPORTATION"; "HAS_MEAL"; "HAS_ATTRACTION"; "HAS_ACCOMMODATION"].

(** Both ends of [e] are nodes of [ns], and [e] is a relationship of the
    schema between nodes of their labels. *)
Definition edge_ok (ns : list node) (e : edge) : Prop :=
  exists a b,
    nth_error ns (esrc e) = Some a /\ nth_error ns (edst e) = Some b
    /\ In (nlabel a, etype e, nlabel b) schema.

(** Every relationship of the store follows the schema. *)
Definition schema_ok (g : graph) : Prop :=
  forall e, In e (edges g) -> edge_ok (nodes g) e.

(** [adds L T g g']: [g'] is [g] with more nodes, all labelled in [L], and
    more relationships, all typed in [T]. *)
Definition adds (L T : list string) (g g' : graph) : Prop :=
  exists ns es,
    nodes g' = nodes g ++ ns /\ edges g' = edges g ++ es
    /\ Forall (fun n => In (nlabel n) L) ns
    /\ Forall (fun e => In (etype e) T) es.

(** The number of nodes labelled [lbl]. *)
Definition count_label (lbl : string) (g : graph) : nat :=
  List.length (filter (fun n => nlabel n =? lbl) (nodes g)).

(** The [current_city] step of [_create_day_plan]. *)
Definition day_plan_city (dp_id : nat) (day_plan : list (pyval * pyval))
  : tx unit :=
  tx_if_data (dict_get day_plan "current_city" (PyStr ""))
    (tx_run (cy_merge_current_city
               (dict_get day_plan "current_city" (PyStr ""))) ;;
     tx_run (cy_link_current_city dp_id
               (dict_get day_plan "current_city" (PyStr "")))).

(** The six activity steps of [_create_day_plan], in the order of the
    source. *)
Definition day_plan_activities (dp_id : nat) (day_plan : list (pyval * pyval))
  : tx unit :=
  tx_if_data (dict_get day_plan "transportation" (PyStr ""))
    (_create_related_node dp_id (dict_get day_plan "transportation" (PyStr ""))
       "Transportation" None) ;;
  tx_if_data (dict_get day_plan "breakfast" (PyStr ""))
    (_create_related_node dp_id (dict_get day_plan "breakfast" (PyStr ""))
       "Meal" (Some "Breakfast")) ;;
  tx_if_data (dict_get day_plan "lunch" (PyStr ""))
    (_create_related_node dp_id (dict_get day_plan "lunch" (PyStr ""))
       "Meal" (Some "Lunch")) ;;
  tx_if_data (dict_get day_plan "dinner" (PyStr ""))
    (_create_related_node dp_id (dict_get day_plan "dinner" (PyStr ""))
       "Meal" (Some "Dinner")) ;;
  tx_if_data (dict_get day_plan "attraction" (PyStr ""))
    (_create_related_node dp_id (dict_get day_plan "attraction" (PyStr ""))
       "Attraction" None) ;;
  tx_if_data (dict_get day_plan "accommodation" (PyStr ""))
    (_create_related_node dp_id (dict_get day_plan "accommodation" (PyStr ""))
       "Accommodation" None).

(** The node [_create_day_plan] creates first. *)
Definition day_plan_node (day_plan : list (pyval * pyval)) : node :=
  mkNode "DayPlan"
    [("day", dict_get day_plan "days" PyNone);
     ("current_city", dict_get day_plan "current_city" (PyStr ""))].

(** The store after [cy_create_day_plan] and after [cy_create_reference],
    when they do not raise. *)
Definition day_plan_created (tp_id : nat) (day_number current_city : pyval)
    (g : graph) : graph :=
  if match_id "TripPlan" tp_id g then
    merge_edge tp_id "HAS_DAY_PLAN" (List.length (nodes g))
      (fst (create_node "DayPlan"
              [("day", day_number); ("current_city", current_city)] g))
  else g.

Definition reference_created (tp_id : nat) (description content : pyval)
    (g : graph) : graph :=
  if match_id "TripPlan" tp_id g then
    merge_edge tp_id "HAS_REFERENCE" (List.length (nodes g))
      (fst (create_node "ReferenceInfo"
              [("description", description); ("content", content)] g))
  else g.

(** The store takes the two values [_create_day_plan] stores on the
    DayPlan of the entry, and the two [_create_reference_info] stores on
    the ReferenceInfo of the entry. *)
Definition day_plan_stored (storable : pyval -> bool)
    (d : list (pyval * pyval)) : bool :=
  stored storable (dict_get d "days" PyNone)
  && stored storable (dict_get d "current_city" (PyStr "")).

Definition reference_stored (storable : pyval -> bool)
    (d : list (pyval * pyval)) : bool :=
  stored storable (dict_get d "Description" (PyStr ""))
  && stored storable (dict_get d "Content" (PyStr "")).

(** The store after the first statement of [_create_day_plan], when the
    TripPlan is matched. *)
Definition with_day_plan (tp_id : nat) (day_plan : list (pyval * pyval))
    (g : graph) : graph :=
  merge_edge tp_id "HAS_DAY_PLAN" (List.length (nodes g))
    (mkGraph (nodes g ++ [day_plan_node day_plan]) (edges g)).

(** The loop of [_create_trip_plan] over the decoded annotated plan. *)
Definition day_plans_loop (storable : pyval -> bool) (tp_id : nat)
    (day_plans : pyval) : tx unit :=
  match day_plans with
  | PyList l =>
      tx_for l (fun day_plan =>
        match day_plan with
        | PyDict d =>
            tx_when (truthy day_plan) (_create_day_plan storable tp_id d)
        | _ => tx_ret tt
        end)
  | _ => tx_ret tt
  end.

(** The loop of [_create_trip_plan] over the decoded reference
    information. *)
Definition ref_infos_loop (storable : pyval -> bool) (tp_id : nat)
    (ref_infos : pyval) : tx unit :=
  match ref_infos with
  | PyList l =>
      tx_for l (fun ref =>
        match ref with
        | PyDict d =>
            tx_when (dict_has d "Description" && dict_has d "Content")
              (_create_reference_info storable tp_id d)
        | _ => tx_ret tt
        end)
  | _ => tx_ret tt
  end.

(** The TripPlan node of a record's fields. *)
Definition trip_plan_node
    (org dest : string) (days visiting_city_number : Z) (date : string)
    (people_number : Z) (local_constraint : string) (budget : Z)
    (query_text level annotated_plan reference_information : string) : node :=
  mkNode "TripPlan"
    [("org", PyStr org);
     ("dest", PyStr dest);
     ("days", PyInt days);
     ("visiting_city_number", PyInt visiting_city_number);
     ("date", PyStr date);
     ("people_number", PyInt people_number);
     ("local_constraint", PyStr local_constraint);
     ("budget", PyInt budget);
     ("query", PyStr query_text);
     ("level", PyStr level);
     ("annotated_plan", PyStr annotated_plan);
     ("reference_information", PyStr reference_information)].

(** The store after the first two statements of [_create_trip_plan]. *)
Definition with_trip_plan (tp : node) (org dest : string) (g : graph) : graph :=
  cy_link_cities (List.length (nodes g)) org dest
    (mkGraph (nodes g ++ [tp]) (edges g)).

(** The entries of a decoded annotated plan that get a DayPlan: the
    non-empty dicts of a list. *)
Definition kept_day_plans (day_plans : pyval) : list (list (pyval * pyval)) :=
  match day_plans with
  | PyList l =>
      flat_map (fun x =>
                  match x with
                  | PyDict d => if truthy x then [d] else []
                  | _ => []
                  end) l
  | _ => []
  end.

(** The entries of decoded reference information that get a ReferenceInfo:
    the dicts of a list that have both keys. *)
Definition kept_ref_infos (ref_infos : pyval) : list (list (pyval * pyval)) :=
  match ref_infos with
  | PyList l =>
      flat_map (fun x =>
                  match x with
                  | PyDict d =>
                      if dict_has d "Description" && dict_has d "Content"
                      then [d] else []
                  | _ => []
                  end) l
  | _ => []
  end.

(** What the steps after the first statement of [_create_day_plan] add:
    labels of nodes, types of relationships. *)
Definition day_plan_labels : list string := "City" :: activity_labels.

Definition day_plan_rel_types : list string := "IN_CITY" :: activity_rel_types.

(** What the day-plan loop adds. *)
Definition trip_labels : list string :=
  "DayPlan" :: day_plan_labels.

Definition trip_rel_types : list string :=
  "HAS_DAY_PLAN" :: day_plan_rel_types.

(** [a] has a [ty] relationship to a City node named [s]. *)
Definition linked_to_city (g : graph) (a : nat) (ty s : string) : Prop :=
  exists c n,
    In (mkEdge a ty c) (edges g) /\ nth_error (nodes g) c = Some n
    /\ node_is "City" "name" s n = true.

(** What the two loops of the trip transaction add. *)
Definition all_labels : list string := "ReferenceInfo" :: trip_labels.

Definition all_rel_types : list string := "HAS_REFERENCE" :: trip_rel_types.

(** The origin and the destination [process_record] works with. *)
Definition record_org (r : raw_record) : string := get (rec_org r) "Unknown".

Definition record_dest (r : raw_record) : string := get (rec_dest r) "Unknown".

(** The TripPlan node [process_record] creates for [r]. *)
Definition record_trip_node (r : raw_record) : node :=
  trip_plan_node (record_org r) (record_dest r)
    (get (rec_days r) 0%Z) (get (rec_visiting_city_number r) 0%Z)
    (get (rec_date r) "[]") (get (rec_people_number r) 0%Z)
    (get (rec_local_constraint r) "{}") (get (rec_budget r) 0%Z)
    (get (rec_query r) "") (get (rec_level r) "unknown")
    (get (rec_annotated_plan r) "[]")
    (get (rec_reference_information r) "[]").

(** The store the first two transactions of [process_record] commit. *)
Definition after_city_merges (r : raw_record) (g : graph) : graph :=
  cy_merge_city (record_dest r) (cy_merge_city (record_org r) g).

(** The decoded payloads of [r]. *)
Definition record_day_plans (literal_eval : string -> option pyval)
    (r : raw_record) : pyval :=
  decode_or_empty literal_eval (get (rec_annotated_plan r) "[]").

Definition record_ref_infos (literal_eval : string -> option pyval)
    (r : raw_record) : pyval :=
  decode_or_empty literal_eval (get (rec_reference_information r) "[]").

(** A record whose first day entry has a number where the writer expects
    text. *)
Definition record_with_number : raw_record :=
  mkRecord (Some "New York") (Some "Chicago") (Some 3%Z) None None None None
    None None None
    (Some "[{'days': 1, 'current_city': 'Chicago', 'transportation': 5}]")
    None.

(** The record with no field at all. *)
Definition empty_record : raw_record :=
  mkRecord None None None None None None None None None None None None.

(** The properties [_create_related_node] gives the node. *)
Definition related_props (value : pyval) (meal_type : option string)
  : list (string * pyval) :=
  match meal_type with
  | Some m =>
      if negb (m =? "") then [("value", value); ("meal_type", PyStr m)]
      else [("value", value)]
  | None => [("value", value)]
  end.

(** The condition of [_create_day_plan] on [v] does not raise: [v] is
    falsy, a string or a byte string. *)
Definition no_raise (v : pyval) : bool :=
  match valid_data v with
  | Ok _ => true
  | Raise _ => false
  end.

(** The fields of a day entry that [_create_day_plan] tests. *)
Definition day_plan_fields : list string :=
  ["current_city"; "transportation"; "breakfast"; "lunch"; "dinner";
   "attraction"; "accommodation"].

(** No field of the entry makes [_create_day_plan] raise. *)
Definition day_plan_clean (d : list (pyval * pyval)) : bool :=
  forallb (fun k => no_raise (dict_get d k (PyStr ""))) day_plan_fields.

(** The test of the source on a string: non-empty, and not a dash once
    trimmed. *)
Definition present (s : string) : bool :=
  negb (s =? "") && negb (strip s =? "-").

(** The condition of [_create_day_plan] holds of [v]. *)
Definition has_data (v : pyval) : bool :=
  match valid_data v with
  | Ok b => b
  | Raise _ => false
  end.

(** The ActivityNode of one field: none, or one with the field's value. *)
Definition field_nodes (label : string) (meal_type : option string)
    (v : pyval) : list node :=
  if has_data v then [mkNode label (related_props v meal_type)] else [].

(** The ActivityNodes of a day entry, in the order the source creates
    them. *)
Definition day_plan_activity_nodes (d : list (pyval * pyval)) : list node :=
  field_nodes "Transportation" None (dict_get d "transportation" (PyStr ""))
  ++ field_nodes "Meal" (Some "Breakfast") (dict_get d "breakfast" (PyStr ""))
  ++ field_nodes "Meal" (Some "Lunch") (dict_get d "lunch" (PyStr ""))
  ++ field_nodes "Meal" (Some "Dinner") (dict_get d "dinner" (PyStr ""))
  ++ field_nodes "Attraction" None (dict_get d "attraction" (PyStr ""))
  ++ field_nodes "Accommodation" None (dict_get d "accommodation" (PyStr "")).

(** The store ends with the nodes [acts] after the nodes [base], each
    linked from the DayPlan [dp] by the relationship named after its label. *)
Definition acts_linked (dp : nat) (base acts : list node) (g : graph) : Prop :=
  nodes g = base ++ acts
  /\ match_id "DayPlan" dp g = true
  /\ forall i n,
       nth_error acts i = Some n ->
       In (mkEdge dp ("HAS_" ++ upper (nlabel n))%string (List.length base + i))
          (edges g).

(** [v] is not a string. *)
Definition not_str (v : pyval) : bool :=
  match v with
  | PyStr _ => false
  | _ => true
  end.

(** [a] has a [ty] relationship to a City node whose name is the string or
    byte string [v]. *)
Definition linked_to_named (g : graph) (a : nat) (ty : string) (v : pyval)
  : Prop :=
  exists c n,
    In (mkEdge a ty c) (edges g) /\ nth_error (nodes g) c = Some n
    /\ node_has "City" "name" v n = true.

(** The City node the merge of the current city [v] creates in [g]: none
    when [g] has one of that name. *)
Definition new_city (v : pyval) (g : graph) : list node :=
  if existsb (node_has "City" "name" v) (nodes g) then []
  else [mkNode "City" [("name", v)]].

(** The node [_create_reference_info] creates for the entry [d]. *)
Definition reference_node (d : list (pyval * pyval)) : node :=
  mkNode "ReferenceInfo"
    [("description", dict_get d "Description" (PyStr ""));
     ("content", dict_get d "Content" (PyStr ""))].

(** What [_create_day_plan] leaves in the store [g'] for the entry [d],
    started on [g] under the TripPlan [tp]: the DayPlan node as the first
    new node, linked from the TripPlan; then the City of the entry, when
    the entry names one that the store has not, the DayPlan being linked to
    a City of that name; then the ActivityNodes of the entry, each linked
    from the DayPlan by the relationship of its kind; and nothing else. *)
Definition day_materialized (tp : nat) (d : list (pyval * pyval))
    (g g' : graph) : Prop :=
  let dp := List.length (nodes g) in
  let city := dict_get d "current_city" (PyStr "") in
  exists cities,
    acts_linked dp (nodes g ++ day_plan_node d :: cities)
      (day_plan_activity_nodes d) g'
    /\ In (mkEdge tp "HAS_DAY_PLAN" dp) (edges g')
    /\ (if has_data city
        then cities = new_city city g
             /\ linked_to_named g' dp "IN_CITY" city
        else cities = [])
    /\ adds trip_labels trip_rel_types g g'.

(** The same for the entries [days], one after the other. *)
Fixpoint days_materialized (tp : nat) (days : list (list (pyval * pyval)))
    (g g' : graph) : Prop :=
  match days with
  | [] => g' = g
  | d :: rest =>
      exists g1, day_materialized tp d g g1 /\ days_materialized tp rest g1 g'
  end.

(** What the reference loop leaves for the entries [refs]: their
    ReferenceInfo nodes, in order, as the last nodes of the store, each
    linked from the TripPlan. *)
Definition refs_materialized (tp : nat) (refs : list (list (pyval * pyval)))
    (g g' : graph) : Prop :=
  nodes g' = nodes g ++ map reference_node refs
  /\ (forall i d,
        nth_error refs i = Some d ->
        In (mkEdge tp "HAS_REFERENCE" (List.length (nodes g) + i)) (edges g'))
  /\ adds ["ReferenceInfo"] ["HAS_REFERENCE"] g g'.

(** What a committed trip transaction leaves in the store [g'], started on
    [g]: the TripPlan node [tpn] as the first new node, linked to a City of
    each name; below it the subgraph of each entry of [days], then the
    ReferenceInfo nodes of [refs]; and nothing else. *)
Definition trip_materialized (g g' : graph) (tpn : node) (o d : string)
    (days refs : list (list (pyval * pyval))) : Prop :=
  let tp := List.length (nodes g) in
  nth_error (nodes g') tp = Some tpn
  /\ adds all_labels all_rel_types (with_trip_plan tpn o d g) g'
  /\ linked_to_city g' tp "ORIGIN" o
  /\ linked_to_city g' tp "DESTINATION" d
  /\ count_label "TripPlan" g' = S (count_label "TripPlan" g)
  /\ count_label "DayPlan" g' = (count_label "DayPlan" g + List.length days)%nat
  /\ count_label "ReferenceInfo" g' =
     (count_label "ReferenceInfo" g + List.length refs)%nat
  /\ exists g2,
       days_materialized tp days (with_trip_plan tpn o d g) g2
       /\ refs_materialized tp refs g2 g'.

(** The exception [_create_day_plan] raises on the entry [d] under a
    matched TripPlan, if any: the store's when it refuses the day number or
    the current city, and AttributeError when the two are stored and one of
    the seven fields is truthy and has no [strip]. *)
Definition day_plan_failure (storable : pyval -> bool)
    (d : list (pyval * pyval)) : option exn :=
  if day_plan_stored storable d then
    if day_plan_clean d then None else Some AttributeError
  else Some StoreError.

(** The exception [_create_reference_info] raises on the entry [d] under a
    matched TripPlan, if any. *)
Definition reference_failure (storable : pyval -> bool)
    (d : list (pyval * pyval)) : option exn :=
  if reference_stored storable d then None else Some StoreError.

(** The failure of the first entry of [l] that has one. *)
Fixpoint first_failure {A} (f : A -> option exn) (l : list A) : option exn :=
  match l with
  | [] => None
  | x :: l' =>
      match f x with
      | Some e => Some e
      | None => first_failure f l'
      end
  end.

(** The exception the trip transaction of a record raises, if any: that of
    its first failing day entry, and with none, that of its first failing
    reference entry. *)
Definition record_failure (storable : pyval -> bool)
    (literal_eval : string -> option pyval) (r : raw_record) : option exn :=
  match first_failure (day_plan_failure storable)
          (kept_day_plans (record_day_plans literal_eval r)) with
  | Some e => Some e
  | None =>
      first_failure (reference_failure storable)
        (kept_ref_infos (record_ref_infos literal_eval r))
  end.


(** A record whose only activity field is one blank. *)
Definition record_with_blank : raw_record :=
  mkRecord (Some "Boston") (Some "Miami") (Some 1%Z) None None None None None
    None None (Some "[{'days': 1, 'transportation': ' '}]") None.

(** [isinstance(v, list)]. *)
Definition is_list (v : pyval) : bool :=
  match v with
  | PyList _ => true
  | _ => false
  end.





(** A record whose day entry has byte strings where the dataset has text. *)
Definition record_with_bytes : raw_record :=
  mkRecord (Some "New York") (Some "Chicago") (Some 3%Z) None None None None
    None None None
    (Some "[{'days': 1, 'current_city': b'Chicago', 'transportation': b'bus'}]")
    None.

(** One record from New York to Chicago with two day entries and one
    reference entry. *)
Definition scenario_record : raw_record :=
  mkRecord (Some "New York") (Some "Chicago") (Some 3%Z) None None None None
    None None None
    (Some "[{'days': 1, 'current_city': 'New York', 'breakfast': 'Hotel buffet', 'attraction': '-'}, {'days': 2, 'current_city': 'Chicago', 'attraction': 'Millennium Park'}]")
    (Some "[{'Description': 'Visa', 'Content': 'Not required'}]").

(** ** The load, the store after it and the extractors *)

(** The TripPlan nodes of the store, in id order. *)
Definition trip_nodes (g : graph) : list node :=
  filter (fun n => nlabel n =? "TripPlan") (nodes g).

(** The labels and the relationship types the writer uses. *)
Definition writer_labels : list string := "TripPlan" :: all_labels.
Definition writer_rel_types : list string :=
  "ORIGIN" :: "DESTINATION" :: all_rel_types.

(** The summary the lookups return for the TripPlan of [r]. *)
Definition record_summary (r : raw_record) : list (string * pyval) :=
  [("org", PyStr (get (rec_org r) "Unknown"));
   ("dest", PyStr (get (rec_dest r) "Unknown"));
   ("days", PyInt (get (rec_days r) 0%Z));
   ("date", PyStr (get (rec_date r) "[]"));
   ("people_number", PyInt (get (rec_people_number r) 0%Z));
   ("budget", PyInt (get (rec_budget r) 0%Z));
   ("query_text", PyStr (get (rec_query r) ""));
   ("level", PyStr (get (rec_level r) "unknown"));
   ("annotated_plan", PyStr (get (rec_annotated_plan r) "[]"));
   ("reference_information",
    PyStr (get (rec_reference_information r) "[]"))].

(** [r] is a record from [o], and from [o] to [d], up to letter case. *)
Definition from_origin (o : string) (r : raw_record) : bool :=
  toLower (get (rec_org r) "Unknown") =? toLower o.

Definition from_to (o d : string) (r : raw_record) : bool :=
  from_origin o r && (toLower (get (rec_dest r) "Unknown") =? toLower d).

(** The [ty] relationships that start at [a]. *)
Definition out_edges (g : graph) (a : nat) (ty : string) : list edge :=
  filter (fun e => (esrc e =? a)%nat && (etype e =? ty)) (edges g).

(** The TripPlan [n] at id [t] has one ORIGIN relationship, to a City named
    as its [org], and one DESTINATION relationship, to a City named as its
    [dest]. *)
Definition trip_linked (g : graph) (t : nat) (n : node) : Prop :=
  exists c1 c2 n1 n2 o d,
    prop n "org" = PyStr o /\ prop n "dest" = PyStr d
    /\ out_edges g t "ORIGIN" = [mkEdge t "ORIGIN" c1]
    /\ out_edges g t "DESTINATION" = [mkEdge t "DESTINATION" c2]
    /\ nth_error (nodes g) c1 = Some n1 /\ node_is "City" "name" o n1 = true
    /\ nth_error (nodes g) c2 = Some n2 /\ node_is "City" "name" d n2 = true.

Definition trips_linked (g : graph) : Prop :=
  forall t n,
    nth_error (nodes g) t = Some n -> nlabel n = "TripPlan" -> trip_linked g t n.

(** The invariant of the committed store. *)
Definition store_ok (g : graph) : Prop :=
  schema_ok g /\ (forall s, (count_city s g <= 1)%nat) /\ trips_linked g.

(** The relationships that end at [b]. *)
Definition in_edges (g : graph) (b : nat) : list edge :=
  filter (fun e => (edst e =? b)%nat) (edges g).

(** The labels of the nodes created below a TripPlan. *)
Definition child_labels : list string :=
  "DayPlan" :: "ReferenceInfo" :: activity_labels.

(** Every child node has exactly one incoming relationship. *)
Definition one_parent (g : graph) : Prop :=
  forall b n,
    nth_error (nodes g) b = Some n -> In (nlabel n) child_labels ->
    exists e, in_edges g b = [e].

Definition tree_ok (g : graph) : Prop := schema_ok g /\ one_parent g.






(** Every character of [s] is of the class [p]. *)
Fixpoint all_chars (p : ascii -> bool) (s : string) : bool :=
  match s with
  | EmptyString => true
  | String c s' => p c && all_chars p s'
  end.

(** [s] starts with a character of the class [p]. *)
Definition head_in (p : ascii -> bool) (s : string) : bool :=
  match s with
  | EmptyString => false
  | String c _ => p c
  end.

(** [str(n)] as a string. *)
Definition decimal (n : Z) : string := NilZero.string_of_int (Z.to_int n).

(** The class [[\d,]] of the budget expression. *)
Definition digit_or_comma (c : ascii) : bool := is_digit c || Ascii.eqb c ",".

Definition not_digit (c : ascii) : bool := negb (is_digit c).

(** Neither [b] nor [B]. *)
Definition not_b (c : ascii) : bool := negb (Ascii.eqb (lower_char c) "b").

(** * Properties *)

(** [In x l] for an explicit list [l] that holds [x]; [~ In x l] for an
    explicit list of strings that does not. *)
Ltac in_list := repeat first [left; reflexivity | right].

Ltac not_in_list :=
  let H := fresh in
  intros H; simpl in H;
  repeat (destruct H as [H | H]; [discriminate |]); exact H.

(** ** The decoder on sample texts *)

Example literal_eval_days :
  Literal.literal_eval
    "[{'days': 1, 'current_city': 'New York', 'breakfast': 'Hotel buffet', 'attraction': '-'}, {'days': 2, 'attraction': 'Millennium Park'}]"
  = Some (PyList
      [PyDict [(PyStr "days", PyInt 1); (PyStr "current_city", PyStr "New York");
               (PyStr "breakfast", PyStr "Hotel buffet");
               (PyStr "attraction", PyStr "-")];
       PyDict [(PyStr "days", PyInt 2);
               (PyStr "attraction", PyStr "Millennium Park")]]).
Proof. vm_compute. reflexivity. Qed.

Example literal_eval_cases :
  Literal.literal_eval "[]" = Some (PyList [])
  /\ Literal.literal_eval "{}" = Some (PyDict [])
  /\ Literal.literal_eval " [ 1 , -2, None,True, 'x' ,] " =
       Some (PyList [PyInt 1; PyInt (-2); PyNone; PyBool true; PyStr "x"])
  /\ Literal.literal_eval "{'a': 1, 'a': 2}" = Some (PyDict [(PyStr "a", PyInt 2)])
  /\ Literal.literal_eval "7" = Some (PyInt 7)
  /\ Literal.literal_eval "[[[" = None
  /\ Literal.literal_eval "[,]" = None
  /\ Literal.literal_eval "[1 2]" = None
  /\ Literal.literal_eval "Nonesuch" = None
  /\ Literal.literal_eval "" = None.
Proof. vm_compute. repeat split; reflexivity. Qed.

(** ** Letter case *)












(** C10. Every summary the combined lookup returns for [(o, d)] is also
    returned by the origin-only lookup for [o]. *)
Theorem origin_lookup_contains_combined
    (g : graph) (o d : string) (x : list (string * pyval)) :
  In x (fetch_trip_plans g o d) -> In x (fetch_trip_plans_from_origin g o).
Proof.
  unfold fetch_trip_plans, fetch_trip_plans_from_origin, read_transaction,
    _get_trip_plans, _get_trip_plans_from_origin.
  rewrite !map_id, !in_map_iff.
  intros [t [Hx Ht]]. exists t. split; [exact Hx |].
  apply filter_In in Ht. destruct Ht as [Hin Hp].
  apply filter_In. split; [exact Hin |].
  apply andb_true_iff in Hp. destruct Hp as [Hl Hp].
  apply andb_true_iff in Hp. destruct Hp as [Ho _].
  now rewrite Hl, Ho.
Qed.

Lemma origin_lookup_contains_combined_witness :
  In (trip_summary
        (mkNode "TripPlan"
           [("org", PyStr "boston"); ("dest", PyStr "Miami"); ("days", PyInt 5);
            ("visiting_city_number", PyInt 0); ("date", PyStr "[]");
            ("people_number", PyInt 0); ("local_constraint", PyStr "{}");
            ("budget", PyInt 0); ("query", PyStr ""); ("level", PyStr "unknown");
            ("annotated_plan", PyStr "[]");
            ("reference_information", PyStr "[]")]))
     (fetch_trip_plans_from_origin three_trips "BOSTON").
Proof.
  apply (origin_lookup_contains_combined three_trips "BOSTON" "miami").
  vm_compute. right. left. reflexivity.
Defined.

(** ** Reasoning statement by statement

    A relation between the store before and after that is reflexive,
    transitive and holds across every statement the writer runs holds across
    every transaction function, across [process_record] (whatever its
    outcome) and across the whole load. *)

Lemma cy_create_day_plan_ok storable tp dn cc g g' r :
  cy_create_day_plan storable tp dn cc g = Ok (g', r) ->
  g' = day_plan_created tp dn cc g.
Proof.
  unfold cy_create_day_plan, day_plan_created.
  destruct (match_id "TripPlan" tp g); [| now inversion 1].
  destruct (stored storable dn && stored storable cc); [| discriminate].
  simpl. now inversion 1.
Qed.

Lemma cy_create_reference_ok storable tp ds ct g g' :
  cy_create_reference storable tp ds ct g = Ok g' ->
  g' = reference_created tp ds ct g.
Proof.
  unfold cy_create_reference, reference_created.
  destruct (match_id "TripPlan" tp g); [| now inversion 1].
  destruct (stored storable ds && stored storable ct); [| discriminate].
  simpl. now inversion 1.
Qed.

Section Stepwise.

Variable R : graph -> graph -> Prop.
Hypothesis R_refl : forall g, R g g.
Hypothesis R_trans : forall g1 g2 g3, R g1 g2 -> R g2 g3 -> R g1 g3.

Lemma tx_rel_ret {A} (a : A) : tx_rel R (tx_ret a).
Proof. intros g a' g' H. inversion H; subst. apply R_refl. Qed.

Lemma tx_rel_bind {A B} (c : tx A) (k : A -> tx B) :
  tx_rel R c -> (forall a, tx_rel R (k a)) -> tx_rel R (tx_bind c k).
Proof.
  intros Hc Hk g b g' H. unfold tx_bind in H.
  destruct (c g) as [[a g1] | e] eqn:E; [| discriminate].
  eapply R_trans; [eapply Hc; eassumption | eapply Hk; eassumption].
Qed.

Lemma tx_rel_lift {A} (r : result A) : tx_rel R (tx_lift r).
Proof.
  intros g a g' H. unfold tx_lift in H.
  destruct r; inversion H; subst. apply R_refl.
Qed.

Lemma tx_rel_run (stmt : graph -> graph) :
  (forall g, R g (stmt g)) -> tx_rel R (tx_run stmt).
Proof. intros Hs g a g' H. inversion H; subst. apply Hs. Qed.

Lemma tx_rel_run_returning {A} (stmt : graph -> graph * A) :
  (forall g, R g (fst (stmt g))) -> tx_rel R (tx_run_returning stmt).
Proof.
  intros Hs g a g' H. unfold tx_run_returning in H.
  specialize (Hs g). destruct (stmt g) as [g1 a1].
  inversion H; subst. exact Hs.
Qed.

Lemma tx_rel_when (b : bool) (c : tx unit) : tx_rel R c -> tx_rel R (tx_when b c).
Proof. intros Hc. destruct b; simpl; [exact Hc | apply tx_rel_ret]. Qed.

Lemma tx_rel_for {A} (l : list A) (body : A -> tx unit) :
  (forall x, tx_rel R (body x)) -> tx_rel R (tx_for l body).
Proof.
  intros Hb. induction l as [| x l IH]; simpl.
  - apply tx_rel_ret.
  - apply tx_rel_bind; [apply Hb | intros _; exact IH].
Qed.

Lemma tx_rel_if_data (v : pyval) (body : tx unit) :
  tx_rel R body -> tx_rel R (tx_if_data v body).
Proof.
  intros Hb. unfold tx_if_data.
  apply tx_rel_bind; [apply tx_rel_lift |].
  intros b. now apply tx_rel_when.
Qed.

Lemma tx_rel_exec (stmt : graph -> result graph) :
  (forall g g', stmt g = Ok g' -> R g g') -> tx_rel R (tx_exec stmt).
Proof.
  intros Hs g a g' H. unfold tx_exec in H.
  destruct (stmt g) as [g1 | e] eqn:E; inversion H; subst. now apply Hs.
Qed.

Lemma tx_rel_exec_returning {A} (stmt : graph -> result (graph * A)) :
  (forall g g' a, stmt g = Ok (g', a) -> R g g') ->
  tx_rel R (tx_exec_returning stmt).
Proof.
  intros Hs g a g' H. unfold tx_exec_returning in H.
  destruct (stmt g) as [[g1 a1] | e] eqn:E; inversion H; subst.
  eapply Hs. exact E.
Qed.

Hypothesis R_merge_city : forall s g, R g (cy_merge_city s g).
Hypothesis R_create_trip_plan :
  forall o d n v dt p lc b q lv ap ri g,
    R g (fst (cy_create_trip_plan o d n v dt p lc b q lv ap ri g)).
Hypothesis R_link_cities : forall tp o d g, R g (cy_link_cities tp o d g).
Hypothesis R_create_day_plan :
  forall tp dn cc g, R g (day_plan_created tp dn cc g).
Hypothesis R_merge_current_city : forall v g, R g (cy_merge_current_city v g).
Hypothesis R_link_current_city :
  forall dp v g, R g (cy_link_current_city dp v g).
Hypothesis R_create_related :
  forall dp label props g,
    In label activity_labels ->
    R g (cy_create_related dp label props ("HAS_" ++ upper label)%string g).
Hypothesis R_create_reference :
  forall tp ds ct g, R g (reference_created tp ds ct g).

Variable storable : pyval -> bool.

Lemma create_related_node_rel dp value label meal_type :
  In label activity_labels ->
  tx_rel R (_create_related_node dp value label meal_type).
Proof.
  intros Hl. unfold _create_related_node.
  destruct meal_type as [m |]; [destruct (negb (m =? "")) |];
    apply tx_rel_run; intros g; now apply R_create_related.
Qed.

Lemma create_day_plan_rel tp day_plan :
  tx_rel R (_create_day_plan storable tp day_plan).
Proof.
  unfold _create_day_plan.
  apply tx_rel_bind.
  { apply tx_rel_exec_returning. intros g g' a H.
    rewrite (cy_create_day_plan_ok _ _ _ _ _ _ _ H). apply R_create_day_plan. }
  intros record. apply tx_rel_bind; [apply tx_rel_lift |]. intros dp.
  apply tx_rel_bind.
  { apply tx_rel_if_data.
    apply tx_rel_bind; [apply tx_rel_run, R_merge_current_city |].
    intros _. apply tx_rel_run, R_link_current_city. }
  intros _.
  repeat (apply tx_rel_bind;
          [apply tx_rel_if_data; apply create_related_node_rel;
           simpl; tauto | intros _]).
  apply tx_rel_if_data; apply create_related_node_rel;
    simpl; tauto.
Qed.

Lemma create_reference_info_rel tp ref :
  tx_rel R (_create_reference_info storable tp ref).
Proof.
  apply tx_rel_exec. intros g g' H.
  rewrite (cy_create_reference_ok _ _ _ _ _ _ H). apply R_create_reference.
Qed.

Variable literal_eval : string -> option pyval.

Lemma create_trip_plan_rel o d n v dt p lc b q lv ap ri :
  tx_rel R (_create_trip_plan storable literal_eval o d n v dt p lc b q lv ap ri).
Proof.
  unfold _create_trip_plan.
  apply tx_rel_bind; [apply tx_rel_run_returning, R_create_trip_plan |].
  intros tp. apply tx_rel_bind; [apply tx_rel_run, R_link_cities |].
  intros _. apply tx_rel_bind.
  - destruct (decode_or_empty literal_eval ap); try apply tx_rel_ret.
    apply tx_rel_for. intros x.
    destruct x; try apply tx_rel_ret.
    apply tx_rel_when, create_day_plan_rel.
  - intros _.
    destruct (decode_or_empty literal_eval ri); try apply tx_rel_ret.
    apply tx_rel_for. intros x.
    destruct x; try apply tx_rel_ret.
    apply tx_rel_when, create_reference_info_rel.
Qed.

Lemma write_transaction_rel {A} (f : tx A) g g' (res : result A) :
  tx_rel R f -> write_transaction f g = (g', res) -> R g g'.
Proof.
  intros Hf H. unfold write_transaction in H.
  destruct (f g) as [[a g1] | e] eqn:E; inversion H; subst.
  - eapply Hf; eassumption.
  - apply R_refl.
Qed.

Lemma session_seq_rel {A B} (c : session A) (k : session B) g g' res :
  (forall g1 g2 r, c g1 = (g2, r) -> R g1 g2) ->
  (forall g1 g2 r, k g1 = (g2, r) -> R g1 g2) ->
  session_seq c k g = (g', res) -> R g g'.
Proof.
  intros Hc Hk H. unfold session_seq in H.
  destruct (c g) as [g1 [a | e]] eqn:E.
  - eapply R_trans; [eapply Hc; eassumption | eapply Hk; eassumption].
  - inversion H; subst. eapply Hc; eassumption.
Qed.

Lemma process_record_rel record g g' res :
  process_record storable literal_eval record g = (g', res) -> R g g'.
Proof.
  unfold process_record. apply session_seq_rel.
  - intros g1 g2 r. apply write_transaction_rel.
    apply tx_rel_run, R_merge_city.
  - intros g1 g2 r. apply session_seq_rel.
    + intros g3 g4 r'. apply write_transaction_rel.
      apply tx_rel_run, R_merge_city.
    + intros g3 g4 r'. apply write_transaction_rel.
      apply create_trip_plan_rel.
Qed.

Lemma build_graph_rel dataset g g' res :
  build_graph storable literal_eval dataset g = (g', res) -> R g g'.
Proof.
  revert g g' res. induction dataset as [| record rest IH]; simpl.
  - intros g g' res H. inversion H; subst. apply R_refl.
  - intros g g' res. apply session_seq_rel.
    + intros g1 g2 r. apply process_record_rel.
    + exact IH.
Qed.

End Stepwise.

(** ** What each statement adds to the store *)

Lemma merge_edge_nodes a ty b g : nodes (merge_edge a ty b g) = nodes g.
Proof. unfold merge_edge. now destruct (existsb _ _). Qed.

Lemma fold_merge_nodes {A} (f : graph -> A -> graph) (l : list A) (g : graph) :
  (forall acc x, nodes (f acc x) = nodes acc) ->
  nodes (fold_left f l g) = nodes g.
Proof.
  intros Hf. revert g. induction l as [| x l IH]; simpl; intros g.
  - reflexivity.
  - now rewrite IH, Hf.
Qed.

Lemma cy_link_cities_nodes tp o d g : nodes (cy_link_cities tp o d g) = nodes g.
Proof.
  unfold cy_link_cities. destruct (match_id _ _ _); [| reflexivity].
  apply fold_merge_nodes. intros acc x. now rewrite !merge_edge_nodes.
Qed.

Lemma cy_link_in_city_nodes dp s g : nodes (cy_link_in_city dp s g) = nodes g.
Proof.
  unfold cy_link_in_city. destruct (match_id _ _ _); [| reflexivity].
  apply fold_merge_nodes. intros acc x. now rewrite merge_edge_nodes.
Qed.

Lemma cy_merge_city_nodes s g :
  nodes (cy_merge_city s g) =
  nodes g ++ (if existsb (node_is "City" "name" s) (nodes g) then []
              else [mkNode "City" [("name", PyStr s)]]).
Proof.
  unfold cy_merge_city. destruct (existsb _ _); simpl.
  - now rewrite app_nil_r.
  - reflexivity.
Qed.

Lemma cy_merge_city_edges s g : edges (cy_merge_city s g) = edges g.
Proof. unfold cy_merge_city. now destruct (existsb _ _). Qed.

Lemma node_has_str lbl k s n : node_has lbl k (PyStr s) n = node_is lbl k s n.
Proof. unfold node_has, node_is. now destruct (prop n k). Qed.

Lemma existsb_node_has_str lbl k s l :
  existsb (node_has lbl k (PyStr s)) l = existsb (node_is lbl k s) l.
Proof.
  induction l as [| n l IH]; simpl; [reflexivity |].
  now rewrite node_has_str, IH.
Qed.

Lemma ids_from_node_has_str lbl k s i l :
  ids_from (node_has lbl k (PyStr s)) i l = ids_from (node_is lbl k s) i l.
Proof.
  revert i. induction l as [| n l IH]; simpl; intros i; [reflexivity |].
  now rewrite node_has_str, IH.
Qed.

(** The two statements on the current city, whatever its kind. *)
Lemma cy_merge_current_city_eq v g :
  cy_merge_current_city v g =
  if existsb (node_has "City" "name" v) (nodes g) then g
  else fst (create_node "City" [("name", v)] g).
Proof.
  destruct v; try reflexivity;
    simpl; unfold cy_merge_city; now rewrite existsb_node_has_str.
Qed.

Lemma cy_link_current_city_eq dp v g :
  cy_link_current_city dp v g =
  if match_id "DayPlan" dp g then
    fold_left (fun acc c => merge_edge dp "IN_CITY" c acc)
      (match_nodes (node_has "City" "name" v) g) g
  else g.
Proof.
  destruct v; try reflexivity;
    simpl; unfold cy_link_in_city, match_nodes;
    now rewrite ids_from_node_has_str.
Qed.

Lemma cy_merge_current_city_nodes v g :
  nodes (cy_merge_current_city v g) = nodes g ++ new_city v g.
Proof.
  rewrite cy_merge_current_city_eq. unfold new_city.
  destruct (existsb _ _); simpl; [now rewrite app_nil_r | reflexivity].
Qed.

Lemma cy_merge_current_city_edges v g :
  edges (cy_merge_current_city v g) = edges g.
Proof. rewrite cy_merge_current_city_eq. now destruct (existsb _ _). Qed.

Lemma cy_link_current_city_nodes dp v g :
  nodes (cy_link_current_city dp v g) = nodes g.
Proof.
  rewrite cy_link_current_city_eq. destruct (match_id _ _ _); [| reflexivity].
  apply fold_merge_nodes. intros acc x. now rewrite merge_edge_nodes.
Qed.

Lemma new_city_cases v g :
  new_city v g = [] \/ new_city v g = [mkNode "City" [("name", v)]].
Proof. unfold new_city. destruct (existsb _ _); auto. Qed.

Lemma cy_create_trip_plan_nodes o d n v dt p lc b q lv ap ri g :
  exists ps,
    nodes (fst (cy_create_trip_plan o d n v dt p lc b q lv ap ri g)) =
    nodes g ++ [mkNode "TripPlan" ps].
Proof. eexists. reflexivity. Qed.

Lemma day_plan_created_nodes tp dn cc g :
  nodes (day_plan_created tp dn cc g) =
  nodes g ++ (if match_id "TripPlan" tp g
              then [mkNode "DayPlan" [("day", dn); ("current_city", cc)]]
              else []).
Proof.
  unfold day_plan_created. destruct (match_id _ _ _); simpl.
  - now rewrite merge_edge_nodes.
  - now rewrite app_nil_r.
Qed.

Lemma cy_create_related_nodes dp label props rel g :
  nodes (cy_create_related dp label props rel g) =
  nodes g ++ (if match_id "DayPlan" dp g then [mkNode label props] else []).
Proof.
  unfold cy_create_related. destruct (match_id _ _ _); simpl.
  - now rewrite merge_edge_nodes.
  - now rewrite app_nil_r.
Qed.

Lemma reference_created_nodes tp ds ct g :
  nodes (reference_created tp ds ct g) =
  nodes g ++ (if match_id "TripPlan" tp g
              then [mkNode "ReferenceInfo" [("description", ds); ("content", ct)]]
              else []).
Proof.
  unfold reference_created. destruct (match_id _ _ _); simpl.
  - now rewrite merge_edge_nodes.
  - now rewrite app_nil_r.
Qed.

(** ** City nodes *)

Lemma count_city_app s g g' ns :
  nodes g' = nodes g ++ ns ->
  count_city s g' =
  (count_city s g + List.length (filter (node_is "City" "name" s) ns))%nat.
Proof.
  intros H. unfold count_city. now rewrite H, filter_app, length_app.
Qed.

Lemma count_city_same_nodes s g g' :
  nodes g' = nodes g -> count_city s g' = count_city s g.
Proof. intros H. unfold count_city. now rewrite H. Qed.

Lemma count_city_other_label s g g' lbl ps b :
  lbl <> "City" ->
  nodes g' = nodes g ++ (if b : bool then [mkNode lbl ps] else []) ->
  count_city s g' = count_city s g.
Proof.
  intros Hl H. rewrite (count_city_app s g g' _ H).
  destruct b; simpl; [| lia].
  unfold node_is; simpl.
  destruct (String.eqb_spec lbl "City"); [contradiction | simpl; lia].
Qed.

Lemma existsb_filter_nil {A} (p : A -> bool) (l : list A) :
  existsb p l = false -> filter p l = [].
Proof.
  induction l as [| x l IH]; simpl; [reflexivity |].
  intros H. apply orb_false_iff in H. destruct H as [Hx Hl].
  rewrite Hx. now apply IH.
Qed.

Lemma existsb_filter_pos {A} (p : A -> bool) (l : list A) :
  existsb p l = true -> (1 <= List.length (filter p l))%nat.
Proof.
  induction l as [| x l IH]; simpl; [discriminate |].
  destruct (p x); simpl; [lia | exact IH].
Qed.

Lemma city_node_is s s' :
  node_is "City" "name" s' (mkNode "City" [("name", PyStr s)]) = (s =? s').
Proof. reflexivity. Qed.

Lemma count_city_merge_same s g :
  count_city s (cy_merge_city s g) = Nat.max 1 (count_city s g).
Proof.
  rewrite (count_city_app s g _ _ (cy_merge_city_nodes s g)).
  destruct (existsb _ _) eqn:E.
  - apply existsb_filter_pos in E. unfold count_city.
    cbn [filter List.length]. lia.
  - apply existsb_filter_nil in E. unfold count_city. rewrite E.
    cbn [filter]. rewrite city_node_is, String.eqb_refl. reflexivity.
Qed.

Lemma count_city_merge_other s s' g :
  s <> s' -> count_city s' (cy_merge_city s g) = count_city s' g.
Proof.
  intros Hne.
  rewrite (count_city_app s' g _ _ (cy_merge_city_nodes s g)).
  destruct (existsb _ _); simpl; [lia |].
  rewrite city_node_is. destruct (String.eqb_spec s s'); [contradiction |].
  simpl. lia.
Qed.

Lemma city_step_eq s g g' : count_city s g' = count_city s g -> city_step s g g'.
Proof. intros H. unfold city_step. rewrite H. split; [lia | tauto]. Qed.

Lemma city_step_merge s s0 g : city_step s g (cy_merge_city s0 g).
Proof.
  destruct (string_dec s0 s) as [-> | Hne].
  - unfold city_step. rewrite count_city_merge_same. lia.
  - apply city_step_eq. now apply count_city_merge_other.
Qed.

Lemma activity_label_not_city label : In label activity_labels -> label <> "City".
Proof. simpl. intros [<- | [<- | [<- | [<- | []]]]]; discriminate. Qed.

Lemma city_step_refl s g : city_step s g g.
Proof. now apply city_step_eq. Qed.

Lemma city_step_trans s g1 g2 g3 :
  city_step s g1 g2 -> city_step s g2 g3 -> city_step s g1 g3.
Proof. unfold city_step. intros [H1 H1'] [H2 H2']. split; [lia | tauto]. Qed.

Lemma city_step_create_trip_plan s o d n v dt p lc b q lv ap ri g :
  city_step s g (fst (cy_create_trip_plan o d n v dt p lc b q lv ap ri g)).
Proof.
  apply city_step_eq.
  eapply (count_city_other_label s g _ "TripPlan" _ true); [discriminate |].
  reflexivity.
Qed.

Lemma city_step_link_cities s tp o d g : city_step s g (cy_link_cities tp o d g).
Proof. apply city_step_eq, count_city_same_nodes, cy_link_cities_nodes. Qed.

Lemma city_step_create_day_plan s tp dn cc g :
  city_step s g (day_plan_created tp dn cc g).
Proof.
  apply city_step_eq.
  eapply count_city_other_label; [| apply day_plan_created_nodes].
  discriminate.
Qed.

Lemma city_step_link_in_city s dp s0 g : city_step s g (cy_link_in_city dp s0 g).
Proof. apply city_step_eq, count_city_same_nodes, cy_link_in_city_nodes. Qed.

Lemma city_step_merge_current_city s v g :
  city_step s g (cy_merge_current_city v g).
Proof.
  destruct (not_str v) eqn:Ev.
  - apply city_step_eq.
    rewrite (count_city_app s g _ _ (cy_merge_current_city_nodes v g)).
    destruct (new_city_cases v g) as [-> | ->]; simpl; [lia |].
    unfold node_is. simpl. destruct v; try discriminate Ev; simpl; lia.
  - destruct v; try discriminate Ev. apply city_step_merge.
Qed.

Lemma city_step_link_current_city s dp v g :
  city_step s g (cy_link_current_city dp v g).
Proof.
  apply city_step_eq, count_city_same_nodes, cy_link_current_city_nodes.
Qed.

Lemma city_step_create_related s dp label props g :
  In label activity_labels ->
  city_step s g (cy_create_related dp label props ("HAS_" ++ upper label)%string g).
Proof.
  intros Hl. apply city_step_eq.
  eapply count_city_other_label; [| apply cy_create_related_nodes].
  now apply activity_label_not_city.
Qed.

Lemma city_step_create_reference s tp ds ct g :
  city_step s g (reference_created tp ds ct g).
Proof.
  apply city_step_eq.
  eapply count_city_other_label; [| apply reference_created_nodes].
  discriminate.
Qed.

Create HintDb city.
#[local] Hint Resolve city_step_refl city_step_trans city_step_merge
  city_step_create_trip_plan city_step_link_cities city_step_create_day_plan
  city_step_link_in_city city_step_create_related city_step_create_reference
  city_step_merge_current_city city_step_link_current_city
  : city.

Lemma process_record_city_step storable literal_eval record s g g' res :
  process_record storable literal_eval record g = (g', res) -> city_step s g g'.
Proof. apply (process_record_rel (city_step s)); eauto with city. Qed.

Lemma build_graph_city_step storable literal_eval dataset s g g' res :
  build_graph storable literal_eval dataset g = (g', res) -> city_step s g g'.
Proof. apply (build_graph_rel (city_step s)); eauto with city. Qed.

(** [process_record] commits the two City merges, then runs the trip
    transaction on the store they leave. *)
Lemma process_record_eq storable literal_eval record g :
  process_record storable literal_eval record g =
  write_transaction
    (_create_trip_plan storable literal_eval
       (get (rec_org record) "Unknown") (get (rec_dest record) "Unknown")
       (get (rec_days record) 0%Z) (get (rec_visiting_city_number record) 0%Z)
       (get (rec_date record) "[]") (get (rec_people_number record) 0%Z)
       (get (rec_local_constraint record) "{}") (get (rec_budget record) 0%Z)
       (get (rec_query record) "") (get (rec_level record) "unknown")
       (get (rec_annotated_plan record) "[]")
       (get (rec_reference_information record) "[]"))
    (cy_merge_city (get (rec_dest record) "Unknown")
       (cy_merge_city (get (rec_org record) "Unknown") g)).
Proof. reflexivity. Qed.

Lemma trip_transaction_city_step storable literal_eval s o d n v dt p lc b q lv ap ri
    g g' res :
  write_transaction (_create_trip_plan storable literal_eval o d n v dt p lc b q lv ap ri) g
  = (g', res) ->
  city_step s g g'.
Proof.
  apply (write_transaction_rel (city_step s)); [eauto with city |].
  apply (create_trip_plan_rel (city_step s)); eauto with city.
Qed.

Lemma count_city_merge_pos s g : (1 <= count_city s (cy_merge_city s g))%nat.
Proof. rewrite count_city_merge_same. lia. Qed.

(** After [process_record], whatever its outcome, the store has a City node
    for the origin and one for the destination. *)
Lemma process_record_cities storable literal_eval record g g' res :
  process_record storable literal_eval record g = (g', res) ->
  (1 <= count_city (get (rec_org record) "Unknown") g')%nat
  /\ (1 <= count_city (get (rec_dest record) "Unknown") g')%nat.
Proof.
  rewrite process_record_eq. intros H.
  set (o := get (rec_org record) "Unknown") in *.
  set (d := get (rec_dest record) "Unknown") in *.
  pose proof (trip_transaction_city_step _ _ o _ _ _ _ _ _ _ _ _ _ _ _ _ _ _ H)
    as [Ho _].
  pose proof (trip_transaction_city_step _ _ d _ _ _ _ _ _ _ _ _ _ _ _ _ _ _ H)
    as [Hd _].
  pose proof (count_city_merge_pos d (cy_merge_city o g)) as Hd1.
  pose proof (count_city_merge_pos o g) as Ho1.
  destruct (city_step_merge o d (cy_merge_city o g)) as [Ho2 _].
  split; lia.
Qed.

Lemma iter_merge_city_le s g N :
  (count_city s g <= 1)%nat ->
  (count_city s (Nat.iter N (cy_merge_city s) g) <= 1)%nat.
Proof.
  intros Hg. induction N as [| N IH]; simpl; [exact Hg |].
  rewrite count_city_merge_same. lia.
Qed.

Lemma iter_merge_city_one s g N :
  (count_city s g <= 1)%nat -> (1 <= N)%nat ->
  count_city s (Nat.iter N (cy_merge_city s) g) = 1%nat.
Proof.
  intros Hg HN. destruct N as [| N]; [lia |]. simpl.
  rewrite count_city_merge_same.
  pose proof (iter_merge_city_le s g N Hg). lia.
Qed.

Lemma build_graph_names_city storable literal_eval dataset s g g' :
  build_graph storable literal_eval dataset g = (g', Ok tt) ->
  Exists (names_city s) dataset ->
  (1 <= count_city s g')%nat.
Proof.
  revert g. induction dataset as [| record rest IH]; intros g H Hex.
  - inversion Hex.
  - simpl in H. unfold session_seq in H.
    destruct (process_record storable literal_eval record g) as [g1 [[] | e]] eqn:E;
      [| discriminate].
    inversion Hex as [? ? Hn | ? ? Hrest]; subst.
    + destruct (process_record_cities _ _ _ _ _ _ E) as [Ho Hd].
      destruct (build_graph_city_step _ _ _ s _ _ _ H) as [Hm _].
      destruct Hn as [<- | <-]; lia.
    + eapply IH; eassumption.
Qed.

(** C2. In every store the writer builds from the empty store, each city
    name has at most one City node; it has exactly one when a record of a
    completed load names it as origin or destination, and exactly one after
    the city is merged [N >= 1] more times. *)
Theorem city_merge_idempotent
    (storable : pyval -> bool)
    (literal_eval : string -> option pyval) (dataset : list raw_record)
    (g : graph) (res : result unit) (s : string) :
  build_graph storable literal_eval dataset empty_graph = (g, res) ->
  (count_city s g <= 1)%nat
  /\ (res = Ok tt -> Exists (names_city s) dataset -> count_city s g = 1%nat)
  /\ (forall N, (1 <= N)%nat ->
        count_city s (Nat.iter N (cy_merge_city s) g) = 1%nat).
Proof.
  intros H.
  assert (Hle : (count_city s g <= 1)%nat).
  { destruct (build_graph_city_step _ _ _ s _ _ _ H) as [_ Hu].
    apply Hu. unfold count_city. simpl. lia. }
  split; [exact Hle | split].
  - intros -> Hex.
    pose proof (build_graph_names_city _ _ _ s _ _ H Hex). lia.
  - intros N HN. now apply iter_merge_city_one.
Qed.

Lemma city_merge_idempotent_witness :
  let g := fst (build_graph Scalars.storable Literal.literal_eval sample_dataset empty_graph) in
  count_city "Boston" g = 1%nat
  /\ count_city "Boston" (Nat.iter 3 (cy_merge_city "Boston") g) = 1%nat.
Proof.
  intros g.
  destruct (city_merge_idempotent Scalars.storable Literal.literal_eval sample_dataset g (Ok tt)
              "Boston") as [_ [H1 H2]].
  - vm_compute. reflexivity.
  - split.
    + apply H1; [reflexivity |].
      apply Exists_cons_hd. left. reflexivity.
    + apply H2. lia.
Defined.

(** ** Relationship types *)

Lemma nth_error_app_some {A} (l l' : list A) i x :
  nth_error l i = Some x -> nth_error (l ++ l') i = Some x.
Proof.
  intros H. rewrite nth_error_app1; [exact H |].
  apply nth_error_Some. congruence.
Qed.

Lemma edge_ok_app ns ns' e : edge_ok ns e -> edge_ok (ns ++ ns') e.
Proof.
  intros (a & b & Ha & Hb & Hs). exists a, b.
  repeat split; auto using nth_error_app_some.
Qed.

Lemma schema_ok_more_nodes g g' ns :
  nodes g' = nodes g ++ ns -> edges g' = edges g ->
  schema_ok g -> schema_ok g'.
Proof.
  intros Hn He H e Hin. rewrite Hn. apply edge_ok_app, H. now rewrite <- He.
Qed.

Lemma merge_edge_edges_in a ty b g e :
  In e (edges (merge_edge a ty b g)) -> In e (edges g) \/ e = mkEdge a ty b.
Proof.
  unfold merge_edge. destruct (existsb _ _); simpl; [tauto |].
  rewrite in_app_iff. simpl. intuition.
Qed.

Lemma schema_ok_merge_edge a ty b g :
  schema_ok g -> edge_ok (nodes g) (mkEdge a ty b) ->
  schema_ok (merge_edge a ty b g).
Proof.
  intros H Hok e Hin. rewrite merge_edge_nodes.
  apply merge_edge_edges_in in Hin. destruct Hin as [Hin | ->]; auto.
Qed.

Lemma ids_from_in p i l k :
  In k (ids_from p i l) ->
  exists n, nth_error l (k - i) = Some n /\ p n = true /\ (i <= k)%nat.
Proof.
  revert i. induction l as [| x l IH]; simpl; intros i H; [contradiction |].
  assert (Hrec : In k (ids_from p (S i) l) ->
                 exists n, nth_error (x :: l) (k - i) = Some n /\ p n = true
                           /\ (i <= k)%nat).
  { intros Hk. destruct (IH _ Hk) as (n & Hn & Hp & Hle).
    exists n. replace (k - i)%nat with (S (k - S i)) by lia.
    simpl. repeat split; auto. lia. }
  destruct (p x) eqn:Ex; [| now apply Hrec].
  destruct H as [<- | H]; [| now apply Hrec].
  exists x. rewrite Nat.sub_diag. simpl. repeat split; auto.
Qed.

Lemma match_nodes_in p g k :
  In k (match_nodes p g) ->
  exists n, nth_error (nodes g) k = Some n /\ p n = true.
Proof.
  intros H. destruct (ids_from_in _ _ _ _ H) as (n & Hn & Hp & _).
  rewrite Nat.sub_0_r in Hn. eauto.
Qed.

Lemma match_id_label lbl i g :
  match_id lbl i g = true ->
  exists n, nth_error (nodes g) i = Some n /\ nlabel n = lbl.
Proof.
  unfold match_id. destruct (nth_error _ _) as [n |]; [| discriminate].
  intros H. apply String.eqb_eq in H. eauto.
Qed.

Lemma node_is_label lbl k s n : node_is lbl k s n = true -> nlabel n = lbl.
Proof.
  unfold node_is. intros H. apply andb_true_iff in H.
  now apply String.eqb_eq.
Qed.

(** An edge from a node labelled [la] to a matched node labelled [lb]. *)
Lemma edge_ok_matched ns a la ty b lb k s :
  (exists n, nth_error ns a = Some n /\ nlabel n = la) ->
  (exists n, nth_error ns b = Some n /\ node_is lb k s n = true) ->
  In (la, ty, lb) schema ->
  edge_ok ns (mkEdge a ty b).
Proof.
  intros (na & Ha & Hla) (nb & Hb & Hlb) Hs.
  exists na, nb. simpl. repeat split; auto.
  now rewrite Hla, (node_is_label _ _ _ _ Hlb).
Qed.

Lemma schema_ok_fold {A} (f : graph -> A -> graph) (P : A -> Prop)
    (ns : list node) (l : list A) (g : graph) :
  (forall acc x, P x -> nodes acc = ns -> schema_ok acc ->
                 nodes (f acc x) = ns /\ schema_ok (f acc x)) ->
  Forall P l -> nodes g = ns -> schema_ok g ->
  schema_ok (fold_left f l g).
Proof.
  intros Hf Hl. revert g. induction Hl as [| x l Hx Hl IH]; simpl; intros g Hn Hg.
  - exact Hg.
  - destruct (Hf g x Hx Hn Hg) as [Hn' Hg']. now apply IH.
Qed.

Lemma schema_ok_link_cities tp o d g :
  schema_ok g -> schema_ok (cy_link_cities tp o d g).
Proof.
  intros Hg. unfold cy_link_cities.
  destruct (match_id "TripPlan" tp g) eqn:Etp; [| exact Hg].
  apply match_id_label in Etp.
  eapply (schema_ok_fold _
            (fun row =>
               In (fst row) (match_nodes (node_is "City" "name" o) g)
               /\ In (snd row) (match_nodes (node_is "City" "name" d) g))
            (nodes g)); auto.
  - intros acc [c1 c2] [H1 H2] Hn Hacc. simpl in *.
    split; [now rewrite !merge_edge_nodes |].
    apply match_nodes_in in H1, H2.
    apply schema_ok_merge_edge; [apply schema_ok_merge_edge; [exact Hacc |] |].
    + rewrite Hn. eapply edge_ok_matched; eauto. simpl. tauto.
    + rewrite merge_edge_nodes, Hn. eapply edge_ok_matched; eauto.
      simpl. tauto.
  - apply Forall_forall. intros [c1 c2] Hin.
    apply in_prod_iff in Hin. exact Hin.
Qed.

Lemma schema_ok_link_in_city dp s g :
  schema_ok g -> schema_ok (cy_link_in_city dp s g).
Proof.
  intros Hg. unfold cy_link_in_city.
  destruct (match_id "DayPlan" dp g) eqn:Edp; [| exact Hg].
  apply match_id_label in Edp.
  eapply (schema_ok_fold _
            (fun c => In c (match_nodes (node_is "City" "name" s) g))
            (nodes g)); auto.
  - intros acc c Hc Hn Hacc.
    split; [now rewrite merge_edge_nodes |].
    apply match_nodes_in in Hc.
    apply schema_ok_merge_edge; [exact Hacc |].
    rewrite Hn. eapply edge_ok_matched; eauto. simpl. tauto.
  - now apply Forall_forall.
Qed.

Lemma node_has_label lbl k v n : node_has lbl k v n = true -> nlabel n = lbl.
Proof.
  unfold node_has. intros H. apply andb_true_iff in H.
  now apply String.eqb_eq.
Qed.

Lemma schema_ok_merge_current_city v g :
  schema_ok g -> schema_ok (cy_merge_current_city v g).
Proof.
  apply (schema_ok_more_nodes g _ _ (cy_merge_current_city_nodes v g)).
  apply cy_merge_current_city_edges.
Qed.

Lemma schema_ok_link_current_city dp v g :
  schema_ok g -> schema_ok (cy_link_current_city dp v g).
Proof.
  intros Hg. rewrite cy_link_current_city_eq.
  destruct (match_id "DayPlan" dp g) eqn:Edp; [| exact Hg].
  apply match_id_label in Edp. destruct Edp as (na & Ha & Hla).
  eapply (schema_ok_fold _
            (fun c => In c (match_nodes (node_has "City" "name" v) g))
            (nodes g)); auto.
  - intros acc c Hc Hn Hacc.
    split; [now rewrite merge_edge_nodes |].
    apply match_nodes_in in Hc. destruct Hc as (nb & Hb & Hp).
    apply schema_ok_merge_edge; [exact Hacc |].
    rewrite Hn. exists na, nb. simpl. repeat split; auto.
    rewrite Hla, (node_has_label _ _ _ _ Hp). simpl. tauto.
  - now apply Forall_forall.
Qed.

(** [MATCH] the node [a], [CREATE] a node, [MERGE] the relationship between
    the two. *)
Lemma schema_ok_create_linked g a la ty lbl ps :
  schema_ok g ->
  match_id la a g = true ->
  In (la, ty, lbl) schema ->
  schema_ok (merge_edge a ty (List.length (nodes g))
               (fst (create_node lbl ps g))).
Proof.
  intros Hg Ha Hs. apply match_id_label in Ha. destruct Ha as (na & Ha & Hla).
  apply schema_ok_merge_edge.
  - eapply schema_ok_more_nodes; [| | exact Hg]; reflexivity.
  - exists na, (mkNode lbl ps). simpl. repeat split.
    + now apply nth_error_app_some.
    + rewrite nth_error_app2, Nat.sub_diag; [reflexivity | lia].
    + now rewrite Hla.
Qed.

Lemma schema_ok_create_day_plan tp dn cc g :
  schema_ok g -> schema_ok (day_plan_created tp dn cc g).
Proof.
  intros Hg. unfold day_plan_created.
  destruct (match_id "TripPlan" tp g) eqn:E; [| exact Hg].
  simpl. apply (schema_ok_create_linked g tp "TripPlan"); auto. simpl. tauto.
Qed.

Lemma schema_ok_create_reference tp ds ct g :
  schema_ok g -> schema_ok (reference_created tp ds ct g).
Proof.
  intros Hg. unfold reference_created.
  destruct (match_id "TripPlan" tp g) eqn:E; [| exact Hg].
  simpl. apply (schema_ok_create_linked g tp "TripPlan"); auto. simpl. tauto.
Qed.

Lemma activity_label_schema label :
  In label activity_labels ->
  In ("DayPlan", ("HAS_" ++ upper label)%string, label) schema.
Proof.
  simpl. intros [<- | [<- | [<- | [<- | []]]]]; vm_compute; tauto.
Qed.

Lemma schema_ok_create_related dp label props g :
  In label activity_labels ->
  schema_ok g ->
  schema_ok (cy_create_related dp label props ("HAS_" ++ upper label)%string g).
Proof.
  intros Hl Hg. unfold cy_create_related.
  destruct (match_id "DayPlan" dp g) eqn:E; [| exact Hg].
  simpl. apply (schema_ok_create_linked g dp "DayPlan"); auto.
  now apply activity_label_schema.
Qed.

Lemma build_graph_schema_ok storable literal_eval dataset g g' res :
  build_graph storable literal_eval dataset g = (g', res) -> schema_ok g -> schema_ok g'.
Proof.
  apply (build_graph_rel (fun g1 g2 => schema_ok g1 -> schema_ok g2)); auto.
  - intros s g0. apply (schema_ok_more_nodes g0 _ _ (cy_merge_city_nodes s g0)).
    apply cy_merge_city_edges.
  - intros o d n v dt p lc b q lv ap ri g0.
    eapply schema_ok_more_nodes; reflexivity.
  - intros tp o d g0. apply schema_ok_link_cities.
  - intros tp dn cc g0. apply schema_ok_create_day_plan.
  - intros v g0. apply schema_ok_merge_current_city.
  - intros dp v g0. apply schema_ok_link_current_city.
  - intros dp label props g0 Hl. now apply schema_ok_create_related.
  - intros tp ds ct g0. apply schema_ok_create_reference.
Qed.

(** C7. In every store the writer builds from the empty store, a
    relationship whose target is an ActivityNode (a node labelled
    Transportation, Meal, Attraction or Accommodation) starts at a DayPlan
    and has one of the four types HAS_TRANSPORTATION, HAS_MEAL,
    HAS_ATTRACTION, HAS_ACCOMMODATION, the one named after the label of its
    target; and every relationship of the store has one of the nine types
    of the schema, whatever the records contain. *)
Theorem activity_relationship_types_closed
    (storable : pyval -> bool)
    (literal_eval : string -> option pyval) (dataset : list raw_record)
    (g : graph) (res : result unit) (e : edge) :
  build_graph storable literal_eval dataset empty_graph = (g, res) ->
  In e (edges g) ->
  In (etype e) (map (fun r => snd (fst r)) schema)
  /\ forall b,
       nth_error (nodes g) (edst e) = Some b ->
       In (nlabel b) activity_labels ->
       In (etype e) activity_rel_types
       /\ etype e = ("HAS_" ++ upper (nlabel b))%string
       /\ exists a, nth_error (nodes g) (esrc e) = Some a /\ nlabel a = "DayPlan".
Proof.
  intros H Hin.
  assert (Hok : schema_ok g).
  { eapply build_graph_schema_ok; [exact H |]. intros e0 []. }
  destruct (Hok e Hin) as (a & b & Ha & Hb & Hs).
  split.
  - exact (in_map (fun r => snd (fst r)) _ _ Hs).
  - intros b' Hb' Hact. rewrite Hb in Hb'. inversion Hb'; subst b'.
    assert (Hcases :
              In (nlabel b) activity_labels ->
              In (nlabel a, etype e, nlabel b) schema ->
              In (etype e) activity_rel_types
              /\ etype e = ("HAS_" ++ upper (nlabel b))%string
              /\ nlabel a = "DayPlan").
    { generalize (nlabel a), (etype e), (nlabel b). intros la ty lb Hl Hsc.
      simpl in Hsc.
      repeat (destruct Hsc as [Hsc | Hsc]); try contradiction;
        inversion Hsc; subst; clear Hsc;
        try (simpl in Hl; repeat (destruct Hl as [Hl | Hl]);
             try discriminate; contradiction);
        (split; [simpl; tauto | split; reflexivity]). }
    destruct (Hcases Hact Hs) as (H1 & H2 & H3). eauto.
Qed.

Lemma activity_relationship_types_closed_witness :
  let g := fst (build_graph Scalars.storable Literal.literal_eval sample_dataset empty_graph) in
  In (mkEdge 3 "HAS_MEAL" 4) (edges g)
  /\ nth_error (nodes g) 4 =
       Some (mkNode "Meal" [("value", PyStr "Deli"); ("meal_type", PyStr "Lunch")])
  /\ In "HAS_MEAL" activity_rel_types.
Proof.
  intros g.
  assert (Hin : In (mkEdge 3 "HAS_MEAL" 4) (edges g)) by (vm_compute; in_list).
  assert (Hn : nth_error (nodes g) 4 =
               Some (mkNode "Meal"
                       [("value", PyStr "Deli"); ("meal_type", PyStr "Lunch")]))
    by (vm_compute; reflexivity).
  split; [exact Hin | split; [exact Hn |]].
  destruct (activity_relationship_types_closed Scalars.storable Literal.literal_eval
              sample_dataset g (Ok tt) (mkEdge 3 "HAS_MEAL" 4)) as [_ H].
  - vm_compute. reflexivity.
  - exact Hin.
  - destruct (H _ Hn) as [H1 _]; [simpl; in_list | exact H1].
Defined.

(** ** Growth of the store *)

Lemma adds_refl L T g : adds L T g g.
Proof. exists [], []. now rewrite !app_nil_r. Qed.

Lemma adds_trans L T g1 g2 g3 :
  adds L T g1 g2 -> adds L T g2 g3 -> adds L T g1 g3.
Proof.
  intros (ns1 & es1 & Hn1 & He1 & HL1 & HT1) (ns2 & es2 & Hn2 & He2 & HL2 & HT2).
  exists (ns1 ++ ns2), (es1 ++ es2).
  rewrite Hn2, Hn1, He2, He1, !app_assoc.
  repeat split; auto; apply Forall_app; auto.
Qed.

Lemma adds_weaken L T L' T' g g' :
  incl L L' -> incl T T' -> adds L T g g' -> adds L' T' g g'.
Proof.
  intros HL HT (ns & es & Hn & He & HLn & HTe).
  exists ns, es. repeat split; auto.
  - eapply Forall_impl; [| exact HLn]. intros n. apply HL.
  - eapply Forall_impl; [| exact HTe]. intros e. apply HT.
Qed.

Lemma adds_merge_edge L T a ty b g :
  In ty T -> adds L T g (merge_edge a ty b g).
Proof.
  intros Hty. unfold merge_edge. destruct (existsb _ _).
  - apply adds_refl.
  - exists [], [mkEdge a ty b]. simpl. rewrite app_nil_r.
    repeat split; auto.
Qed.

Lemma adds_create_node L T lbl ps g :
  In lbl L -> adds L T g (fst (create_node lbl ps g)).
Proof.
  intros Hl. exists [mkNode lbl ps], []. simpl. rewrite app_nil_r.
  repeat split; auto.
Qed.

Lemma adds_fold L T {A} (f : graph -> A -> graph) (l : list A) (g : graph) :
  (forall acc x, adds L T acc (f acc x)) -> adds L T g (fold_left f l g).
Proof.
  intros Hf. revert g. induction l as [| x l IH]; simpl; intros g.
  - apply adds_refl.
  - eapply adds_trans; [apply Hf | apply IH].
Qed.

Lemma adds_merge_city L T s g : In "City" L -> adds L T g (cy_merge_city s g).
Proof.
  intros HL. unfold cy_merge_city. destruct (existsb _ _).
  - apply adds_refl.
  - now apply adds_create_node.
Qed.

Lemma adds_create_trip_plan L T o d n v dt p lc b q lv ap ri g :
  In "TripPlan" L ->
  adds L T g (fst (cy_create_trip_plan o d n v dt p lc b q lv ap ri g)).
Proof. intros HL. now apply adds_create_node. Qed.

Lemma adds_link_cities L T tp o d g :
  In "ORIGIN" T -> In "DESTINATION" T -> adds L T g (cy_link_cities tp o d g).
Proof.
  intros H1 H2. unfold cy_link_cities.
  destruct (match_id _ _ _); [| apply adds_refl].
  apply adds_fold. intros acc x.
  eapply adds_trans; now apply adds_merge_edge.
Qed.

Lemma adds_create_day_plan L T tp dn cc g :
  In "DayPlan" L -> In "HAS_DAY_PLAN" T ->
  adds L T g (day_plan_created tp dn cc g).
Proof.
  intros HL HT. unfold day_plan_created.
  destruct (match_id _ _ _); [| apply adds_refl].
  simpl. eapply adds_trans; [| now apply adds_merge_edge].
  now apply (adds_create_node L T "DayPlan").
Qed.

Lemma adds_link_in_city L T dp s g :
  In "IN_CITY" T -> adds L T g (cy_link_in_city dp s g).
Proof.
  intros HT. unfold cy_link_in_city.
  destruct (match_id _ _ _); [| apply adds_refl].
  apply adds_fold. intros acc x. now apply adds_merge_edge.
Qed.

Lemma adds_merge_current_city L T v g :
  In "City" L -> adds L T g (cy_merge_current_city v g).
Proof.
  intros HL. rewrite cy_merge_current_city_eq. destruct (existsb _ _).
  - apply adds_refl.
  - now apply adds_create_node.
Qed.

Lemma adds_link_current_city L T dp v g :
  In "IN_CITY" T -> adds L T g (cy_link_current_city dp v g).
Proof.
  intros HT. rewrite cy_link_current_city_eq.
  destruct (match_id _ _ _); [| apply adds_refl].
  apply adds_fold. intros acc x. now apply adds_merge_edge.
Qed.

Lemma adds_create_related L T dp label props rel g :
  In label L -> In rel T -> adds L T g (cy_create_related dp label props rel g).
Proof.
  intros HL HT. unfold cy_create_related.
  destruct (match_id _ _ _); [| apply adds_refl].
  simpl. eapply adds_trans; [| now apply adds_merge_edge].
  now apply (adds_create_node L T label).
Qed.

Lemma adds_create_reference L T tp ds ct g :
  In "ReferenceInfo" L -> In "HAS_REFERENCE" T ->
  adds L T g (reference_created tp ds ct g).
Proof.
  intros HL HT. unfold reference_created.
  destruct (match_id _ _ _); [| apply adds_refl].
  simpl. eapply adds_trans; [| now apply adds_merge_edge].
  now apply (adds_create_node L T "ReferenceInfo").
Qed.

Lemma activity_label_rel_type label :
  In label activity_labels ->
  In ("HAS_" ++ upper label)%string activity_rel_types.
Proof.
  simpl. intros [<- | [<- | [<- | [<- | []]]]]; vm_compute; tauto.
Qed.

Lemma filter_none {A} (p : A -> bool) (l : list A) :
  Forall (fun x => p x = false) l -> filter p l = [].
Proof.
  induction 1 as [| x l Hx Hl IH]; simpl; [reflexivity |].
  now rewrite Hx.
Qed.

Lemma adds_count_label L T lbl g g' :
  ~ In lbl L -> adds L T g g' -> count_label lbl g' = count_label lbl g.
Proof.
  intros Hl (ns & es & Hn & _ & HL & _). unfold count_label.
  rewrite Hn, filter_app, length_app.
  rewrite (filter_none (fun n => nlabel n =? lbl) ns); [apply Nat.add_0_r |].
  eapply Forall_impl; [| exact HL]. intros n Hin. simpl in Hin.
  destruct (String.eqb_spec (nlabel n) lbl); [| reflexivity].
  subst. contradiction.
Qed.

Lemma adds_nth_error L T g g' i n :
  adds L T g g' -> nth_error (nodes g) i = Some n ->
  nth_error (nodes g') i = Some n.
Proof.
  intros (ns & es & Hn & _) H. rewrite Hn. now apply nth_error_app_some.
Qed.

Lemma adds_match_id L T g g' lbl i :
  adds L T g g' -> match_id lbl i g = true -> match_id lbl i g' = true.
Proof.
  intros Ha H. unfold match_id in *.
  destruct (nth_error (nodes g) i) as [n |] eqn:E; [| discriminate].
  now rewrite (adds_nth_error _ _ _ _ _ _ Ha E).
Qed.

Lemma adds_edges_in L T g g' e :
  adds L T g g' -> In e (edges g) -> In e (edges g').
Proof.
  intros (ns & es & _ & He & _) H. rewrite He. apply in_or_app. now left.
Qed.

(** ** The parts of the trip transaction

    The source writes [_create_day_plan] and [_create_trip_plan] as one body
    each; the proofs take them in parts, named here and shown equal to the
    bodies. *)

Lemma create_day_plan_eq storable tp_id day_plan g :
  _create_day_plan storable tp_id day_plan g =
  if match_id "TripPlan" tp_id g then
    if day_plan_stored storable day_plan then
      (day_plan_city (List.length (nodes g)) day_plan ;;
       day_plan_activities (List.length (nodes g)) day_plan)
        (with_day_plan tp_id day_plan g)
    else Raise StoreError
  else Raise TypeError.
Proof.
  unfold _create_day_plan, tx_bind at 1, tx_exec_returning, cy_create_day_plan,
    day_plan_stored.
  destruct (match_id "TripPlan" tp_id g); [| reflexivity].
  destruct (stored storable (dict_get day_plan "days" PyNone)
            && stored storable (dict_get day_plan "current_city" (PyStr "")));
    reflexivity.
Qed.

Lemma create_trip_plan_eq storable literal_eval o d n v dt p lc b q lv ap ri g :
  _create_trip_plan storable literal_eval o d n v dt p lc b q lv ap ri g =
  (day_plans_loop storable (List.length (nodes g))
     (decode_or_empty literal_eval ap) ;;
   ref_infos_loop storable (List.length (nodes g))
     (decode_or_empty literal_eval ri))
    (with_trip_plan (trip_plan_node o d n v dt p lc b q lv ap ri) o d g).
Proof. reflexivity. Qed.

Lemma tx_bind_ext {A B} (c : tx A) (k k' : A -> tx B) g :
  (forall a g', k a g' = k' a g') -> tx_bind c k g = tx_bind c k' g.
Proof.
  intros H. unfold tx_bind. destruct (c g) as [[a g'] | e]; auto.
Qed.

Lemma tx_for_flat_map {A B} (f : A -> list B) (body : A -> tx unit)
    (body' : B -> tx unit) (l : list A) :
  (forall x g, body x g = tx_for (f x) body' g) ->
  (forall x, List.length (f x) <= 1)%nat ->
  forall g, tx_for l body g = tx_for (flat_map f l) body' g.
Proof.
  intros Hb Hlen. induction l as [| x l IH]; intros g; simpl; [reflexivity |].
  unfold tx_bind at 1. rewrite Hb.
  specialize (Hlen x). destruct (f x) as [| y [| z r]]; simpl in *; [| | lia].
  - apply IH.
  - unfold tx_bind.
    destruct (body' y g) as [[[] g1] | e]; simpl; [apply IH | reflexivity].
Qed.

(** Both loops run their body on the kept entries, in input order. *)
Lemma day_plans_loop_kept storable tp v g :
  day_plans_loop storable tp v g =
  tx_for (kept_day_plans v) (_create_day_plan storable tp) g.
Proof.
  destruct v; try reflexivity. simpl.
  apply tx_for_flat_map.
  - intros x g0. destruct x as [| | | | | | | d]; try reflexivity.
    destruct d as [| kv d]; [reflexivity |].
    cbn [truthy tx_when tx_for]. unfold tx_bind.
    now destruct (_create_day_plan storable tp (kv :: d) g0) as [[[] g1] | e].
  - intros x. destruct x as [| | | | | | | d]; simpl; try lia.
    destruct d; simpl; lia.
Qed.

Lemma ref_infos_loop_kept storable tp v g :
  ref_infos_loop storable tp v g =
  tx_for (kept_ref_infos v) (_create_reference_info storable tp) g.
Proof.
  destruct v; try reflexivity. simpl.
  apply tx_for_flat_map.
  - intros x g0. destruct x; try reflexivity.
    destruct (dict_has d "Description" && dict_has d "Content");
      [| reflexivity].
    cbn [tx_when tx_for]. unfold tx_bind.
    now destruct (_create_reference_info storable tp d g0) as [[[] g1] | e].
  - intros x. destruct x as [| | | | | | | d]; cbn [List.length]; try lia.
    destruct (dict_has d "Description" && dict_has d "Content");
      cbn [List.length]; lia.
Qed.

(** A loop whose body adds one [lbl] node on each round adds as many as it
    has rounds. *)
Lemma tx_for_count {A} (lbl : string) (body : A -> tx unit) (I : graph -> Prop) :
  (forall x g g', I g -> body x g = Ok (tt, g') ->
                  I g' /\ count_label lbl g' = S (count_label lbl g)) ->
  forall l g g',
    I g -> tx_for l body g = Ok (tt, g') ->
    I g' /\ count_label lbl g' = (count_label lbl g + List.length l)%nat.
Proof.
  intros Hb. induction l as [| x l IH]; simpl; intros g g' Hg H.
  - inversion H; subst. split; [exact Hg | lia].
  - unfold tx_bind in H.
    destruct (body x g) as [[[] g1] | e] eqn:E; [| discriminate].
    destruct (Hb _ _ _ Hg E) as [Hg1 Hc1].
    destruct (IH _ _ Hg1 H) as [Hg' Hc']. split; [exact Hg' | lia].
Qed.

(** A loop whose body does not raise does not raise. *)
Lemma tx_for_total {A} (body : A -> tx unit) (I : graph -> Prop) (l : list A) :
  (forall x g, In x l -> I g -> exists g', body x g = Ok (tt, g') /\ I g') ->
  forall g, I g -> exists g', tx_for l body g = Ok (tt, g') /\ I g'.
Proof.
  induction l as [| x l IH]; simpl; intros Hb g Hg.
  - exists g. split; [reflexivity | exact Hg].
  - destruct (Hb x g (or_introl eq_refl) Hg) as (g1 & E & Hg1).
    destruct (IH (fun y g0 Hy => Hb y g0 (or_intror Hy)) g1 Hg1)
      as (g' & E' & Hg').
    exists g'. unfold tx_bind. rewrite E. split; [exact E' | exact Hg'].
Qed.

Section StepwiseParts.

Variable R : graph -> graph -> Prop.
Hypothesis R_refl : forall g, R g g.
Hypothesis R_trans : forall g1 g2 g3, R g1 g2 -> R g2 g3 -> R g1 g3.
Hypothesis R_merge_current_city : forall v g, R g (cy_merge_current_city v g).
Hypothesis R_link_current_city :
  forall dp v g, R g (cy_link_current_city dp v g).
Hypothesis R_create_related :
  forall dp label props g,
    In label activity_labels ->
    R g (cy_create_related dp label props ("HAS_" ++ upper label)%string g).

Lemma day_plan_city_rel dp day_plan : tx_rel R (day_plan_city dp day_plan).
Proof.
  unfold day_plan_city. apply tx_rel_if_data; auto.
  apply tx_rel_bind; auto; [now apply tx_rel_run |].
  intros _. now apply tx_rel_run.
Qed.

Lemma day_plan_activities_rel dp day_plan :
  tx_rel R (day_plan_activities dp day_plan).
Proof.
  unfold day_plan_activities.
  repeat (apply tx_rel_bind; auto;
          [apply tx_rel_if_data; auto;
           apply create_related_node_rel; auto; simpl; tauto | intros _]).
  apply tx_rel_if_data; auto.
  apply create_related_node_rel; auto; simpl; tauto.
Qed.

End StepwiseParts.

Lemma day_plan_rest_adds dp day_plan :
  tx_rel (adds day_plan_labels day_plan_rel_types)
    (day_plan_city dp day_plan ;; day_plan_activities dp day_plan).
Proof.
  apply tx_rel_bind; [apply adds_trans | |].
  - apply day_plan_city_rel; [apply adds_refl | apply adds_trans | |].
    + intros v g. apply adds_merge_current_city. simpl. tauto.
    + intros dp0 v g. apply adds_link_current_city. simpl. tauto.
  - intros _. apply day_plan_activities_rel;
      [apply adds_refl | apply adds_trans |].
    intros dp0 label props g Hl. apply adds_create_related.
    + now right.
    + right. now apply activity_label_rel_type.
Qed.

Lemma with_day_plan_nodes tp day_plan g :
  nodes (with_day_plan tp day_plan g) = nodes g ++ [day_plan_node day_plan].
Proof. unfold with_day_plan. now rewrite merge_edge_nodes. Qed.

Lemma count_label_app lbl g g' ns :
  nodes g' = nodes g ++ ns ->
  count_label lbl g' =
  (count_label lbl g
   + List.length (filter (fun n => (nlabel n =? lbl)%string) ns))%nat.
Proof.
  intros H. unfold count_label. now rewrite H, filter_app, length_app.
Qed.

Lemma match_id_app lbl i g g' ns :
  nodes g' = nodes g ++ ns ->
  match_id lbl i g = true -> match_id lbl i g' = true.
Proof.
  intros Hn H. unfold match_id in *. rewrite Hn.
  destruct (nth_error (nodes g) i) as [n |] eqn:E; [| discriminate].
  now rewrite (nth_error_app_some _ ns _ _ E).
Qed.

Lemma match_id_new lbl ps g g' ns :
  nodes g' = nodes g ++ mkNode lbl ps :: ns ->
  match_id lbl (List.length (nodes g)) g' = true.
Proof.
  intros Hn. unfold match_id. rewrite Hn.
  rewrite nth_error_app2, Nat.sub_diag; [| lia]. simpl.
  apply String.eqb_refl.
Qed.

(** ** The relationships of a TripPlan to its cities *)

Lemma edge_eqb_eq e1 e2 : edge_eqb e1 e2 = true -> e1 = e2.
Proof.
  destruct e1 as [a1 t1 b1], e2 as [a2 t2 b2]. unfold edge_eqb. simpl.
  intros H. apply andb_true_iff in H. destruct H as [H Hb].
  apply andb_true_iff in H. destruct H as [Ha Ht].
  apply Nat.eqb_eq in Ha, Hb. apply String.eqb_eq in Ht. now subst.
Qed.

Lemma merge_edge_in a ty b g : In (mkEdge a ty b) (edges (merge_edge a ty b g)).
Proof.
  unfold merge_edge. destruct (existsb _ _) eqn:E.
  - apply existsb_exists in E. destruct E as (e & Hin & He).
    apply edge_eqb_eq in He. now subst.
  - simpl. apply in_or_app. right. now left.
Qed.

Lemma merge_edge_keeps a ty b g e :
  In e (edges g) -> In e (edges (merge_edge a ty b g)).
Proof.
  intros H. unfold merge_edge. destruct (existsb _ _); [exact H |].
  simpl. apply in_or_app. now left.
Qed.

Lemma fold_keeps {A} (f : graph -> A -> graph) (l : list A) (g : graph) e :
  (forall acc x, In e (edges acc) -> In e (edges (f acc x))) ->
  In e (edges g) -> In e (edges (fold_left f l g)).
Proof.
  intros Hf. revert g. induction l as [| x l IH]; simpl; intros g H; auto.
Qed.

Lemma fold_link_rows tp (rows : list (nat * nat)) c1 c2 g :
  In (c1, c2) rows ->
  let g' :=
    fold_left
      (fun acc row =>
         merge_edge tp "DESTINATION" (snd row)
           (merge_edge tp "ORIGIN" (fst row) acc)) rows g in
  In (mkEdge tp "ORIGIN" c1) (edges g')
  /\ In (mkEdge tp "DESTINATION" c2) (edges g').
Proof.
  revert g. induction rows as [| row rows IH]; simpl; intros g Hin;
    [contradiction |].
  destruct Hin as [-> | Hin]; [| now apply IH].
  simpl. split; apply fold_keeps;
    try (intros acc x H; now apply merge_edge_keeps, merge_edge_keeps).
  - apply merge_edge_keeps, merge_edge_in.
  - apply merge_edge_in.
Qed.

Lemma ids_from_length p i l :
  List.length (ids_from p i l) = List.length (filter p l).
Proof.
  revert i. induction l as [| x l IH]; simpl; intros i; [reflexivity |].
  destruct (p x); simpl; now rewrite IH.
Qed.

Lemma match_nodes_exists s g :
  (1 <= count_city s g)%nat ->
  exists c, In c (match_nodes (node_is "City" "name" s) g).
Proof.
  unfold count_city, match_nodes. rewrite <- (ids_from_length _ 0).
  destruct (ids_from _ 0 (nodes g)) as [| c l]; simpl; [lia |].
  intros _. exists c. now left.
Qed.

Lemma with_trip_plan_nodes tpn o d g :
  nodes (with_trip_plan tpn o d g) = nodes g ++ [tpn].
Proof. unfold with_trip_plan. now rewrite cy_link_cities_nodes. Qed.


(** With both cities in the store, the second statement of
    [_create_trip_plan] links the new TripPlan to a City of each name. *)
Lemma with_trip_plan_linked tpn o d g :
  nlabel tpn = "TripPlan" ->
  (1 <= count_city o g)%nat -> (1 <= count_city d g)%nat ->
  linked_to_city (with_trip_plan tpn o d g) (List.length (nodes g)) "ORIGIN" o
  /\ linked_to_city (with_trip_plan tpn o d g) (List.length (nodes g))
       "DESTINATION" d.
Proof.
  intros Hl Ho Hd.
  set (g1 := mkGraph (nodes g ++ [tpn]) (edges g)).
  assert (Hn1 : nodes g1 = nodes g ++ [tpn]) by reflexivity.
  assert (Ho1 : (1 <= count_city o g1)%nat)
    by (rewrite (count_city_app o g g1 _ Hn1); lia).
  assert (Hd1 : (1 <= count_city d g1)%nat)
    by (rewrite (count_city_app d g g1 _ Hn1); lia).
  destruct (match_nodes_exists o g1 Ho1) as [c1 Hc1].
  destruct (match_nodes_exists d g1 Hd1) as [c2 Hc2].
  assert (Hm : match_id "TripPlan" (List.length (nodes g)) g1 = true).
  { unfold match_id. simpl.
    rewrite nth_error_app2, Nat.sub_diag; [| lia]. simpl. rewrite Hl.
    reflexivity. }
  assert (Hrow : In (c1, c2)
                   (list_prod (match_nodes (node_is "City" "name" o) g1)
                              (match_nodes (node_is "City" "name" d) g1)))
    by (apply in_prod; assumption).
  pose proof (fold_link_rows (List.length (nodes g)) _ c1 c2 g1 Hrow) as [E1 E2].
  destruct (match_nodes_in _ _ _ Hc1) as (n1 & Hn1' & Hp1).
  destruct (match_nodes_in _ _ _ Hc2) as (n2 & Hn2' & Hp2).
  unfold linked_to_city, with_trip_plan. fold g1.
  rewrite cy_link_cities_nodes. unfold cy_link_cities. rewrite Hm.
  split; [exists c1, n1 | exists c2, n2]; repeat split; assumption.
Qed.

Lemma linked_to_city_adds L T g g' a ty s :
  adds L T g g' -> linked_to_city g a ty s -> linked_to_city g' a ty s.
Proof.
  intros Ha (c & n & He & Hn & Hp). exists c, n. repeat split; auto.
  - eapply adds_edges_in; eassumption.
  - eapply adds_nth_error; eassumption.
Qed.

(** ** The steps of a day entry and of a reference entry *)

(** A successful [_create_day_plan] had its TripPlan matched and its two
    values stored, and adds one DayPlan node; the rest of what it adds are
    City and ActivityNode nodes and IN_CITY and HAS_<KIND> relationships. *)
Lemma create_day_plan_ok storable tp day_plan g g' :
  _create_day_plan storable tp day_plan g = Ok (tt, g') ->
  match_id "TripPlan" tp g = true
  /\ day_plan_stored storable day_plan = true
  /\ adds day_plan_labels day_plan_rel_types (with_day_plan tp day_plan g) g'.
Proof.
  rewrite create_day_plan_eq.
  destruct (match_id "TripPlan" tp g); [| discriminate].
  destruct (day_plan_stored storable day_plan); [| discriminate].
  intros H. split; [reflexivity | split; [reflexivity |]].
  eapply day_plan_rest_adds. exact H.
Qed.

Lemma create_day_plan_count storable tp day_plan g g' :
  match_id "TripPlan" tp g = true ->
  _create_day_plan storable tp day_plan g = Ok (tt, g') ->
  match_id "TripPlan" tp g' = true
  /\ count_label "DayPlan" g' = S (count_label "DayPlan" g).
Proof.
  intros Hm H. apply create_day_plan_ok in H. destruct H as (_ & _ & Ha).
  pose proof (with_day_plan_nodes tp day_plan g) as Hn.
  split.
  - eapply adds_match_id; [exact Ha |].
    eapply match_id_app; eassumption.
  - rewrite (adds_count_label day_plan_labels _ "DayPlan" _ _
               ltac:(not_in_list) Ha).
    rewrite (count_label_app _ _ _ _ Hn). simpl. lia.
Qed.

Lemma day_plans_loop_count storable tp v g g' :
  match_id "TripPlan" tp g = true ->
  day_plans_loop storable tp v g = Ok (tt, g') ->
  count_label "DayPlan" g' =
  (count_label "DayPlan" g + List.length (kept_day_plans v))%nat.
Proof.
  rewrite day_plans_loop_kept. intros Hm H.
  eapply (tx_for_count "DayPlan" (_create_day_plan storable tp)
            (fun g0 => match_id "TripPlan" tp g0 = true)); eauto.
  intros x g0 g1. apply create_day_plan_count.
Qed.

Lemma with_day_plan_adds tp day_plan g :
  adds ["DayPlan"] ["HAS_DAY_PLAN"] g (with_day_plan tp day_plan g).
Proof.
  unfold with_day_plan.
  eapply adds_trans; [| apply adds_merge_edge; simpl; tauto].
  apply (adds_create_node ["DayPlan"] ["HAS_DAY_PLAN"] "DayPlan"
           (nprops (day_plan_node day_plan)) g). simpl. tauto.
Qed.

Lemma create_day_plan_adds storable tp day_plan :
  tx_rel (adds trip_labels trip_rel_types) (_create_day_plan storable tp day_plan).
Proof.
  intros g [] g' H. apply create_day_plan_ok in H. destruct H as (Hm & _ & Ha).
  eapply adds_trans.
  - eapply adds_weaken; [| | apply with_day_plan_adds];
      intros x [<- | []]; now left.
  - eapply adds_weaken; [| | exact Ha]; intros x Hx; now right.
Qed.

(** The day-plan loop adds DayPlan, City and ActivityNode nodes only. *)
Lemma day_plans_loop_adds storable tp v :
  tx_rel (adds trip_labels trip_rel_types) (day_plans_loop storable tp v).
Proof.
  intros g [] g' H. rewrite day_plans_loop_kept in H. revert H.
  apply (tx_rel_for (adds trip_labels trip_rel_types)
           (adds_refl _ _) (adds_trans _ _)).
  apply create_day_plan_adds.
Qed.

Lemma create_reference_info_eq storable tp ref g :
  _create_reference_info storable tp ref g =
  if match_id "TripPlan" tp g then
    if reference_stored storable ref then
      Ok (tt, reference_created tp (dict_get ref "Description" (PyStr ""))
                (dict_get ref "Content" (PyStr "")) g)
    else Raise StoreError
  else Ok (tt, g).
Proof.
  unfold _create_reference_info, tx_exec, cy_create_reference,
    reference_stored, reference_created.
  destruct (match_id "TripPlan" tp g); [| reflexivity].
  destruct (stored storable (dict_get ref "Description" (PyStr ""))
            && stored storable (dict_get ref "Content" (PyStr "")));
    reflexivity.
Qed.

Lemma create_reference_info_adds storable tp ref :
  tx_rel (adds ["ReferenceInfo"] ["HAS_REFERENCE"])
    (_create_reference_info storable tp ref).
Proof.
  intros g [] g' H. rewrite create_reference_info_eq in H.
  destruct (match_id "TripPlan" tp g);
    [destruct (reference_stored storable ref); [| discriminate] |];
    inversion H; subst; [| apply adds_refl].
  apply adds_create_reference; simpl; tauto.
Qed.

(** The reference loop adds ReferenceInfo nodes and HAS_REFERENCE
    relationships only. *)
Lemma ref_infos_loop_adds storable tp v :
  tx_rel (adds ["ReferenceInfo"] ["HAS_REFERENCE"])
    (ref_infos_loop storable tp v).
Proof.
  intros g [] g' H. rewrite ref_infos_loop_kept in H. revert H.
  apply (tx_rel_for (adds ["ReferenceInfo"] ["HAS_REFERENCE"])
           (adds_refl _ _) (adds_trans _ _)).
  apply create_reference_info_adds.
Qed.

(** ** ActivityNode creation *)

Lemma create_related_node_eq dp value label meal_type g :
  _create_related_node dp value label meal_type g =
  Ok (tt, cy_create_related dp label (related_props value meal_type)
            ("HAS_" ++ upper label)%string g).
Proof.
  unfold _create_related_node, related_props.
  destruct meal_type as [m |]; [destruct (negb (m =? "")) |]; reflexivity.
Qed.


Lemma cy_create_related_matched dp label props rel g :
  match_id "DayPlan" dp g = true ->
  let g' := cy_create_related dp label props rel g in
  nodes g' = nodes g ++ [mkNode label props]
  /\ In (mkEdge dp rel (List.length (nodes g))) (edges g')
  /\ (forall e, In e (edges g) -> In e (edges g'))
  /\ match_id "DayPlan" dp g' = true.
Proof.
  intros Hm g'.
  pose proof (cy_create_related_nodes dp label props rel g) as Hn.
  rewrite Hm in Hn. fold g' in Hn.
  split; [exact Hn |]. unfold g', cy_create_related. rewrite Hm. simpl.
  split; [apply merge_edge_in | split].
  - intros e He. now apply merge_edge_keeps.
  - unfold match_id in *. rewrite merge_edge_nodes. simpl.
    destruct (nth_error (nodes g) dp) as [n |] eqn:E; [| discriminate].
    now rewrite (nth_error_app_some _ _ _ _ E).
Qed.



(** ** The fields of a day entry *)

Lemma valid_data_str s : valid_data (PyStr s) = Ok (present s).
Proof.
  unfold valid_data, present, truthy.
  now destruct (negb (s =? "")).
Qed.

Lemma valid_data_bytes b : valid_data (PyBytes b) = Ok (negb (b =? "")).
Proof.
  unfold valid_data, truthy. now destruct (negb (b =? "")).
Qed.

Lemma valid_data_falsy v : truthy v = false -> valid_data v = Ok false.
Proof. intros H. unfold valid_data. now rewrite H. Qed.

Lemma has_data_str s : has_data (PyStr s) = present s.
Proof. unfold has_data. now rewrite valid_data_str. Qed.

Lemma has_data_text v : has_data v = true -> value_eqb v v = true.
Proof.
  unfold has_data, valid_data.
  destruct v; destruct (truthy _); try discriminate; intros _; simpl;
    apply String.eqb_refl.
Qed.

Lemma no_raise_has_data v : no_raise v = true -> valid_data v = Ok (has_data v).
Proof.
  unfold no_raise, has_data. now destruct (valid_data v).
Qed.

Lemma field_nodes_str label meal_type s :
  field_nodes label meal_type (PyStr s) =
  if present s then [mkNode label (related_props (PyStr s) meal_type)] else [].
Proof. unfold field_nodes. now rewrite has_data_str. Qed.

Lemma field_nodes_bytes label meal_type b :
  field_nodes label meal_type (PyBytes b) =
  if negb (b =? "") then [mkNode label (related_props (PyBytes b) meal_type)]
  else [].
Proof. unfold field_nodes, has_data. now rewrite valid_data_bytes. Qed.

Lemma tx_bind_ok {A B} (c : tx A) (k : A -> tx B) g a g1 :
  c g = Ok (a, g1) -> tx_bind c k g = k a g1.
Proof. intros H. unfold tx_bind. now rewrite H. Qed.

Lemma tx_bind_raise {A B} (c : tx A) (k : A -> tx B) g e :
  c g = Raise e -> tx_bind c k g = Raise e.
Proof. intros H. unfold tx_bind. now rewrite H. Qed.

Lemma tx_if_data_eq v body g :
  no_raise v = true ->
  tx_if_data v body g = if has_data v then body g else Ok (tt, g).
Proof.
  intros H. unfold tx_if_data, tx_bind, tx_lift.
  rewrite (no_raise_has_data v H). now destruct (has_data v).
Qed.

Lemma field_step dp base acts g v label meal_type :
  no_raise v = true ->
  acts_linked dp base acts g ->
  exists g',
    tx_if_data v (_create_related_node dp v label meal_type) g = Ok (tt, g')
    /\ acts_linked dp base (acts ++ field_nodes label meal_type v) g'.
Proof.
  intros Hv (Hn & Hm & He). rewrite (tx_if_data_eq _ _ _ Hv).
  unfold field_nodes. destruct (has_data v).
  - rewrite create_related_node_eq. eexists. split; [reflexivity |].
    destruct (cy_create_related_matched dp label
                (related_props v meal_type)
                ("HAS_" ++ upper label)%string g Hm) as (Hn' & He' & Hk & Hm').
    split; [now rewrite Hn', Hn, app_assoc | split; [exact Hm' |]].
    intros i n Hi.
    destruct (Nat.lt_ge_cases i (List.length acts)) as [Hlt | Hge].
    + rewrite nth_error_app1 in Hi by exact Hlt. now apply Hk, He.
    + rewrite nth_error_app2 in Hi by exact Hge.
      destruct (i - List.length acts)%nat as [| k] eqn:Ek;
        [| destruct k; discriminate].
      simpl in Hi. inversion Hi; subst n. simpl.
      replace (List.length base + i)%nat with (List.length (nodes g));
        [exact He' |].
      rewrite Hn, length_app. lia.
  - exists g. split; [reflexivity |]. rewrite app_nil_r.
    split; [exact Hn | split; [exact Hm | exact He]].
Qed.

Lemma day_plan_clean_fields d :
  day_plan_clean d = true ->
  Forall (fun k => no_raise (dict_get d k (PyStr "")) = true) day_plan_fields.
Proof.
  unfold day_plan_clean. intros H. apply Forall_forall.
  now apply forallb_forall.
Qed.

Lemma day_plan_activities_spec dp base d g :
  day_plan_clean d = true ->
  acts_linked dp base [] g ->
  exists g',
    day_plan_activities dp d g = Ok (tt, g')
    /\ acts_linked dp base (day_plan_activity_nodes d) g'.
Proof.
  intros Hc H0. apply day_plan_clean_fields in Hc.
  inversion Hc as [| ? ? _ Hc1]; subst; clear Hc.
  inversion Hc1 as [| ? ? Ht Hc2]; subst; clear Hc1.
  inversion Hc2 as [| ? ? Hb Hc3]; subst; clear Hc2.
  inversion Hc3 as [| ? ? Hl Hc4]; subst; clear Hc3.
  inversion Hc4 as [| ? ? Hd Hc5]; subst; clear Hc4.
  inversion Hc5 as [| ? ? Ha Hc6]; subst; clear Hc5.
  inversion Hc6 as [| ? ? Hac _]; subst; clear Hc6.
  destruct (field_step dp base _ g _ "Transportation" None Ht H0)
    as (g1 & E1 & H1).
  destruct (field_step dp base _ g1 _ "Meal" (Some "Breakfast") Hb H1)
    as (g2 & E2 & H2).
  destruct (field_step dp base _ g2 _ "Meal" (Some "Lunch") Hl H2)
    as (g3 & E3 & H3).
  destruct (field_step dp base _ g3 _ "Meal" (Some "Dinner") Hd H3)
    as (g4 & E4 & H4).
  destruct (field_step dp base _ g4 _ "Attraction" None Ha H4)
    as (g5 & E5 & H5).
  destruct (field_step dp base _ g5 _ "Accommodation" None Hac H5)
    as (g6 & E6 & H6).
  exists g6. split.
  - unfold day_plan_activities.
    rewrite (tx_bind_ok _ _ _ _ _ E1), (tx_bind_ok _ _ _ _ _ E2),
      (tx_bind_ok _ _ _ _ _ E3), (tx_bind_ok _ _ _ _ _ E4),
      (tx_bind_ok _ _ _ _ _ E5).
    exact E6.
  - unfold day_plan_activity_nodes.
    simpl in H6. rewrite <- !app_assoc in H6. exact H6.
Qed.

Lemma day_plan_activities_adds dp d :
  tx_rel (adds activity_labels activity_rel_types) (day_plan_activities dp d).
Proof.
  apply day_plan_activities_rel; [apply adds_refl | apply adds_trans |].
  intros dp0 label props g Hl. apply adds_create_related; [exact Hl |].
  now apply activity_label_rel_type.
Qed.

(** *** The current city *)

Lemma fold_in_city_in dp l c g :
  In c l ->
  In (mkEdge dp "IN_CITY" c)
     (edges (fold_left (fun acc x => merge_edge dp "IN_CITY" x acc) l g)).
Proof.
  revert g. induction l as [| x l IH]; simpl; intros g Hin; [contradiction |].
  destruct Hin as [-> | Hin]; [| now apply IH].
  apply fold_keeps; [| apply merge_edge_in].
  intros acc y H. now apply merge_edge_keeps.
Qed.

Lemma existsb_ids_from (p : node -> bool) i l :
  existsb p l = true -> exists c, In c (ids_from p i l).
Proof.
  revert i. induction l as [| n l IH]; simpl; intros i H; [discriminate |].
  destruct (p n); [exists i; now left |]. now apply IH.
Qed.

Lemma link_current_city_linked dp v g :
  match_id "DayPlan" dp g = true ->
  existsb (node_has "City" "name" v) (nodes g) = true ->
  linked_to_named (cy_link_current_city dp v g) dp "IN_CITY" v.
Proof.
  intros Hm Hc. destruct (existsb_ids_from _ 0 _ Hc) as (c & Hin).
  fold (match_nodes (node_has "City" "name" v) g) in Hin.
  destruct (match_nodes_in _ _ _ Hin) as (n & Hn & Hp).
  exists c, n. rewrite cy_link_current_city_nodes. repeat split; auto.
  rewrite cy_link_current_city_eq, Hm. now apply fold_in_city_in.
Qed.

Lemma link_current_city_keeps dp v g e :
  In e (edges g) -> In e (edges (cy_link_current_city dp v g)).
Proof.
  intros H. rewrite cy_link_current_city_eq.
  destruct (match_id _ _ _); [| exact H].
  apply fold_keeps; [| exact H].
  intros acc x Hacc. now apply merge_edge_keeps.
Qed.

Lemma merge_current_city_exists v g :
  value_eqb v v = true ->
  existsb (node_has "City" "name" v) (nodes (cy_merge_current_city v g)) = true.
Proof.
  intros Hv. rewrite cy_merge_current_city_eq.
  destruct (existsb _ (nodes g)) eqn:E; [exact E |].
  assert (Hn : node_has "City" "name" v (mkNode "City" [("name", v)]) = true).
  { unfold node_has, prop. simpl. exact Hv. }
  unfold create_node. cbn [fst nodes]. rewrite existsb_app.
  cbn [existsb]. rewrite Hn. now rewrite orb_true_r.
Qed.

Lemma linked_to_named_adds L T g g' a ty v :
  adds L T g g' -> linked_to_named g a ty v -> linked_to_named g' a ty v.
Proof.
  intros Ha (c & n & He & Hn & Hp). exists c, n. repeat split; auto.
  - eapply adds_edges_in; eassumption.
  - eapply adds_nth_error; eassumption.
Qed.

Lemma linked_to_named_str g a ty s :
  linked_to_named g a ty (PyStr s) <-> linked_to_city g a ty s.
Proof.
  unfold linked_to_named, linked_to_city.
  split; intros (c & n & He & Hn & Hp); exists c, n;
    rewrite node_has_str in *; auto.
Qed.

Lemma new_city_more_nodes v g g' ns :
  nodes g' = nodes g ++ ns ->
  Forall (fun n => nlabel n <> "City") ns ->
  new_city v g' = new_city v g.
Proof.
  intros Hn Hns. unfold new_city. rewrite Hn, existsb_app.
  replace (existsb (node_has "City" "name" v) ns) with false;
    [now rewrite orb_false_r |].
  symmetry. apply not_true_is_false. intros H.
  apply existsb_exists in H. destruct H as (n & Hin & Hp).
  rewrite Forall_forall in Hns. apply (Hns n Hin).
  eapply node_has_label. exact Hp.
Qed.

(** The current-city step on a value that does not make it raise. *)
Lemma day_plan_city_spec dp d g :
  let city := dict_get d "current_city" (PyStr "") in
  no_raise city = true ->
  match_id "DayPlan" dp g = true ->
  exists g',
    day_plan_city dp d g = Ok (tt, g')
    /\ nodes g' = nodes g ++ (if has_data city then new_city city g else [])
    /\ (forall e, In e (edges g) -> In e (edges g'))
    /\ (has_data city = true -> linked_to_named g' dp "IN_CITY" city)
    /\ adds ["City"] ["IN_CITY"] g g'
    /\ match_id "DayPlan" dp g' = true.
Proof.
  intros city Hv Hm. unfold day_plan_city. fold city.
  rewrite (tx_if_data_eq _ _ _ Hv).
  destruct (has_data city) eqn:Ed.
  - eexists. split; [reflexivity |].
    assert (Hn : nodes (cy_link_current_city dp city
                          (cy_merge_current_city city g))
                 = nodes g ++ new_city city g).
    { now rewrite cy_link_current_city_nodes, cy_merge_current_city_nodes. }
    assert (Hm1 : match_id "DayPlan" dp (cy_merge_current_city city g) = true).
    { eapply match_id_app; [apply cy_merge_current_city_nodes | exact Hm]. }
    split; [exact Hn | split; [| split; [| split]]].
    + intros e He. apply link_current_city_keeps.
      now rewrite cy_merge_current_city_edges.
    + intros _. apply link_current_city_linked; [exact Hm1 |].
      apply merge_current_city_exists. now apply has_data_text.
    + eapply adds_trans.
      * apply adds_merge_current_city. simpl. tauto.
      * apply adds_link_current_city. simpl. tauto.
    + eapply match_id_app; [exact Hn | exact Hm].
  - exists g. split; [reflexivity |]. rewrite app_nil_r.
    repeat split; auto; [discriminate | apply adds_refl].
Qed.

Lemma new_city_label v g : Forall (fun n => nlabel n = "City") (new_city v g).
Proof.
  destruct (new_city_cases v g) as [-> | ->]; repeat constructor.
Qed.

(** [_create_day_plan] on a clean entry whose values the store takes,
    under a matched TripPlan: it returns, and the store gains the subgraph
    of the entry. *)
Lemma create_day_plan_spec storable tp d g :
  match_id "TripPlan" tp g = true ->
  day_plan_clean d = true ->
  day_plan_stored storable d = true ->
  exists g',
    _create_day_plan storable tp d g = Ok (tt, g')
    /\ day_materialized tp d g g'.
Proof.
  intros Hm Hc Hs. rewrite create_day_plan_eq, Hm, Hs.
  set (dp := List.length (nodes g)).
  set (city := dict_get d "current_city" (PyStr "")).
  set (g1 := with_day_plan tp d g).
  pose proof (with_day_plan_nodes tp d g) as Hn1. fold g1 in Hn1.
  assert (Hm1 : match_id "DayPlan" dp g1 = true).
  { eapply (match_id_new "DayPlan" _ g _ []). exact Hn1. }
  assert (Hcc : no_raise city = true).
  { pose proof (day_plan_clean_fields d Hc) as HF. now inversion HF. }
  destruct (day_plan_city_spec dp d g1 Hcc Hm1)
    as (g2 & E2 & Hn2 & Hk2 & Hl2 & Ha2 & Hm2).
  fold city in Hn2, Hl2.
  assert (Hnew : new_city city g1 = new_city city g).
  { apply (new_city_more_nodes city g g1 _ Hn1).
    repeat constructor. discriminate. }
  rewrite Hnew in Hn2.
  set (cities := if has_data city then new_city city g else []) in *.
  destruct (day_plan_activities_spec dp
              (nodes g ++ day_plan_node d :: cities) d g2 Hc)
    as (g3 & E3 & H3).
  { split; [| split; [exact Hm2 |]].
    - rewrite Hn2, Hn1, app_nil_r, <- app_assoc. reflexivity.
    - intros i n Hi. destruct i; discriminate. }
  pose proof (day_plan_activities_adds dp d g2 tt g3 E3) as Ha3.
  assert (E : (day_plan_city dp d ;; day_plan_activities dp d) g1
              = Ok (tt, g3)).
  { rewrite (tx_bind_ok _ _ _ _ _ E2). exact E3. }
  exists g3. split; [exact E |].
  exists cities. split; [exact H3 | split; [| split]].
  - eapply adds_edges_in; [exact Ha3 |]. apply Hk2.
    unfold g1, with_day_plan. apply merge_edge_in.
  - unfold cities. fold city.
    destruct (has_data city) eqn:Ed; cbv iota; [| reflexivity].
    split; [reflexivity |].
    eapply linked_to_named_adds; [exact Ha3 | now apply Hl2].
  - eapply adds_trans.
    + eapply adds_weaken; [| | apply with_day_plan_adds];
        intros x [<- | []]; now left.
    + fold g1. eapply adds_weaken; [| | eapply day_plan_rest_adds; exact E];
        intros x Hx; now right.
Qed.

(** *** Entries that make [_create_day_plan] raise *)

Lemma no_raise_false v : no_raise v = false -> valid_data v = Raise AttributeError.
Proof.
  unfold no_raise, valid_data.
  destruct (truthy v); [| discriminate].
  destruct v; try reflexivity; discriminate.
Qed.


Lemma tx_if_data_raise v body g :
  no_raise v = false -> tx_if_data v body g = Raise AttributeError.
Proof.
  intros H. unfold tx_if_data, tx_bind, tx_lift.
  now rewrite (no_raise_false v H).
Qed.

(** One activity step: it returns when its field does not raise, and raises
    AttributeError otherwise. *)
Ltac activity_step H0 label meal :=
  match goal with
  | |- tx_bind (tx_if_data ?v _) _ ?g = _ =>
      let E := fresh "E" in
      destruct (no_raise v) eqn:E;
      [ let g' := fresh "g" in
        let Eg := fresh "Eg" in
        let Hg := fresh "Hg" in
        destruct (field_step _ _ _ g v label meal E H0) as (g' & Eg & Hg);
        rewrite (tx_bind_ok _ _ _ _ _ Eg)
      | apply tx_bind_raise, tx_if_data_raise; exact E ]
  end.

Lemma day_plan_activities_unclean dp base d g :
  acts_linked dp base [] g ->
  forallb (fun k => no_raise (dict_get d k (PyStr "")))
    ["transportation"; "breakfast"; "lunch"; "dinner"; "attraction";
     "accommodation"] = false ->
  day_plan_activities dp d g = Raise AttributeError.
Proof.
  intros H0 Hc. unfold day_plan_activities. cbn [forallb] in Hc.
  activity_step H0 "Transportation" (@None string).
  activity_step Hg "Meal" (Some "Breakfast").
  activity_step Hg0 "Meal" (Some "Lunch").
  activity_step Hg1 "Meal" (Some "Dinner").
  activity_step Hg2 "Attraction" (@None string).
  destruct (no_raise (dict_get d "accommodation" (PyStr ""))) eqn:E4.
  - discriminate Hc.
  - now apply tx_if_data_raise.
Qed.

(** [_create_day_plan] under a matched TripPlan raises StoreError on an
    entry with a value the store refuses, and AttributeError on one that is
    stored and not clean. *)
Lemma create_day_plan_unstored storable tp d g :
  match_id "TripPlan" tp g = true ->
  day_plan_stored storable d = false ->
  _create_day_plan storable tp d g = Raise StoreError.
Proof. intros Hm Hs. now rewrite create_day_plan_eq, Hm, Hs. Qed.

Lemma create_day_plan_unclean storable tp d g :
  match_id "TripPlan" tp g = true ->
  day_plan_stored storable d = true ->
  day_plan_clean d = false ->
  _create_day_plan storable tp d g = Raise AttributeError.
Proof.
  intros Hm Hs Hc. rewrite create_day_plan_eq, Hm, Hs.
  unfold day_plan_clean, day_plan_fields in Hc.
  cbn [forallb] in Hc.
  destruct (no_raise (dict_get d "current_city" (PyStr ""))) eqn:Ecc;
    [cbn [andb] in Hc |].
  - pose proof (with_day_plan_nodes tp d g) as Hn1.
    assert (Hm1 : match_id "DayPlan" (List.length (nodes g))
                    (with_day_plan tp d g) = true)
      by (eapply (match_id_new "DayPlan" _ g _ []); exact Hn1).
    destruct (day_plan_city_spec _ d _ Ecc Hm1)
      as (g2 & E2 & Hn2 & _ & _ & _ & Hm2).
    rewrite (tx_bind_ok _ _ _ _ _ E2).
    apply (day_plan_activities_unclean _ (nodes g2)); [| exact Hc].
    split; [now rewrite app_nil_r | split; [exact Hm2 |]].
    intros i n Hi. destruct i; discriminate.
  - apply tx_bind_raise. unfold day_plan_city. now apply tx_if_data_raise.
Qed.

(** The outcome of [_create_day_plan] under a matched TripPlan. *)
Lemma create_day_plan_outcome storable tp d g :
  match_id "TripPlan" tp g = true ->
  match _create_day_plan storable tp d g with
  | Ok (_, g') =>
      day_plan_stored storable d = true /\ day_plan_clean d = true
      /\ day_materialized tp d g g'
  | Raise e =>
      (day_plan_stored storable d = false /\ e = StoreError)
      \/ (day_plan_stored storable d = true /\ day_plan_clean d = false
          /\ e = AttributeError)
  end.
Proof.
  intros Hm.
  destruct (day_plan_stored storable d) eqn:Es.
  - destruct (day_plan_clean d) eqn:Ec.
    + destruct (create_day_plan_spec storable tp d g Hm Ec Es) as (g' & E & H).
      rewrite E. auto.
    + rewrite (create_day_plan_unclean storable tp d g Hm Es Ec). auto.
  - rewrite (create_day_plan_unstored storable tp d g Hm Es). auto.
Qed.

(** The loop over the kept day entries: it raises the failure of the first
    entry that has one, and with none it returns, leaving the subgraph of
    each entry. *)
Lemma tx_for_day_plans_outcome storable tp l g :
  match_id "TripPlan" tp g = true ->
  match first_failure (day_plan_failure storable) l with
  | Some e => tx_for l (_create_day_plan storable tp) g = Raise e
  | None =>
      exists g',
        tx_for l (_create_day_plan storable tp) g = Ok (tt, g')
        /\ days_materialized tp l g g'
  end.
Proof.
  revert g. induction l as [| d l IH]; intros g Hm.
  - simpl. exists g. split; reflexivity.
  - cbn [tx_for first_failure days_materialized].
    pose proof (create_day_plan_outcome storable tp d g Hm) as Hd.
    unfold day_plan_failure at 1.
    destruct (_create_day_plan storable tp d g) as [[[] g1] | e] eqn:E.
    + destruct Hd as (Hs & Hc & Hmat). rewrite Hs, Hc.
      rewrite (tx_bind_ok _ _ _ _ _ E).
      assert (Hm1 : match_id "TripPlan" tp g1 = true)
        by now destruct (create_day_plan_count storable tp d g g1 Hm E).
      specialize (IH g1 Hm1).
      destruct (first_failure (day_plan_failure storable) l) as [e |].
      * exact IH.
      * destruct IH as (g' & E' & H'). exists g'. split; [exact E' |].
        exists g1. split; assumption.
    + rewrite (tx_bind_raise _ _ _ _ E).
      destruct Hd as [[Hs ->] | (Hs & Hc & ->)].
      * now rewrite Hs.
      * now rewrite Hs, Hc.
Qed.







(** C3, as stated, fails: a field that holds one blank is empty after
    trimming, and yet it produces an ActivityNode, with the blank as its
    value. *)
Lemma blank_field_produces_node :
  let g' := fst (process_record Scalars.storable Literal.literal_eval
                   record_with_blank empty_graph) in
  strip " " = ""
  /\ nth_error (nodes g') 4 = Some (mkNode "Transportation" [("value", PyStr " ")])
  /\ In (mkEdge 3 "HAS_TRANSPORTATION" 4) (edges g').
Proof.
  vm_compute. repeat split. in_list.
Qed.

(** C3, amended. For a day entry whose current city and six activity
    fields are falsy, strings or byte strings, under a matched TripPlan:
    when the store takes the day number and the current city of the entry,
    [_create_day_plan] returns and creates exactly the ActivityNodes of
    [day_plan_activity_nodes], each linked from the new DayPlan by the
    relationship of its kind; when the store refuses one of the two, the
    DayPlan statement fails and no ActivityNode is created.  A field
    produces one node of the matching kind with the field's value if and
    only if the value is a string that is not empty (before trimming) and
    whose trimmed form is not "-", or a byte string that is not empty. So
    "" and "-" produce no node, and "somewhere" produces exactly one. *)
Theorem activity_fields_filtered storable
    (g : graph) (tp : nat) (d : list (pyval * pyval)) :
  match_id "TripPlan" tp g = true ->
  day_plan_clean d = true ->
  (day_plan_stored storable d = true ->
   exists g' cities,
     _create_day_plan storable tp d g = Ok (tt, g')
     /\ Forall (fun n => nlabel n = "City") cities
     /\ acts_linked (List.length (nodes g))
          (nodes g ++ day_plan_node d :: cities)
          (day_plan_activity_nodes d) g')
  /\ (day_plan_stored storable d = false ->
      _create_day_plan storable tp d g = Raise StoreError)
  /\ (forall label meal_type s,
        field_nodes label meal_type (PyStr s) =
        if negb (s =? "") && negb (strip s =? "-")
        then [mkNode label (related_props (PyStr s) meal_type)] else [])
  /\ (forall label meal_type b,
        field_nodes label meal_type (PyBytes b) =
        if negb (b =? "")
        then [mkNode label (related_props (PyBytes b) meal_type)] else [])
  /\ (forall label meal_type v,
        truthy v = false -> field_nodes label meal_type v = [])
  /\ (forall label meal_type,
        field_nodes label meal_type (PyStr "") = []
        /\ field_nodes label meal_type (PyStr "-") = []
        /\ field_nodes label meal_type (PyStr "somewhere") =
           [mkNode label (related_props (PyStr "somewhere") meal_type)]).
Proof.
  intros Hm Hc. split.
  { intros Hs.
    destruct (create_day_plan_spec storable tp d g Hm Hc Hs)
      as (g' & E & cities & H3 & _ & Hcity & _).
    exists g', cities. split; [exact E | split; [| exact H3]].
    destruct (has_data (dict_get d "current_city" (PyStr ""))).
    - destruct Hcity as [-> _]. apply new_city_label.
    - rewrite Hcity. constructor. }
  split; [now apply create_day_plan_unstored |].
  split; [intros label meal_type s; apply field_nodes_str |].
  split; [intros label meal_type b; apply field_nodes_bytes |].
  split.
  - intros label meal_type v Hv. unfold field_nodes, has_data.
    now rewrite (valid_data_falsy v Hv).
  - intros label meal_type. repeat split.
Qed.

Lemma activity_fields_filtered_witness :
  let g := fst (process_record Scalars.storable Literal.literal_eval
                  empty_record empty_graph) in
  let d := [(PyStr "days", PyInt 1); (PyStr "transportation", PyStr "Flight");
            (PyStr "breakfast", PyStr "-"); (PyStr "lunch", PyStr " - ");
            (PyStr "dinner", PyStr "Diner"); (PyStr "attraction", PyNone)] in
  exists g',
    _create_day_plan Scalars.storable 1 d g = Ok (tt, g')
    /\ skipn 3 (nodes g') =
       [mkNode "Transportation" [("value", PyStr "Flight")];
        mkNode "Meal" [("value", PyStr "Diner"); ("meal_type", PyStr "Dinner")]].
Proof.
  intros g d.
  destruct (activity_fields_filtered Scalars.storable g 1 d) as (H & _).
  - vm_compute. reflexivity.
  - vm_compute. reflexivity.
  - destruct H as (g' & cities & E & _ & _); [vm_compute; reflexivity |].
    exists g'. split; [exact E |].
    vm_compute in E. inversion E. reflexivity.
Defined.

(** ** The reference loop *)

Lemma reference_created_matched tp d g :
  match_id "TripPlan" tp g = true ->
  let g1 := reference_created tp (dict_get d "Description" (PyStr ""))
              (dict_get d "Content" (PyStr "")) g in
  nodes g1 = nodes g ++ [reference_node d]
  /\ In (mkEdge tp "HAS_REFERENCE" (List.length (nodes g))) (edges g1)
  /\ (forall e, In e (edges g) -> In e (edges g1))
  /\ match_id "TripPlan" tp g1 = true.
Proof.
  intros Hm g1.
  assert (Hn1 : nodes g1 = nodes g ++ [reference_node d]).
  { unfold g1. rewrite reference_created_nodes, Hm. reflexivity. }
  split; [exact Hn1 |].
  unfold g1, reference_created. rewrite Hm.
  split; [apply merge_edge_in | split].
  - intros e He. now apply merge_edge_keeps.
  - fold (reference_created tp (dict_get d "Description" (PyStr ""))
            (dict_get d "Content" (PyStr "")) g) in g1.
    eapply match_id_app; [| exact Hm].
    rewrite merge_edge_nodes. reflexivity.
Qed.

Lemma refs_materialized_nil tp g : refs_materialized tp [] g g.
Proof.
  split; [simpl; now rewrite app_nil_r | split; [| apply adds_refl]].
  intros i d Hi. destruct i; discriminate.
Qed.

(** The loop over the kept reference entries: it raises the failure of the
    first entry that has one, and with none it returns, leaving the
    ReferenceInfo node of each entry, in order, linked from the TripPlan. *)
Lemma tx_for_references_outcome storable tp l g :
  match_id "TripPlan" tp g = true ->
  match first_failure (reference_failure storable) l with
  | Some e => tx_for l (_create_reference_info storable tp) g = Raise e
  | None =>
      exists g',
        tx_for l (_create_reference_info storable tp) g = Ok (tt, g')
        /\ refs_materialized tp l g g'
  end.
Proof.
  revert g. induction l as [| d l IH]; intros g Hm.
  - simpl. exists g. split; [reflexivity | apply refs_materialized_nil].
  - cbn [tx_for first_failure]. unfold reference_failure at 1.
    pose proof (create_reference_info_eq storable tp d g) as E.
    rewrite Hm in E.
    pose proof (create_reference_info_adds storable tp d g tt) as Hadd.
    destruct (reference_stored storable d).
    + rewrite (tx_bind_ok _ _ _ _ _ E).
      specialize (Hadd _ E).
      destruct (reference_created_matched tp d g Hm) as (Hn1 & He1 & Hk1 & Hm1).
      set (g1 := reference_created tp (dict_get d "Description" (PyStr ""))
                   (dict_get d "Content" (PyStr "")) g) in *.
      specialize (IH g1 Hm1).
      destruct (first_failure (reference_failure storable) l) as [e |];
        [exact IH |].
      destruct IH as (g' & E' & Hn & Hl & Ha).
      exists g'. split; [exact E' |]. split; [| split].
      * rewrite Hn, Hn1, <- app_assoc. reflexivity.
      * intros i d0 Hi. destruct i as [| i]; simpl in Hi.
        -- rewrite Nat.add_0_r. eapply adds_edges_in; [exact Ha | exact He1].
        -- specialize (Hl i d0 Hi).
           rewrite Hn1, length_app in Hl. simpl in Hl.
           replace (List.length (nodes g) + S i)%nat
             with (List.length (nodes g) + 1 + i)%nat by lia.
           exact Hl.
      * eapply adds_trans; eassumption.
    + now rewrite (tx_bind_raise _ _ _ _ E).
Qed.

Lemma reference_nodes_count l :
  List.length
    (filter (fun n => (nlabel n =? "ReferenceInfo")%string)
       (map reference_node l)) = List.length l.
Proof. induction l as [| d l IH]; simpl; [reflexivity | now rewrite IH]. Qed.

Lemma refs_materialized_count tp l g g' :
  refs_materialized tp l g g' ->
  count_label "ReferenceInfo" g' =
  (count_label "ReferenceInfo" g + List.length l)%nat.
Proof.
  intros (Hn & _). rewrite (count_label_app _ _ _ _ Hn).
  now rewrite reference_nodes_count.
Qed.

(** ** The trip transaction as a whole *)

Lemma days_materialized_adds tp l g g' :
  days_materialized tp l g g' -> adds trip_labels trip_rel_types g g'.
Proof.
  revert g. induction l as [| d l IH]; simpl; intros g H.
  - subst. apply adds_refl.
  - destruct H as (g1 & (cs & _ & _ & _ & Ha) & H).
    eapply adds_trans; [exact Ha | now apply IH].
Qed.

(** The two loops of [_create_trip_plan] after its first two statements:
    they raise the failure of the first entry that has one, and with none
    the trip is materialized. *)
Lemma trip_plan_loops_spec storable tpn o d dv rv g :
  nlabel tpn = "TripPlan" ->
  (1 <= count_city o g)%nat -> (1 <= count_city d g)%nat ->
  let tp := List.length (nodes g) in
  let g1 := with_trip_plan tpn o d g in
  match first_failure (day_plan_failure storable) (kept_day_plans dv) with
  | Some e =>
      (day_plans_loop storable tp dv ;; ref_infos_loop storable tp rv) g1
      = Raise e
  | None =>
      match first_failure (reference_failure storable) (kept_ref_infos rv) with
      | Some e =>
          (day_plans_loop storable tp dv ;; ref_infos_loop storable tp rv) g1
          = Raise e
      | None =>
          exists g3,
            (day_plans_loop storable tp dv ;; ref_infos_loop storable tp rv) g1
            = Ok (tt, g3)
            /\ trip_materialized g g3 tpn o d
                 (kept_day_plans dv) (kept_ref_infos rv)
      end
  end.
Proof.
  intros Hl Ho Hd tp g1.
  pose proof (with_trip_plan_nodes tpn o d g) as Hn1. fold g1 in Hn1.
  assert (Hm1 : match_id "TripPlan" tp g1 = true).
  { unfold match_id. rewrite Hn1. unfold tp.
    rewrite nth_error_app2, Nat.sub_diag; [| lia]. simpl. now rewrite Hl. }
  pose proof (tx_for_day_plans_outcome storable tp (kept_day_plans dv) g1 Hm1)
    as Hday.
  rewrite <- day_plans_loop_kept in Hday.
  destruct (first_failure (day_plan_failure storable) (kept_day_plans dv))
    as [e |]; [now apply tx_bind_raise |].
  destruct Hday as (g2 & Eday & Hdays).
  rewrite (tx_bind_ok _ _ _ _ _ Eday).
  pose proof (day_plans_loop_adds storable tp dv g1 tt g2 Eday) as Ha12.
  pose proof (day_plans_loop_count storable tp dv g1 g2 Hm1 Eday) as Hc12.
  pose proof (tx_for_references_outcome storable tp (kept_ref_infos rv) g2
                (adds_match_id _ _ _ _ _ _ Ha12 Hm1)) as Href.
  rewrite <- ref_infos_loop_kept in Href.
  destruct (first_failure (reference_failure storable) (kept_ref_infos rv))
    as [e |]; [exact Href |].
  destruct Href as (g3 & Eref & Hrefs).
  exists g3. split; [exact Eref |].
  pose proof (refs_materialized_count _ _ _ _ Hrefs) as Hc23.
  assert (Ha23 : adds ["ReferenceInfo"] ["HAS_REFERENCE"] g2 g3)
    by now destruct Hrefs as (_ & _ & Ha).
  assert (Ha13 : adds all_labels all_rel_types g1 g3).
  { eapply adds_trans.
    - eapply adds_weaken; [| | exact Ha12]; intros x Hx; now right.
    - eapply adds_weaken; [| | exact Ha23]; intros x [<- | []]; now left. }
  destruct (with_trip_plan_linked tpn o d g Hl Ho Hd) as [Lo Ld].
  fold g1 in Lo, Ld. fold tp in Lo, Ld.
  assert (Hlbl : forall lbl,
             count_label lbl g1 =
             (count_label lbl g + (if ("TripPlan" =? lbl)%string then 1 else 0))%nat).
  { intros lbl. rewrite (count_label_app lbl g g1 _ Hn1). cbn [filter].
    rewrite Hl. now destruct ("TripPlan" =? lbl). }
  unfold trip_materialized. fold g1. fold tp.
  split; [| split; [| split; [| split; [| split; [| split; [| split]]]]]].
  - eapply adds_nth_error; [exact Ha13 |]. rewrite Hn1. unfold tp.
    now rewrite nth_error_app2, Nat.sub_diag by lia.
  - exact Ha13.
  - eapply linked_to_city_adds; eassumption.
  - eapply linked_to_city_adds; eassumption.
  - rewrite (adds_count_label all_labels _ "TripPlan" _ _
               ltac:(not_in_list) Ha13).
    rewrite Hlbl. simpl. lia.
  - rewrite (adds_count_label ["ReferenceInfo"] _ "DayPlan" _ _
               ltac:(not_in_list) Ha23).
    rewrite Hc12, Hlbl. simpl. lia.
  - rewrite Hc23.
    rewrite (adds_count_label trip_labels _ "ReferenceInfo" _ _
               ltac:(not_in_list) Ha12).
    rewrite Hlbl. simpl. lia.
  - exists g2. split; assumption.
Qed.

(** ** One record *)

Lemma after_city_merges_adds r g : adds ["City"] [] g (after_city_merges r g).
Proof.
  unfold after_city_merges.
  eapply adds_trans; apply adds_merge_city; simpl; tauto.
Qed.

Lemma after_city_merges_cities r g :
  (1 <= count_city (record_org r) (after_city_merges r g))%nat
  /\ (1 <= count_city (record_dest r) (after_city_merges r g))%nat.
Proof.
  unfold after_city_merges. split.
  - pose proof (count_city_merge_pos (record_org r) g).
    destruct (city_step_merge (record_org r) (record_dest r)
                (cy_merge_city (record_org r) g)) as [H1 _]. lia.
  - apply count_city_merge_pos.
Qed.

Lemma after_city_merges_others r g s :
  s <> record_org r -> s <> record_dest r ->
  count_city s (after_city_merges r g) = count_city s g.
Proof.
  intros Ho Hd. unfold after_city_merges.
  rewrite !count_city_merge_other; auto.
Qed.

(** [process_record] is decided by the entries of the record: when one of
    them has a failure, the first one is raised and the store is the one
    the City merges left; with none, the trip is committed whole. *)
Lemma process_record_outcome storable literal_eval r g :
  let g0 := after_city_merges r g in
  match record_failure storable literal_eval r with
  | Some e => process_record storable literal_eval r g = (g0, Raise e)
  | None =>
      exists g',
        process_record storable literal_eval r g = (g', Ok tt)
        /\ trip_materialized g0 g' (record_trip_node r) (record_org r)
             (record_dest r)
             (kept_day_plans (record_day_plans literal_eval r))
             (kept_ref_infos (record_ref_infos literal_eval r))
  end.
Proof.
  intros g0. rewrite process_record_eq.
  change (cy_merge_city (get (rec_dest r) "Unknown")
            (cy_merge_city (get (rec_org r) "Unknown") g)) with g0.
  unfold write_transaction. rewrite create_trip_plan_eq.
  change (decode_or_empty literal_eval (get (rec_annotated_plan r) "[]"))
    with (record_day_plans literal_eval r).
  change (decode_or_empty literal_eval (get (rec_reference_information r) "[]"))
    with (record_ref_infos literal_eval r).
  destruct (after_city_merges_cities r g) as [Ho Hd].
  pose proof (trip_plan_loops_spec storable (record_trip_node r) (record_org r)
                (record_dest r) (record_day_plans literal_eval r)
                (record_ref_infos literal_eval r) g0 eq_refl Ho Hd) as Hspec.
  cbv zeta in Hspec. unfold record_failure.
  unfold record_trip_node, record_org, record_dest in *.
  destruct (first_failure (day_plan_failure storable) _) as [e |];
    [now rewrite Hspec |].
  destruct (first_failure (reference_failure storable) _) as [e |];
    [now rewrite Hspec |].
  destruct Hspec as (g3 & E & Hmat). exists g3. rewrite E. auto.
Qed.


Lemma process_record_committed storable literal_eval r g g' :
  process_record storable literal_eval r g = (g', Ok tt) ->
  trip_materialized (after_city_merges r g) g' (record_trip_node r)
    (record_org r) (record_dest r)
    (kept_day_plans (record_day_plans literal_eval r))
    (kept_ref_infos (record_ref_infos literal_eval r)).
Proof.
  intros H. pose proof (process_record_outcome storable literal_eval r g) as Hout.
  cbv zeta in Hout.
  destruct (record_failure storable literal_eval r) as [e |].
  - rewrite Hout in H. discriminate.
  - destruct Hout as (g3 & Hp & Hmat).
    rewrite Hp in H. inversion H; subst. exact Hmat.
Qed.

Lemma process_record_rolled_back storable literal_eval r g g' e :
  process_record storable literal_eval r g = (g', Raise e) ->
  g' = after_city_merges r g.
Proof.
  intros H. pose proof (process_record_outcome storable literal_eval r g) as Hout.
  cbv zeta in Hout.
  destruct (record_failure storable literal_eval r) as [e0 |].
  - rewrite Hout in H. now inversion H.
  - destruct Hout as (g3 & Hp & _). rewrite Hp in H. discriminate.
Qed.




(** C1, as stated, fails: on the empty store the trip transaction of
    [record_with_number] raises after the City merges are committed; no
    TripPlan is left, but the store is not unchanged: the two City nodes
    created in the attempt remain. *)
Lemma failed_trip_leaves_cities :
  let out := process_record Scalars.storable Literal.literal_eval
               record_with_number empty_graph in
  snd out = Raise AttributeError
  /\ count_label "TripPlan" (fst out) = 0%nat
  /\ fst out <> empty_graph
  /\ nodes (fst out) = [mkNode "City" [("name", PyStr "New York")];
                        mkNode "City" [("name", PyStr "Chicago")]].
Proof.
  vm_compute. repeat split; try reflexivity. discriminate.
Qed.

(** C1, amended. [process_record] first commits the City merges of origin
    and destination, which add City nodes only and only of these two names;
    the trip transaction that follows is all-or-nothing: when it raises, the
    store is exactly the one the merges left (no TripPlan, DayPlan,
    ActivityNode, ReferenceInfo or relationship of the attempt), and when it
    returns, the whole trip subgraph is there: the TripPlan with its ORIGIN
    and DESTINATION relationships; for each kept day entry, in order, its
    DayPlan linked by HAS_DAY_PLAN, the City of the entry linked by IN_CITY
    and the ActivityNodes of its fields, each linked by the relationship of
    its kind; then for each kept reference entry its ReferenceInfo linked by
    HAS_REFERENCE; and no other node. *)
Theorem trip_write_atomic
    (storable : pyval -> bool)
    (literal_eval : string -> option pyval) (r : raw_record)
    (g g' : graph) (res : result unit) :
  process_record storable literal_eval r g = (g', res) ->
  let g0 := after_city_merges r g in
  adds ["City"] [] g g0
  /\ (forall s, s <> record_org r -> s <> record_dest r ->
                count_city s g0 = count_city s g)
  /\ match res with
     | Raise _ => g' = g0
     | Ok _ =>
         trip_materialized g0 g' (record_trip_node r) (record_org r)
           (record_dest r)
           (kept_day_plans (record_day_plans literal_eval r))
           (kept_ref_infos (record_ref_infos literal_eval r))
     end.
Proof.
  intros H g0. split; [apply after_city_merges_adds |].
  split; [intros s; apply after_city_merges_others |].
  destruct res as [[] | e].
  - eapply process_record_committed; eassumption.
  - eapply process_record_rolled_back; eassumption.
Qed.

Lemma trip_write_atomic_witness :
  let g' := fst (process_record Scalars.storable Literal.literal_eval
                   record_with_number empty_graph) in
  g' = after_city_merges record_with_number empty_graph.
Proof.
  intros g'.
  destruct (trip_write_atomic Scalars.storable Literal.literal_eval
              record_with_number empty_graph g' (Raise AttributeError))
    as (_ & _ & H).
  - vm_compute. reflexivity.
  - exact H.
Defined.




(** ** Defaults of missing fields *)




(** ** Payloads that decode to something else than a list *)



Lemma day_plans_loop_non_list storable tp v g :
  is_list v = false -> day_plans_loop storable tp v g = Ok (tt, g).
Proof. now destruct v. Qed.






(** ** The scenario of the specification *)

Example end_to_end_scenario :
  let out := process_record Scalars.storable Literal.literal_eval
               scenario_record empty_graph in
  snd out = Ok tt
  /\ map (fun l => count_label l (fst out))
       ["City"; "TripPlan"; "DayPlan"; "Meal"; "Attraction"; "ReferenceInfo";
        "Transportation"; "Accommodation"]
     = [2; 1; 2; 1; 1; 1; 0; 0]%nat
  /\ map (fun t => prop_get t "days")
       (fetch_trip_plans (fst out) "New York" "Chicago") = [PyInt 3].
Proof. vm_compute. repeat split. Qed.

(** Byte strings pass the field tests of [_create_day_plan] like strings:
    the entry of [record_with_bytes] is committed with a City and a
    Transportation node that hold the byte strings. *)
Example byte_string_fields_are_kept :
  let out := process_record Scalars.storable Literal.literal_eval
               record_with_bytes empty_graph in
  snd out = Ok tt
  /\ skipn 3 (nodes (fst out)) =
     [mkNode "DayPlan" [("day", PyInt 1); ("current_city", PyBytes "Chicago")];
      mkNode "City" [("name", PyBytes "Chicago")];
      mkNode "Transportation" [("value", PyBytes "bus")]].
Proof. vm_compute. split; reflexivity. Qed.

(** ** The load as a whole *)

Lemma process_record_adds storable literal_eval r g g' res :
  process_record storable literal_eval r g = (g', res) ->
  adds writer_labels writer_rel_types g g'.
Proof.
  apply (process_record_rel (adds writer_labels writer_rel_types)).
  - apply adds_refl.
  - apply adds_trans.
  - intros s g0. apply adds_merge_city. simpl. tauto.
  - intros o d n v dt p lc b q lv ap ri g0.
    apply adds_create_trip_plan. simpl. tauto.
  - intros tp o d g0. apply adds_link_cities; simpl; tauto.
  - intros tp dn cc g0. apply adds_create_day_plan; simpl; tauto.
  - intros v g0. apply adds_merge_current_city. simpl. tauto.
  - intros dp v g0. apply adds_link_current_city. simpl. tauto.
  - intros dp label props g0 Hl. apply adds_create_related.
    + do 4 right. exact Hl.
    + do 5 right. now apply activity_label_rel_type.
  - intros tp ds ct g0. apply adds_create_reference; simpl; tauto.
Qed.

Lemma build_graph_adds storable literal_eval dataset g g' res :
  build_graph storable literal_eval dataset g = (g', res) ->
  adds writer_labels writer_rel_types g g'.
Proof.
  revert g. induction dataset as [| r rest IH]; simpl; intros g H.
  - inversion H; subst. apply adds_refl.
  - unfold session_seq in H.
    destruct (process_record storable literal_eval r g) as [g1 [[] | e]] eqn:E.
    + eapply adds_trans; [eapply process_record_adds; exact E | now apply IH].
    + inversion H; subst. eapply process_record_adds; exact E.
Qed.

Lemma trip_nodes_app g g' ns :
  nodes g' = nodes g ++ ns ->
  trip_nodes g' = trip_nodes g ++ filter (fun n => nlabel n =? "TripPlan") ns.
Proof. intros H. unfold trip_nodes. now rewrite H, filter_app. Qed.

Lemma adds_trip_nodes L T g g' :
  ~ In "TripPlan" L -> adds L T g g' -> trip_nodes g' = trip_nodes g.
Proof.
  intros Hl (ns & es & Hn & _ & HL & _).
  rewrite (trip_nodes_app g g' ns Hn).
  rewrite (filter_none (fun n => nlabel n =? "TripPlan") ns);
    [apply app_nil_r |].
  eapply Forall_impl; [| exact HL]. intros n Hin. simpl in Hin.
  destruct (String.eqb_spec (nlabel n) "TripPlan") as [E |]; [| reflexivity].
  rewrite E in Hin. contradiction.
Qed.

(** A record adds its TripPlan node when it is committed, and none when
    its trip transaction raises. *)
Lemma process_record_trip_nodes storable literal_eval r g g' res :
  process_record storable literal_eval r g = (g', res) ->
  trip_nodes g' =
  trip_nodes g ++ match res with
                  | Ok _ => [record_trip_node r]
                  | Raise _ => []
                  end.
Proof.
  intros H.
  assert (H0 : trip_nodes (after_city_merges r g) = trip_nodes g).
  { apply (adds_trip_nodes ["City"] []); [not_in_list |].
    apply after_city_merges_adds. }
  destruct res as [[] | e].
  - destruct (process_record_committed _ _ _ _ _ H) as (_ & Ha & _).
    rewrite (adds_trip_nodes all_labels _ _ _ ltac:(not_in_list) Ha).
    rewrite (trip_nodes_app _ _ _ (with_trip_plan_nodes _ _ _ _)).
    now rewrite H0.
  - rewrite (process_record_rolled_back _ _ _ _ _ _ H), H0.
    now rewrite app_nil_r.
Qed.

Lemma build_graph_app storable literal_eval l1 l2 g :
  build_graph storable literal_eval (l1 ++ l2) g =
  match build_graph storable literal_eval l1 g with
  | (g1, Ok _) => build_graph storable literal_eval l2 g1
  | (g1, Raise e) => (g1, Raise e)
  end.
Proof.
  revert g. induction l1 as [| r l1 IH]; simpl; intros g; [reflexivity |].
  unfold session_seq.
  destruct (process_record storable literal_eval r g) as [g1 [[] | e]];
    [apply IH | reflexivity].
Qed.

Lemma build_graph_trip_nodes storable literal_eval dataset g g' :
  build_graph storable literal_eval dataset g = (g', Ok tt) ->
  trip_nodes g' = trip_nodes g ++ map record_trip_node dataset.
Proof.
  revert g. induction dataset as [| r rest IH]; simpl; intros g H.
  - inversion H; subst. now rewrite app_nil_r.
  - unfold session_seq in H.
    destruct (process_record storable literal_eval r g) as [g1 [[] | e]] eqn:E;
      [| discriminate].
    rewrite (IH _ H), (process_record_trip_nodes _ _ _ _ _ _ E).
    now rewrite <- app_assoc.
Qed.

(** X1. An exception of [process_record] leaves the loop of
    [build_graph_from_travel_dataset]: the records before the failing one
    stay committed, the failing record leaves only its City merges, and the
    records after it are not ingested, whatever they are. *)
Theorem load_stops_at_first_failure
    (storable : pyval -> bool)
    (literal_eval : string -> option pyval)
    (before after : list raw_record) (r : raw_record)
    (g g1 g2 : graph) (e : exn) :
  build_graph storable literal_eval before g = (g1, Ok tt) ->
  process_record storable literal_eval r g1 = (g2, Raise e) ->
  build_graph storable literal_eval (before ++ r :: after) g = (g2, Raise e)
  /\ g2 = after_city_merges r g1
  /\ trip_nodes g2 = trip_nodes g ++ map record_trip_node before.
Proof.
  intros Hb Hr. split; [| split].
  - rewrite build_graph_app, Hb. simpl. unfold session_seq. now rewrite Hr.
  - eapply process_record_rolled_back; exact Hr.
  - rewrite (process_record_trip_nodes _ _ _ _ _ _ Hr), app_nil_r.
    eapply build_graph_trip_nodes; exact Hb.
Qed.

Lemma load_stops_at_first_failure_witness :
  let out := build_graph Scalars.storable Literal.literal_eval
               (sample_dataset ++ record_with_number :: [scenario_record])
               empty_graph in
  snd out = Raise AttributeError
  /\ List.length (trip_nodes (fst out)) = 3%nat.
Proof.
  intros out.
  pose (g1 := fst (build_graph Scalars.storable Literal.literal_eval sample_dataset empty_graph)).
  pose (g2 := fst (process_record Scalars.storable Literal.literal_eval record_with_number g1)).
  destruct (load_stops_at_first_failure Scalars.storable Literal.literal_eval sample_dataset
              [scenario_record] record_with_number empty_graph g1 g2
              AttributeError) as (H1 & _ & H3).
  - vm_compute. reflexivity.
  - vm_compute. reflexivity.
  - unfold out. rewrite H1. split; [reflexivity |].
    simpl fst. rewrite H3. reflexivity.
Defined.

Lemma trip_summary_record r : trip_summary (record_trip_node r) = record_summary r.
Proof. reflexivity. Qed.

Lemma trip_node_from_to o d r :
  (nlabel (record_trip_node r) =? "TripPlan")
  && (lower_eq (record_trip_node r) "org" o
      && lower_eq (record_trip_node r) "dest" d)
  = from_to o d r.
Proof. reflexivity. Qed.

Lemma trip_node_from_origin o r :
  (nlabel (record_trip_node r) =? "TripPlan")
  && lower_eq (record_trip_node r) "org" o
  = from_origin o r.
Proof. reflexivity. Qed.

Lemma filter_trip_nodes (p : node -> bool) g :
  filter (fun t => (nlabel t =? "TripPlan") && p t) (nodes g)
  = filter p (trip_nodes g).
Proof.
  unfold trip_nodes. induction (nodes g) as [| n l IH]; simpl; [reflexivity |].
  destruct (nlabel n =? "TripPlan"); simpl; [| exact IH].
  destruct (p n); now rewrite IH.
Qed.

Lemma filter_map_records (p : node -> bool) (q : raw_record -> bool) l :
  (forall r, p (record_trip_node r) = q r) ->
  map trip_summary (filter p (map record_trip_node l))
  = map record_summary (filter q l).
Proof.
  intros H. induction l as [| r l IH]; simpl; [reflexivity |].
  rewrite H. destruct (q r); simpl; now rewrite IH.
Qed.

(** X2. After a load that completes on the empty store, the combined
    lookup returns exactly the summaries of the records of the dataset from
    [o] to [d] (up to letter case), and the origin-only lookup those of the
    records from [o], one for each such record and in the order of the
    dataset; a summary holds the record's fields with their defaults, without
    [visiting_city_number] and [local_constraint]. *)
Theorem lookup_after_load
    (storable : pyval -> bool)
    (literal_eval : string -> option pyval) (dataset : list raw_record)
    (g : graph) (o d : string) :
  build_graph storable literal_eval dataset empty_graph = (g, Ok tt) ->
  fetch_trip_plans g o d = map record_summary (filter (from_to o d) dataset)
  /\ fetch_trip_plans_from_origin g o =
     map record_summary (filter (from_origin o) dataset).
Proof.
  intros H. apply build_graph_trip_nodes in H. simpl in H.
  unfold fetch_trip_plans, fetch_trip_plans_from_origin, read_transaction,
    _get_trip_plans, _get_trip_plans_from_origin.
  rewrite !map_id.
  rewrite (filter_trip_nodes
             (fun t => lower_eq t "org" o && lower_eq t "dest" d)).
  rewrite (filter_trip_nodes (fun t => lower_eq t "org" o)).
  rewrite H. split; apply filter_map_records; intros r; reflexivity.
Qed.

Lemma lookup_after_load_witness :
  let g := fst (build_graph Scalars.storable Literal.literal_eval sample_dataset empty_graph) in
  List.length (fetch_trip_plans g "BOSTON" "miami") = 1%nat
  /\ List.length (fetch_trip_plans_from_origin g "BOSTON") = 2%nat.
Proof.
  intros g.
  destruct (lookup_after_load Scalars.storable Literal.literal_eval sample_dataset g
              "BOSTON" "miami") as (H1 & H2).
  - vm_compute. reflexivity.
  - rewrite H1, H2. split; reflexivity.
Defined.

(** X3. The store is append-only: across a load, whatever its outcome,
    every node keeps its id and its content and every relationship stays,
    so each lookup returns what it returned before, followed by the
    summaries of the trips the load added. *)
Theorem load_keeps_store_and_lookups
    (storable : pyval -> bool)
    (literal_eval : string -> option pyval) (dataset : list raw_record)
    (g g' : graph) (res : result unit) :
  build_graph storable literal_eval dataset g = (g', res) ->
  (exists ns es, nodes g' = nodes g ++ ns /\ edges g' = edges g ++ es)
  /\ forall o d,
       (exists more,
          fetch_trip_plans g' o d = fetch_trip_plans g o d ++ more)
       /\ (exists more,
             fetch_trip_plans_from_origin g' o =
             fetch_trip_plans_from_origin g o ++ more).
Proof.
  intros H. apply build_graph_adds in H.
  destruct H as (ns & es & Hn & He & _). split; [eauto |].
  intros o d.
  unfold fetch_trip_plans, fetch_trip_plans_from_origin, read_transaction,
    _get_trip_plans, _get_trip_plans_from_origin.
  rewrite !map_id, Hn, !filter_app, !map_app. eauto.
Qed.

Lemma load_keeps_store_and_lookups_witness :
  let g := fst (build_graph Scalars.storable Literal.literal_eval sample_dataset empty_graph) in
  let g' := fst (build_graph Scalars.storable Literal.literal_eval
                   [scenario_record; record_with_number] g) in
  exists more,
    fetch_trip_plans_from_origin g' "boston" =
    fetch_trip_plans_from_origin g "boston" ++ more.
Proof.
  intros g g'.
  destruct (load_keeps_store_and_lookups Scalars.storable Literal.literal_eval
              [scenario_record; record_with_number] g g'
              (Raise AttributeError)) as (_ & H).
  - vm_compute. reflexivity.
  - exact (proj2 (H "boston" "")).
Defined.

(** ** The relationships of every TripPlan *)

Lemma adds_out_edges L T g g' a ty :
  ~ In ty T -> adds L T g g' -> out_edges g' a ty = out_edges g a ty.
Proof.
  intros Hty (ns & es & _ & He & _ & HT). unfold out_edges.
  rewrite He, filter_app.
  rewrite (filter_none _ es); [apply app_nil_r |].
  eapply Forall_impl; [| exact HT]. intros e Hin. simpl in Hin.
  destruct (String.eqb_spec (etype e) ty) as [E |];
    [| apply andb_false_r].
  rewrite E in Hin. contradiction.
Qed.

Lemma trip_linked_adds L T g g' t n :
  ~ In "ORIGIN" T -> ~ In "DESTINATION" T -> adds L T g g' ->
  trip_linked g t n -> trip_linked g' t n.
Proof.
  intros HO HD Ha (c1 & c2 & n1 & n2 & o & d & Po & Pd & Eo & Ed & N1 & C1 & N2 & C2).
  exists c1, c2, n1, n2, o, d.
  rewrite (adds_out_edges _ _ _ _ t _ HO Ha), (adds_out_edges _ _ _ _ t _ HD Ha).
  repeat split; auto; eapply adds_nth_error; eassumption.
Qed.

Lemma trips_linked_adds L T g g' :
  ~ In "TripPlan" L -> ~ In "ORIGIN" T -> ~ In "DESTINATION" T ->
  adds L T g g' -> trips_linked g -> trips_linked g'.
Proof.
  intros HL HO HD Ha Hg t n Hn Hl.
  eapply trip_linked_adds; [exact HO | exact HD | exact Ha |].
  apply Hg; [| exact Hl].
  destruct Ha as (ns & es & En & _ & HLn & _). rewrite En in Hn.
  destruct (Nat.lt_ge_cases t (List.length (nodes g))) as [Hlt | Hge].
  - now rewrite nth_error_app1 in Hn.
  - rewrite nth_error_app2 in Hn by exact Hge.
    apply nth_error_In in Hn. rewrite Forall_forall in HLn.
    specialize (HLn n Hn). rewrite Hl in HLn. contradiction.
Qed.

(** In a store that follows the schema no relationship starts at an id
    that is not yet a node. *)
Lemma schema_ok_src_bound g e :
  schema_ok g -> In e (edges g) -> (esrc e < List.length (nodes g))%nat.
Proof.
  intros Hg Hin. destruct (Hg e Hin) as (a & b & Ha & _).
  apply nth_error_Some. congruence.
Qed.

Lemma out_edges_fresh g a ty :
  schema_ok g -> (List.length (nodes g) <= a)%nat -> out_edges g a ty = [].
Proof.
  intros Hg Ha. unfold out_edges. apply filter_none, Forall_forall.
  intros e Hin. pose proof (schema_ok_src_bound g e Hg Hin).
  destruct (Nat.eqb_spec (esrc e) a); [lia | reflexivity].
Qed.

Lemma existsb_fresh_edge g a ty b :
  schema_ok g -> (List.length (nodes g) <= a)%nat ->
  existsb (edge_eqb (mkEdge a ty b)) (edges g) = false.
Proof.
  intros Hg Ha. apply not_true_is_false. intros H.
  apply existsb_exists in H. destruct H as (e & Hin & He).
  apply edge_eqb_eq in He. subst e.
  pose proof (schema_ok_src_bound g _ Hg Hin). simpl in *. lia.
Qed.

Lemma ids_from_app p i l l' :
  ids_from p i (l ++ l') = ids_from p i l ++ ids_from p (i + List.length l) l'.
Proof.
  revert i. induction l as [| x l IH]; simpl; intros i.
  - now rewrite Nat.add_0_r.
  - rewrite IH. replace (S i + List.length l)%nat with (i + S (List.length l))%nat
      by lia.
    now destruct (p x).
Qed.

Lemma match_nodes_one s g :
  count_city s g = 1%nat ->
  exists c, match_nodes (node_is "City" "name" s) g = [c].
Proof.
  unfold count_city, match_nodes. rewrite <- (ids_from_length _ 0).
  destruct (ids_from _ 0 (nodes g)) as [| c [| c' l]]; simpl; try discriminate.
  eauto.
Qed.

(** The first two statements of [_create_trip_plan] on a store that follows
    the schema and has one City of each name: the new TripPlan gets one
    ORIGIN and one DESTINATION relationship. *)
Lemma with_trip_plan_edges tpn o d g :
  nlabel tpn = "TripPlan" ->
  schema_ok g -> count_city o g = 1%nat -> count_city d g = 1%nat ->
  exists c1 c2 n1 n2,
    edges (with_trip_plan tpn o d g) =
    edges g ++ [mkEdge (List.length (nodes g)) "ORIGIN" c1;
                mkEdge (List.length (nodes g)) "DESTINATION" c2]
    /\ nth_error (nodes g) c1 = Some n1 /\ node_is "City" "name" o n1 = true
    /\ nth_error (nodes g) c2 = Some n2 /\ node_is "City" "name" d n2 = true.
Proof.
  intros Hl Hg Ho Hd.
  set (t := List.length (nodes g)).
  set (g1 := mkGraph (nodes g ++ [tpn]) (edges g)).
  assert (Hnot : forall s, node_is "City" "name" s tpn = false).
  { intros s. unfold node_is. now rewrite Hl. }
  assert (Hmn : forall s, match_nodes (node_is "City" "name" s) g1
                          = match_nodes (node_is "City" "name" s) g).
  { intros s. unfold match_nodes, g1. simpl. rewrite ids_from_app. simpl.
    rewrite Hnot. apply app_nil_r. }
  destruct (match_nodes_one o g Ho) as (c1 & E1).
  destruct (match_nodes_one d g Hd) as (c2 & E2).
  assert (H1 : In c1 (match_nodes (node_is "City" "name" o) g))
    by (rewrite E1; now left).
  assert (H2 : In c2 (match_nodes (node_is "City" "name" d) g))
    by (rewrite E2; now left).
  destruct (match_nodes_in _ _ _ H1) as (n1 & N1 & P1).
  destruct (match_nodes_in _ _ _ H2) as (n2 & N2 & P2).
  exists c1, c2, n1, n2. repeat split; auto.
  unfold with_trip_plan, cy_link_cities. fold t. fold g1.
  assert (Hm : match_id "TripPlan" t g1 = true).
  { apply (match_id_new "TripPlan" (nprops tpn) g g1 []).
    simpl. destruct tpn as [lbl ps]. simpl in *. now subst lbl. }
  rewrite Hm, !Hmn, E1, E2. simpl.
  assert (X1 : existsb (edge_eqb (mkEdge t "ORIGIN" c1)) (edges g1) = false)
    by (apply (existsb_fresh_edge g); [exact Hg | unfold t; lia]).
  unfold merge_edge at 2. rewrite X1.
  unfold merge_edge. simpl.
  rewrite existsb_app. simpl.
  rewrite (existsb_fresh_edge g t "DESTINATION" c2 Hg) by (unfold t; lia).
  unfold edge_eqb. simpl. rewrite Nat.eqb_refl. simpl.
  now rewrite <- app_assoc.
Qed.

Lemma process_record_schema_ok storable literal_eval r g g' res :
  process_record storable literal_eval r g = (g', res) -> schema_ok g -> schema_ok g'.
Proof.
  apply (process_record_rel (fun g1 g2 => schema_ok g1 -> schema_ok g2)); auto.
  - intros s g0. apply (schema_ok_more_nodes g0 _ _ (cy_merge_city_nodes s g0)).
    apply cy_merge_city_edges.
  - intros o d n v dt p lc b q lv ap ri g0.
    eapply schema_ok_more_nodes; reflexivity.
  - intros tp o d g0. apply schema_ok_link_cities.
  - intros tp dn cc g0. apply schema_ok_create_day_plan.
  - intros v g0. apply schema_ok_merge_current_city.
  - intros dp v g0. apply schema_ok_link_current_city.
  - intros dp label props g0 Hl. now apply schema_ok_create_related.
  - intros tp ds ct g0. apply schema_ok_create_reference.
Qed.

Lemma after_city_merges_schema_ok r g :
  schema_ok g -> schema_ok (after_city_merges r g).
Proof.
  intros Hg. unfold after_city_merges.
  eapply schema_ok_more_nodes;
    [apply cy_merge_city_nodes | apply cy_merge_city_edges |].
  eapply schema_ok_more_nodes;
    [apply cy_merge_city_nodes | apply cy_merge_city_edges | exact Hg].
Qed.

Lemma after_city_merges_unique r g s :
  (forall s0, (count_city s0 g <= 1)%nat) ->
  (count_city s (after_city_merges r g) <= 1)%nat.
Proof.
  intros Hu. unfold after_city_merges.
  destruct (city_step_merge s (record_org r) g) as [_ H1].
  destruct (city_step_merge s (record_dest r)
              (cy_merge_city (record_org r) g)) as [_ H2].
  auto.
Qed.

Lemma out_edges_app g g' es a ty :
  edges g' = edges g ++ es ->
  out_edges g' a ty =
  out_edges g a ty
  ++ filter (fun e => (esrc e =? a)%nat && (etype e =? ty)) es.
Proof. intros H. unfold out_edges. now rewrite H, filter_app. Qed.

Lemma with_trip_plan_trips_linked r g :
  schema_ok g -> (forall s, (count_city s g <= 1)%nat) ->
  (1 <= count_city (record_org r) g)%nat ->
  (1 <= count_city (record_dest r) g)%nat ->
  trips_linked g ->
  trips_linked
    (with_trip_plan (record_trip_node r) (record_org r) (record_dest r) g).
Proof.
  intros Hs Hu Ho Hd Hg.
  set (tpn := record_trip_node r).
  set (g1 := with_trip_plan tpn (record_org r) (record_dest r) g).
  destruct (with_trip_plan_edges tpn (record_org r) (record_dest r) g eq_refl Hs)
    as (c1 & c2 & n1 & n2 & He & N1 & P1 & N2 & P2).
  { specialize (Hu (record_org r)). lia. }
  { specialize (Hu (record_dest r)). lia. }
  fold g1 in He.
  pose proof (with_trip_plan_nodes tpn (record_org r) (record_dest r) g) as Hn.
  fold g1 in Hn.
  intros t n Ht Hl. rewrite Hn in Ht.
  destruct (Nat.lt_ge_cases t (List.length (nodes g))) as [Hlt | Hge].
  - rewrite nth_error_app1 in Ht by exact Hlt.
    destruct (Hg t n Ht Hl)
      as (d1 & d2 & m1 & m2 & o & d & Po & Pd & Eo & Ed & M1 & Q1 & M2 & Q2).
    exists d1, d2, m1, m2, o, d.
    rewrite !(out_edges_app g g1 _ t _ He). simpl.
    destruct (Nat.eqb_spec (List.length (nodes g)) t) as [E |]; [lia |].
    simpl. rewrite !app_nil_r, Hn.
    repeat split; auto using nth_error_app_some.
  - rewrite nth_error_app2 in Ht by exact Hge.
    destruct (t - List.length (nodes g))%nat as [| k] eqn:Ek;
      [| destruct k; discriminate].
    simpl in Ht. inversion Ht; subst n.
    assert (t = List.length (nodes g)) by lia. subst t.
    exists c1, c2, n1, n2, (record_org r), (record_dest r).
    rewrite !(out_edges_app g g1 _ _ _ He).
    rewrite !(out_edges_fresh g _ _ Hs) by lia.
    simpl. rewrite Nat.eqb_refl. simpl. rewrite Hn.
    repeat split; auto using nth_error_app_some.
Qed.

(** [process_record] keeps the invariant, whatever its outcome. *)
Lemma process_record_store_ok storable literal_eval r g g' res :
  process_record storable literal_eval r g = (g', res) -> store_ok g -> store_ok g'.
Proof.
  intros H (Hs & Hu & Hl).
  split; [eapply process_record_schema_ok; eassumption | split].
  - intros s. destruct (process_record_city_step _ _ _ s _ _ _ H) as [_ Hle].
    auto.
  - assert (Hl0 : trips_linked (after_city_merges r g)).
    { eapply (trips_linked_adds ["City"] []);
        [not_in_list | not_in_list | not_in_list | | exact Hl].
      apply after_city_merges_adds. }
    destruct res as [[] | e].
    + destruct (process_record_committed _ _ _ _ _ H) as (_ & Ha & _).
      eapply (trips_linked_adds all_labels all_rel_types);
        [not_in_list | not_in_list | not_in_list | exact Ha |].
      destruct (after_city_merges_cities r g) as [Ho Hd].
      apply with_trip_plan_trips_linked; auto.
      * now apply after_city_merges_schema_ok.
      * intros s. now apply after_city_merges_unique.
    + now rewrite (process_record_rolled_back _ _ _ _ _ _ H).
Qed.

Lemma build_graph_store_ok storable literal_eval dataset g g' res :
  build_graph storable literal_eval dataset g = (g', res) -> store_ok g -> store_ok g'.
Proof.
  revert g. induction dataset as [| r rest IH]; simpl; intros g H Hg.
  - now inversion H; subst.
  - unfold session_seq in H.
    destruct (process_record storable literal_eval r g) as [g1 [[] | e]] eqn:E.
    + eapply IH; [exact H |]. eapply process_record_store_ok; eassumption.
    + inversion H; subst. eapply process_record_store_ok; eassumption.
Qed.

Lemma empty_graph_store_ok : store_ok empty_graph.
Proof.
  split; [intros e [] | split].
  - intros s. unfold count_city. simpl. lia.
  - intros t n Ht. destruct t; discriminate.
Qed.

(** X4. In every store the writer builds from the empty store, also after
    a load that stopped on an exception, every TripPlan node has exactly one
    ORIGIN relationship, to the one City node named as its [org], and
    exactly one DESTINATION relationship, to the one City node named as its
    [dest]. *)
Theorem every_trip_plan_linked_once
    (storable : pyval -> bool)
    (literal_eval : string -> option pyval) (dataset : list raw_record)
    (g : graph) (res : result unit) (t : nat) (n : node) :
  build_graph storable literal_eval dataset empty_graph = (g, res) ->
  nth_error (nodes g) t = Some n -> nlabel n = "TripPlan" ->
  exists c1 c2 n1 n2 o d,
    prop n "org" = PyStr o /\ prop n "dest" = PyStr d
    /\ out_edges g t "ORIGIN" = [mkEdge t "ORIGIN" c1]
    /\ out_edges g t "DESTINATION" = [mkEdge t "DESTINATION" c2]
    /\ nth_error (nodes g) c1 = Some n1 /\ node_is "City" "name" o n1 = true
    /\ nth_error (nodes g) c2 = Some n2 /\ node_is "City" "name" d n2 = true
    /\ count_city o g = 1%nat /\ count_city d g = 1%nat.
Proof.
  intros H Ht Hl.
  destruct (build_graph_store_ok _ _ _ _ _ _ H empty_graph_store_ok)
    as (_ & Hu & Hlk).
  destruct (Hlk t n Ht Hl)
    as (c1 & c2 & n1 & n2 & o & d & Po & Pd & Eo & Ed & N1 & P1 & N2 & P2).
  exists c1, c2, n1, n2, o, d. repeat split; auto.
  - assert (1 <= count_city o g)%nat; [| specialize (Hu o); lia].
    unfold count_city. apply existsb_filter_pos, existsb_exists.
    exists n1. split; [eapply nth_error_In; eassumption | exact P1].
  - assert (1 <= count_city d g)%nat; [| specialize (Hu d); lia].
    unfold count_city. apply existsb_filter_pos, existsb_exists.
    exists n2. split; [eapply nth_error_In; eassumption | exact P2].
Qed.

Lemma every_trip_plan_linked_once_witness :
  let g := fst (build_graph Scalars.storable Literal.literal_eval sample_dataset empty_graph) in
  out_edges g 2 "ORIGIN" = [mkEdge 2 "ORIGIN" 0]
  /\ out_edges g 2 "DESTINATION" = [mkEdge 2 "DESTINATION" 1].
Proof.
  intros g.
  destruct (every_trip_plan_linked_once Scalars.storable Literal.literal_eval sample_dataset g
              (Ok tt) 2 (record_trip_node (hd empty_record sample_dataset)))
    as (c1 & c2 & n1 & n2 & o & d & _ & _ & Eo & Ed & _).
  - vm_compute. reflexivity.
  - vm_compute. reflexivity.
  - reflexivity.
  - vm_compute. split; reflexivity.
Defined.

(** ** The parent of every child node *)

Lemma schema_ok_dst_bound g e :
  schema_ok g -> In e (edges g) -> (edst e < List.length (nodes g))%nat.
Proof.
  intros Hg Hin. destruct (Hg e Hin) as (a & b & _ & Hb & _).
  apply nth_error_Some. congruence.
Qed.

Lemma in_edges_fresh g b :
  schema_ok g -> (List.length (nodes g) <= b)%nat -> in_edges g b = [].
Proof.
  intros Hg Hb. unfold in_edges. apply filter_none, Forall_forall.
  intros e Hin. pose proof (schema_ok_dst_bound g e Hg Hin).
  destruct (Nat.eqb_spec (edst e) b); [lia | reflexivity].
Qed.

Lemma in_edges_merge_other a ty c g b :
  c <> b -> in_edges (merge_edge a ty c g) b = in_edges g b.
Proof.
  intros Hne. unfold merge_edge, in_edges.
  destruct (existsb _ _); [reflexivity |]. simpl.
  rewrite filter_app. simpl.
  destruct (Nat.eqb_spec c b); [contradiction | apply app_nil_r].
Qed.

Lemma one_parent_more_nodes g g' ns :
  nodes g' = nodes g ++ ns -> edges g' = edges g ->
  Forall (fun n => ~ In (nlabel n) child_labels) ns ->
  one_parent g -> one_parent g'.
Proof.
  intros Hn He Hns Hg b n Hb Hl. unfold in_edges. rewrite He.
  apply (Hg b n); [| exact Hl]. rewrite Hn in Hb.
  destruct (Nat.lt_ge_cases b (List.length (nodes g))) as [Hlt | Hge].
  - now rewrite nth_error_app1 in Hb.
  - rewrite nth_error_app2 in Hb by exact Hge.
    apply nth_error_In in Hb. rewrite Forall_forall in Hns.
    now destruct (Hns n Hb).
Qed.

(** Relationships to City nodes leave the children alone. *)
Lemma one_parent_fold_to_cities {A} (f : graph -> A -> graph)
    (dst : A -> list nat) (l : list A) (g0 g : graph) :
  (forall acc x, nodes (f acc x) = nodes acc) ->
  (forall acc x b, ~ In b (dst x) -> in_edges (f acc x) b = in_edges acc b) ->
  Forall (fun x => forall c, In c (dst x) ->
                   exists n, nth_error (nodes g0) c = Some n
                             /\ nlabel n = "City") l ->
  nodes g = nodes g0 -> one_parent g -> one_parent (fold_left f l g).
Proof.
  intros Hfn Hfe Hl. revert g.
  induction Hl as [| x l Hx Hl IH]; simpl; intros g Hn Hg; [exact Hg |].
  apply IH; [now rewrite Hfn |].
  intros b n Hb Hlab. rewrite Hfn in Hb. rewrite Hfe; [now apply (Hg b n) |].
  intros Hin. destruct (Hx b Hin) as (m & Hm & Hcity).
  rewrite Hn in Hb. rewrite Hb in Hm. inversion Hm; subst m.
  rewrite Hcity in Hlab. simpl in Hlab.
  repeat (destruct Hlab as [Hlab | Hlab]; [discriminate |]). exact Hlab.
Qed.

Lemma match_nodes_city s g c :
  In c (match_nodes (node_is "City" "name" s) g) ->
  exists n, nth_error (nodes g) c = Some n /\ nlabel n = "City".
Proof.
  intros H. destruct (match_nodes_in _ _ _ H) as (n & Hn & Hp).
  exists n. split; [exact Hn | eapply node_is_label; exact Hp].
Qed.

Lemma one_parent_link_cities tp o d g :
  one_parent g -> one_parent (cy_link_cities tp o d g).
Proof.
  intros Hg. unfold cy_link_cities.
  destruct (match_id "TripPlan" tp g); [| exact Hg].
  apply (one_parent_fold_to_cities _ (fun row => [fst row; snd row]) _ g);
    auto.
  - intros acc x. now rewrite !merge_edge_nodes.
  - intros acc x b Hb. simpl in Hb.
    rewrite !in_edges_merge_other; auto.
  - apply Forall_forall. intros [c1 c2] Hin. apply in_prod_iff in Hin.
    destruct Hin as [H1 H2]. simpl.
    intros c [<- | [<- | []]]; eapply match_nodes_city; eassumption.
Qed.

Lemma match_nodes_named v g c :
  In c (match_nodes (node_has "City" "name" v) g) ->
  exists n, nth_error (nodes g) c = Some n /\ nlabel n = "City".
Proof.
  intros H. destruct (match_nodes_in _ _ _ H) as (n & Hn & Hp).
  exists n. split; [exact Hn | eapply node_has_label; exact Hp].
Qed.

Lemma one_parent_merge_current_city v g :
  one_parent g -> one_parent (cy_merge_current_city v g).
Proof.
  apply (one_parent_more_nodes g _ _ (cy_merge_current_city_nodes v g));
    [apply cy_merge_current_city_edges |].
  destruct (new_city_cases v g) as [-> | ->]; repeat constructor.
  simpl. not_in_list.
Qed.

Lemma one_parent_link_current_city dp v g :
  one_parent g -> one_parent (cy_link_current_city dp v g).
Proof.
  intros Hg. rewrite cy_link_current_city_eq.
  destruct (match_id "DayPlan" dp g); [| exact Hg].
  apply (one_parent_fold_to_cities _ (fun c => [c]) _ g); auto.
  - intros acc x. now rewrite merge_edge_nodes.
  - intros acc x b Hb. simpl in Hb. rewrite in_edges_merge_other; auto.
  - apply Forall_forall. intros c Hin c' [<- | []].
    eapply match_nodes_named; eassumption.
Qed.

(** [CREATE] a node and [MERGE] the relationship from [a] to it: the new
    node has that one incoming relationship. *)
Lemma one_parent_create_linked g a ty lbl ps :
  schema_ok g -> one_parent g ->
  one_parent (merge_edge a ty (List.length (nodes g))
                (fst (create_node lbl ps g))).
Proof.
  intros Hs Hg b n Hb Hl. rewrite merge_edge_nodes in Hb. simpl in Hb.
  assert (He : edges (merge_edge a ty (List.length (nodes g))
                        (fst (create_node lbl ps g)))
               = edges g ++ [mkEdge a ty (List.length (nodes g))]).
  { unfold merge_edge. simpl.
    assert (X : existsb (edge_eqb (mkEdge a ty (List.length (nodes g))))
                  (edges g) = false).
    { apply not_true_is_false. intros H.
      apply existsb_exists in H. destruct H as (e & Hin & Heq).
      apply edge_eqb_eq in Heq. subst e.
      pose proof (schema_ok_dst_bound g _ Hs Hin). simpl in *. lia. }
    now rewrite X. }
  unfold in_edges. rewrite He, filter_app. fold (in_edges g b). simpl.
  destruct (Nat.lt_ge_cases b (List.length (nodes g))) as [Hlt | Hge].
  - rewrite nth_error_app1 in Hb by exact Hlt.
    destruct (Nat.eqb_spec (List.length (nodes g)) b); [lia |].
    rewrite app_nil_r. now apply (Hg b n).
  - rewrite nth_error_app2 in Hb by exact Hge.
    destruct (b - List.length (nodes g))%nat as [| k] eqn:Ek;
      [| destruct k; discriminate].
    assert (b = List.length (nodes g)) by lia. subst b.
    rewrite (in_edges_fresh g _ Hs) by lia.
    rewrite Nat.eqb_refl. simpl. eauto.
Qed.

Lemma build_graph_tree_ok storable literal_eval dataset g g' res :
  build_graph storable literal_eval dataset g = (g', res) -> tree_ok g -> tree_ok g'.
Proof.
  apply (build_graph_rel (fun g1 g2 => tree_ok g1 -> tree_ok g2)); auto.
  - intros s g0 [Hs Hp]. split.
    + apply (schema_ok_more_nodes g0 _ _ (cy_merge_city_nodes s g0));
        [apply cy_merge_city_edges | exact Hs].
    + apply (one_parent_more_nodes g0 _ _ (cy_merge_city_nodes s g0));
        [apply cy_merge_city_edges | | exact Hp].
      destruct (existsb _ _); repeat constructor. simpl. not_in_list.
  - intros o d n v dt p lc b q lv ap ri g0 [Hs Hp]. split.
    + eapply schema_ok_more_nodes; [reflexivity | reflexivity | exact Hs].
    + eapply one_parent_more_nodes; [reflexivity | reflexivity | | exact Hp].
      repeat constructor. simpl. not_in_list.
  - intros tp o d g0 [Hs Hp].
    split; [now apply schema_ok_link_cities | now apply one_parent_link_cities].
  - intros tp dn cc g0 [Hs Hp].
    split; [now apply schema_ok_create_day_plan |].
    unfold day_plan_created.
    destruct (match_id "TripPlan" tp g0); [| exact Hp].
    simpl. now apply one_parent_create_linked.
  - intros v g0 [Hs Hp].
    split; [now apply schema_ok_merge_current_city
           | now apply one_parent_merge_current_city].
  - intros dp v g0 [Hs Hp].
    split; [now apply schema_ok_link_current_city
           | now apply one_parent_link_current_city].
  - intros dp label props g0 Hl [Hs Hp].
    split; [now apply schema_ok_create_related |].
    unfold cy_create_related.
    destruct (match_id "DayPlan" dp g0); [| exact Hp].
    simpl. now apply one_parent_create_linked.
  - intros tp ds ct g0 [Hs Hp].
    split; [now apply schema_ok_create_reference |].
    unfold reference_created.
    destruct (match_id "TripPlan" tp g0); [| exact Hp].
    simpl. now apply one_parent_create_linked.
Qed.

(** X5. In every store the writer builds from the empty store no
    relationship dangles, and each connects nodes labelled as the schema
    says: ORIGIN and DESTINATION go from a TripPlan to a City, HAS_DAY_PLAN
    from a TripPlan to a DayPlan, IN_CITY from a DayPlan to a City,
    HAS_REFERENCE from a TripPlan to a ReferenceInfo, and HAS_<KIND> from a
    DayPlan to an ActivityNode of that kind. *)
Theorem relationships_follow_schema
    (storable : pyval -> bool)
    (literal_eval : string -> option pyval) (dataset : list raw_record)
    (g : graph) (res : result unit) (e : edge) :
  build_graph storable literal_eval dataset empty_graph = (g, res) ->
  In e (edges g) ->
  exists a b,
    nth_error (nodes g) (esrc e) = Some a
    /\ nth_error (nodes g) (edst e) = Some b
    /\ In (nlabel a, etype e, nlabel b) schema.
Proof.
  intros H Hin.
  assert (Hok : schema_ok g).
  { eapply build_graph_schema_ok; [exact H |]. intros e0 []. }
  exact (Hok e Hin).
Qed.

Lemma relationships_follow_schema_witness :
  let g := fst (build_graph Scalars.storable Literal.literal_eval sample_dataset empty_graph) in
  exists a b,
    nth_error (nodes g) 3 = Some a /\ nth_error (nodes g) 1 = Some b
    /\ In (nlabel a, "IN_CITY", nlabel b) schema.
Proof.
  intros g.
  apply (relationships_follow_schema Scalars.storable Literal.literal_eval sample_dataset g
           (Ok tt) (mkEdge 3 "IN_CITY" 1)).
  - vm_compute. reflexivity.
  - vm_compute. in_list.
Defined.

(** X6. In every store the writer builds from the empty store, every
    DayPlan, ReferenceInfo and ActivityNode has exactly one incoming
    relationship, from its parent: the nodes below a TripPlan form a tree,
    and none is shared between days or trips. *)
Theorem every_child_has_one_parent
    (storable : pyval -> bool)
    (literal_eval : string -> option pyval) (dataset : list raw_record)
    (g : graph) (res : result unit) (b : nat) (n : node) :
  build_graph storable literal_eval dataset empty_graph = (g, res) ->
  nth_error (nodes g) b = Some n ->
  In (nlabel n) child_labels ->
  exists a pa ty,
    in_edges g b = [mkEdge a ty b]
    /\ nth_error (nodes g) a = Some pa
    /\ In (nlabel pa, ty, nlabel n) schema.
Proof.
  intros H Hb Hl.
  assert (Hok : tree_ok g).
  { eapply build_graph_tree_ok; [exact H |]. split.
    - intros e0 [].
    - intros b0 n0 H0. destruct b0; discriminate. }
  destruct Hok as [Hs Hp].
  destruct (Hp b n Hb Hl) as (e & He).
  assert (Hin : In e (in_edges g b)) by (rewrite He; now left).
  unfold in_edges in Hin. apply filter_In in Hin. destruct Hin as [Hin Hd].
  apply Nat.eqb_eq in Hd.
  destruct (Hs e Hin) as (pa & nb & Ha & Hnb & Hsc).
  rewrite Hd, Hb in Hnb. inversion Hnb; subst nb.
  exists (esrc e), pa, (etype e).
  destruct e as [a ty b']. simpl in *. subst b'. auto.
Qed.

Lemma every_child_has_one_parent_witness :
  let g := fst (build_graph Scalars.storable Literal.literal_eval sample_dataset empty_graph) in
  exists a pa ty,
    in_edges g 4 = [mkEdge a ty 4]
    /\ nth_error (nodes g) a = Some pa
    /\ In (nlabel pa, ty, "Meal") schema.
Proof.
  intros g.
  apply (every_child_has_one_parent Scalars.storable Literal.literal_eval sample_dataset g
           (Ok tt) 4
           (mkNode "Meal" [("value", PyStr "Deli"); ("meal_type", PyStr "Lunch")])).
  - vm_compute. reflexivity.
  - vm_compute. reflexivity.
  - simpl. in_list.
Defined.

(** ** When a record fails *)




(** ** The ReferenceInfo nodes of a record *)

Lemma dict_get_has d k x y : dict_has d k = true -> dict_get d k x = dict_get d k y.
Proof.
  unfold dict_has. induction d as [| [k' v] d IH]; simpl; [discriminate |].
  destruct (key_is k k'); simpl; auto.
Qed.

Lemma kept_ref_infos_has v d :
  In d (kept_ref_infos v) ->
  dict_has d "Description" = true /\ dict_has d "Content" = true.
Proof.
  destruct v as [| | | | | | l |]; simpl; try contradiction.
  intros H. apply in_flat_map in H. destruct H as (x & _ & Hx).
  destruct x as [| | | | | | | d']; simpl in Hx; try contradiction.
  destruct (dict_has d' "Description" && dict_has d' "Content") eqn:E;
    [| contradiction].
  destruct Hx as [<- | []]. now apply andb_true_iff.
Qed.

(** X8. A committed record ends the store with its ReferenceInfo nodes:
    one for each entry of the decoded list that is a dict with both keys
    "Description" and "Content", in input order, holding the two values
    (the defaults of the two lookups are never used) and linked from the
    record's TripPlan by HAS_REFERENCE; entries of any other shape are
    skipped without an error. *)
Theorem reference_infos_in_order
    (storable : pyval -> bool)
    (literal_eval : string -> option pyval) (r : raw_record) (g g' : graph) :
  process_record storable literal_eval r g = (g', Ok tt) ->
  let kept := kept_ref_infos (record_ref_infos literal_eval r) in
  let tp := List.length (nodes (after_city_merges r g)) in
  exists before,
    nodes g' = before ++ map reference_node kept
    /\ (forall i d,
          nth_error kept i = Some d ->
          In (mkEdge tp "HAS_REFERENCE" (List.length before + i)) (edges g'))
    /\ (forall d x,
          In d kept ->
          dict_get d "Description" x = dict_get d "Description" (PyStr "")
          /\ dict_get d "Content" x = dict_get d "Content" (PyStr "")).
Proof.
  intros H kept tp.
  destruct (process_record_committed _ _ _ _ _ H)
    as (_ & _ & _ & _ & _ & _ & _ & g2 & _ & Hn & Hl & _).
  exists (nodes g2). split; [exact Hn | split; [exact Hl |]].
  intros d x Hin. destruct (kept_ref_infos_has _ _ Hin) as [H1 H2].
  split; now apply dict_get_has.
Qed.

Lemma reference_infos_in_order_witness :
  let g' := fst (process_record Scalars.storable Literal.literal_eval
                   scenario_record empty_graph) in
  exists before,
    nodes g' =
    before ++ [mkNode "ReferenceInfo"
                 [("description", PyStr "Visa");
                  ("content", PyStr "Not required")]].
Proof.
  intros g'.
  destruct (reference_infos_in_order Scalars.storable Literal.literal_eval
              scenario_record empty_graph g') as (before & Hn & _).
  - vm_compute. reflexivity.
  - exists before. exact Hn.
Defined.

(** ** The current city of a day entry *)

Lemma adds_count_city L T s g g' :
  ~ In "City" L -> adds L T g g' -> count_city s g' = count_city s g.
Proof.
  intros Hl (ns & es & Hn & _ & HL & _).
  rewrite (count_city_app s g g' ns Hn).
  rewrite (filter_none (node_is "City" "name" s) ns); [apply Nat.add_0_r |].
  eapply Forall_impl; [| exact HL]. intros n Hin. simpl in Hin.
  unfold node_is.
  destruct (String.eqb_spec (nlabel n) "City") as [E |]; [| reflexivity].
  rewrite E in Hin. contradiction.
Qed.

Lemma link_in_city_linked dp s g :
  match_id "DayPlan" dp g = true -> (1 <= count_city s g)%nat ->
  linked_to_city (cy_link_in_city dp s g) dp "IN_CITY" s.
Proof.
  intros Hm Hc. destruct (match_nodes_exists s g Hc) as (c & Hin).
  destruct (match_nodes_in _ _ _ Hin) as (n & Hn & Hp).
  exists c, n. rewrite cy_link_in_city_nodes. repeat split; auto.
  unfold cy_link_in_city. rewrite Hm. now apply fold_in_city_in.
Qed.

Lemma day_plan_city_str dp d g s :
  dict_get d "current_city" (PyStr "") = PyStr s ->
  day_plan_city dp d g =
  Ok (tt, if present s then cy_link_in_city dp s (cy_merge_city s g) else g).
Proof.
  intros Hc. unfold day_plan_city. rewrite Hc.
  unfold tx_if_data, tx_bind, tx_lift. rewrite valid_data_str.
  now destruct (present s).
Qed.

Lemma day_plan_city_bytes dp d g b :
  dict_get d "current_city" (PyStr "") = PyBytes b ->
  forall g', day_plan_city dp d g = Ok (tt, g') ->
  forall s, count_city s g' = count_city s g.
Proof.
  intros Hc g' E s.
  assert (Hv : no_raise (dict_get d "current_city" (PyStr "")) = true)
    by (rewrite Hc; unfold no_raise; now rewrite valid_data_bytes).
  unfold day_plan_city in E. rewrite (tx_if_data_eq _ _ _ Hv) in E.
  destruct (has_data _); inversion E; subst; [| reflexivity].
  rewrite Hc.
  rewrite (count_city_same_nodes s _ _ (cy_link_current_city_nodes _ _ _)).
  rewrite (count_city_app s _ _ _ (cy_merge_current_city_nodes _ g)).
  destruct (new_city_cases (PyBytes b) g) as [-> | ->]; simpl; lia.
Qed.

(** X9. [_create_day_plan] on a clean entry under a matched TripPlan,
    when the store takes its day number and its current city (it raises
    the error of the store otherwise): when the current city is a string
    that is not empty and not a dash once trimmed, the new DayPlan gets an
    IN_CITY relationship to a City of that exact name, which is created
    only if the store has none; when it is a byte string that is not
    empty, the DayPlan is linked to a City named by that byte string, and
    the City nodes named by strings are as before; otherwise the entry
    adds no City node and no IN_CITY relationship. *)
Theorem current_city_merged_and_linked storable
    (g : graph) (tp : nat) (d : list (pyval * pyval)) :
  match_id "TripPlan" tp g = true ->
  day_plan_clean d = true ->
  let city := dict_get d "current_city" (PyStr "") in
  (day_plan_stored storable d = true ->
   exists g',
     _create_day_plan storable tp d g = Ok (tt, g')
     /\ (forall s,
           city = PyStr s -> present s = true ->
           linked_to_city g' (List.length (nodes g)) "IN_CITY" s
           /\ count_city s g' = Nat.max 1 (count_city s g)
           /\ forall s', s <> s' -> count_city s' g' = count_city s' g)
     /\ (forall b,
           city = PyBytes b -> b <> "" ->
           linked_to_named g' (List.length (nodes g)) "IN_CITY" city
           /\ forall s, count_city s g' = count_city s g)
     /\ (has_data city = false ->
         adds ("DayPlan" :: activity_labels)
           ("HAS_DAY_PLAN" :: activity_rel_types) g g'))
  /\ (day_plan_stored storable d = false ->
      _create_day_plan storable tp d g = Raise StoreError).
Proof.
  intros Hm Hc city. split; [| now apply create_day_plan_unstored].
  intros Hs.
  destruct (create_day_plan_spec storable tp d g Hm Hc Hs)
    as (g' & E & cs & _ & _ & Hcity & _).
  exists g'. split; [exact E |].
  rewrite create_day_plan_eq, Hm, Hs in E.
  set (dp := List.length (nodes g)) in *.
  set (g1 := with_day_plan tp d g) in *.
  pose proof (with_day_plan_nodes tp d g) as Hn1. fold g1 in Hn1.
  assert (Hm1 : match_id "DayPlan" dp g1 = true)
    by (eapply (match_id_new "DayPlan" _ g _ []); exact Hn1).
  pose proof (with_day_plan_adds tp d g) as Ha1. fold g1 in Ha1.
  assert (Hc1 : forall s', count_city s' g1 = count_city s' g).
  { intros s'. apply (adds_count_city ["DayPlan"] ["HAS_DAY_PLAN"]);
      [not_in_list | exact Ha1]. }
  unfold tx_bind in E.
  destruct (day_plan_city dp d g1) as [[[] g2] | e] eqn:E2; [| discriminate].
  pose proof (day_plan_activities_adds dp d g2 tt g' E) as Ha.
  assert (Hc2 : forall s', count_city s' g' = count_city s' g2).
  { intros s'. apply (adds_count_city activity_labels activity_rel_types);
      [not_in_list | exact Ha]. }
  split; [| split].
  - intros s Hcs Hp. rewrite (day_plan_city_str dp d g1 s Hcs), Hp in E2.
    inversion E2; subst g2. clear E2.
    assert (Hc3 : forall s', count_city s' g' = count_city s' (cy_merge_city s g1)).
    { intros s'. rewrite Hc2.
      apply count_city_same_nodes, cy_link_in_city_nodes. }
    split; [| split].
    + eapply linked_to_city_adds; [exact Ha |].
      apply link_in_city_linked.
      * eapply match_id_app; [apply cy_merge_city_nodes | exact Hm1].
      * apply count_city_merge_pos.
    + now rewrite Hc3, count_city_merge_same, Hc1.
    + intros s' Hne. now rewrite Hc3, count_city_merge_other, Hc1.
  - intros b Hcb Hb. fold city in Hcity.
    assert (Hd : has_data city = true).
    { rewrite Hcb. unfold has_data. rewrite valid_data_bytes.
      destruct (String.eqb_spec b ""); [contradiction | reflexivity]. }
    rewrite Hd in Hcity. destruct Hcity as [_ Hl]. split; [exact Hl |].
    intros s. rewrite Hc2, <- Hc1.
    eapply day_plan_city_bytes; [exact Hcb | exact E2].
  - intros Hd.
    assert (Hv : no_raise city = true).
    { pose proof (day_plan_clean_fields d Hc) as HF. now inversion HF. }
    unfold day_plan_city in E2. fold city in E2.
    rewrite (tx_if_data_eq _ _ _ Hv), Hd in E2. inversion E2; subst g2.
    eapply adds_trans.
    + eapply adds_weaken; [| | exact Ha1]; intros x [<- | []]; now left.
    + eapply adds_weaken; [| | exact Ha]; intros x Hx; now right.
Qed.

Lemma current_city_merged_and_linked_witness :
  let g := fst (process_record Scalars.storable Literal.literal_eval
                  empty_record empty_graph) in
  let d := [(PyStr "days", PyInt 1); (PyStr "current_city", PyStr "Miami")] in
  exists g',
    _create_day_plan Scalars.storable 1 d g = Ok (tt, g')
    /\ linked_to_city g' 2 "IN_CITY" "Miami"
    /\ count_city "Miami" g' = 1%nat.
Proof.
  intros g d.
  destruct (current_city_merged_and_linked Scalars.storable g 1 d) as (H & _).
  - vm_compute. reflexivity.
  - vm_compute. reflexivity.
  - destruct H as (g' & E & H & _); [vm_compute; reflexivity |].
    exists g'. split; [exact E |].
    destruct (H "Miami") as (H1 & H2 & _); [reflexivity | reflexivity |].
    split; [exact H1 | exact H2].
Defined.

(** ** The nodes of a completed load *)











(** ** The caller and the reasoner *)

Lemma fetch_combined_incl g o d :
  incl (fetch_trip_plans g o d) (fetch_trip_plans_from_origin g o).
Proof.
  unfold fetch_trip_plans, fetch_trip_plans_from_origin, read_transaction,
    _get_trip_plans, _get_trip_plans_from_origin.
  rewrite !map_id. intros x Hx. apply in_map_iff in Hx.
  destruct Hx as (t & Hx & Ht). apply in_map_iff. exists t.
  split; [exact Hx |]. apply filter_In in Ht. destruct Ht as [Hin Hp].
  apply filter_In. split; [exact Hin |].
  apply andb_true_iff in Hp. destruct Hp as [Hl Hp].
  apply andb_true_iff in Hp. destruct Hp as [Ho _]. now rewrite Hl, Ho.
Qed.

(** X11. The lookup step of [main]: without a usable origin it stops;
    with one, every trip it goes on with is a trip from that origin, it has
    no trip only if the store has none from that origin at all, and a usable
    destination narrows the trips to those to the destination exactly when
    there are some. *)
Theorem main_lookup_falls_back (g : graph) (origin destination : option string) :
  (opt_truthy origin = false -> main_trips g origin destination = None)
  /\ (opt_truthy origin = true ->
      exists trips,
        main_trips g origin destination = Some trips
        /\ incl trips (fetch_trip_plans_from_origin g (opt_str origin))
        /\ (trips = [] <-> fetch_trip_plans_from_origin g (opt_str origin) = [])
        /\ (opt_truthy destination = true ->
            fetch_trip_plans g (opt_str origin) (opt_str destination) <> [] ->
            trips = fetch_trip_plans g (opt_str origin) (opt_str destination))
        /\ (opt_truthy destination = false ->
            trips = fetch_trip_plans_from_origin g (opt_str origin))).
Proof.
  unfold main_trips. split.
  - intros ->. reflexivity.
  - intros ->. simpl.
    pose proof (fetch_combined_incl g (opt_str origin) (opt_str destination))
      as Hincl.
    destruct (opt_truthy destination).
    + destruct (fetch_trip_plans g (opt_str origin) (opt_str destination))
        as [| x l] eqn:E; simpl.
      * eexists. split; [reflexivity |]. split; [apply incl_refl |].
        split; [tauto |]. split; [congruence | discriminate].
      * eexists. split; [reflexivity |]. split; [exact Hincl |].
        split; [| split; [reflexivity | discriminate]].
        split; [discriminate |]. intros H0.
        specialize (Hincl x (or_introl eq_refl)). rewrite H0 in Hincl.
        contradiction.
    + eexists. split; [reflexivity |]. split; [apply incl_refl |].
      split; [tauto |]. split; [discriminate | reflexivity].
Qed.

Lemma main_lookup_falls_back_witness :
  exists trips,
    main_trips three_trips (Some "BOSTON") (Some "Denver") = Some trips
    /\ incl trips (fetch_trip_plans_from_origin three_trips "BOSTON")
    /\ (trips = [] <-> fetch_trip_plans_from_origin three_trips "BOSTON" = []).
Proof.
  destruct (main_lookup_falls_back three_trips (Some "BOSTON") (Some "Denver"))
    as (_ & H).
  destruct H as (trips & E & H1 & H2 & _); [reflexivity |].
  exists trips. split; [exact E | split; [exact H1 | exact H2]].
Defined.

Lemma symbolic_reasoning_no_destination ask title query destination budget days :
  text_truthy destination = false ->
  symbolic_reasoning ask title query destination budget days
  = Raise AttributeError.
Proof.
  intros H. unfold symbolic_reasoning, infer_trip_type_from_gpe.
  now rewrite H.
Qed.

(** X12. [symbolic_reasoning] raises AttributeError exactly when the
    destination is [None] or empty, whatever the query, the budget, the days
    and the answer of the model; with a destination, and a model that
    answers with a text, it returns. A budget or a day count of 0 is
    treated as one that is absent. *)
Theorem reasoning_needs_destination
    (ask title : text -> text) (query : text) (destination : option text)
    (budget days : option Z) :
  (text_truthy destination = false <->
   symbolic_reasoning ask title query destination budget days
   = Raise AttributeError)
  /\ (text_truthy destination = true <->
      exists out,
        symbolic_reasoning ask title query destination budget days = Ok out)
  /\ symbolic_reasoning ask title query destination (Some 0%Z) days
     = symbolic_reasoning ask title query destination None days
  /\ symbolic_reasoning ask title query destination budget (Some 0%Z)
     = symbolic_reasoning ask title query destination budget None.
Proof.
  assert (Hok : text_truthy destination = true ->
                exists out,
                  symbolic_reasoning ask title query destination budget days
                  = Ok out).
  { intros H. unfold symbolic_reasoning, infer_trip_type_from_gpe.
    rewrite H. simpl. eauto. }
  split; [| split; [| split; reflexivity]].
  - split; [apply symbolic_reasoning_no_destination |].
    intros H. destruct (text_truthy destination); [| reflexivity].
    destruct (Hok eq_refl) as (out & E). rewrite E in H. discriminate.
  - split; [exact Hok |]. intros (out & E).
    destruct (text_truthy destination) eqn:Ed; [reflexivity |].
    rewrite (symbolic_reasoning_no_destination _ _ _ _ _ _ Ed) in E.
    discriminate.
Qed.

Lemma reasoning_needs_destination_witness :
  exists out,
    symbolic_reasoning (fun _ => txt "city") (fun t => t) (txt "q")
      (Some (txt "Chicago")) (Some 800%Z) (Some 3%Z) = Ok out.
Proof.
  apply (proj1 (proj1 (proj2 (reasoning_needs_destination
                                (fun _ => txt "city") (fun t => t) (txt "q")
                                (Some (txt "Chicago")) (Some 800%Z)
                                (Some 3%Z))))).
  reflexivity.
Defined.

(** X13. A query in which the recogniser finds exactly one place: [main]
    takes it as the origin, fetches the trips from it, and then its call of
    [symbolic_reasoning] raises AttributeError, since the destination is
    [None]. *)
Theorem single_place_query_fails
    (gpe_entities : string -> list string) (ask title : text -> text)
    (g : graph) (query o : string) (budget days : option Z) :
  gpe_entities query = [o] -> o <> "" ->
  extract_locations gpe_entities query = (Some o, None)
  /\ main_trips g (Some o) None = Some (fetch_trip_plans_from_origin g o)
  /\ main_reasoning gpe_entities ask title query budget days
     = Raise AttributeError.
Proof.
  intros Hg Ho.
  assert (E : extract_locations gpe_entities query = (Some o, None)).
  { unfold extract_locations. now rewrite Hg. }
  split; [exact E | split].
  - unfold main_trips. simpl.
    destruct (String.eqb_spec o ""); [contradiction | reflexivity].
  - unfold main_reasoning. rewrite E.
    now apply symbolic_reasoning_no_destination.
Qed.

Lemma single_place_query_fails_witness :
  main_trips three_trips (Some "boston") None
  = Some (fetch_trip_plans_from_origin three_trips "boston")
  /\ main_reasoning (fun _ => ["boston"]) (fun _ => txt "city") (fun t => t)
       "trips from boston" (Some 900%Z) None
     = Raise AttributeError.
Proof.
  destruct (single_place_query_fails (fun _ => ["boston"])
              (fun _ => txt "city") (fun t => t) three_trips
              "trips from boston" "boston" (Some 900%Z) None)
    as (_ & H1 & H2).
  - reflexivity.
  - discriminate.
  - split; [exact H1 | exact H2].
Defined.

(** ** The extractors of the query *)

Lemma span_app (p : ascii -> bool) (a b : string) :
  all_chars p a = true -> head_in p b = false ->
  span p (a ++ b) = (a, b).
Proof.
  intros Ha Hb. induction a as [| c a IH]; simpl in *.
  - destruct b as [| c b]; [reflexivity |]. simpl in Hb |- *.
    now rewrite Hb.
  - apply andb_true_iff in Ha as [Hc Ha]. now rewrite Hc, IH.
Qed.

Lemma span_run (p : ascii -> bool) (s : string) :
  all_chars p (fst (span p s)) = true
  /\ (String.length (fst (span p s)) <= String.length s)%nat.
Proof.
  induction s as [| c s IH]; simpl; [split; [reflexivity | lia] |].
  destruct (p c) eqn:Hc; [| split; [reflexivity | simpl; lia]].
  destruct (span p s) as [run rest]. simpl in *.
  rewrite Hc. destruct IH as [IH1 IH2]. split; [exact IH1 | lia].
Qed.

Lemma span_rest_length (p : ascii -> bool) (s : string) :
  (String.length (snd (span p s)) <= String.length s)%nat.
Proof.
  induction s as [| c s IH]; simpl; [lia |].
  destruct (p c); [| simpl; lia].
  destruct (span p s) as [run rest]. simpl in *. lia.
Qed.

Lemma literal_toLower (w rest : string) :
  literal (toLower w) (w ++ rest) = Some rest.
Proof.
  induction w as [| c w IH]; simpl.
  - now destruct rest.
  - now rewrite Ascii.eqb_refl.
Qed.

Lemma literal_length (lit s rest : string) :
  literal lit s = Some rest -> (String.length rest <= String.length s)%nat.
Proof.
  revert s. induction lit as [| p lit IH]; intros s H.
  - destruct s; injection H as <-; lia.
  - destruct s as [| c s]; [discriminate |]. simpl in H.
    destruct (Ascii.eqb (lower_char c) p); [| discriminate].
    apply IH in H. simpl. lia.
Qed.

Lemma search_found {A : Type} (m : string -> option A) (s : string) (g : A) :
  m s = Some g -> search m s = Some g.
Proof. intros H. destruct s; simpl; now rewrite H. Qed.

Lemma search_skip {A : Type} (m : string -> option A) (q : ascii -> bool) :
  (forall c r, q c = true -> m (String c r) = None) ->
  forall before rest,
    all_chars q before = true -> search m (before ++ rest) = search m rest.
Proof.
  intros Hq before rest. induction before as [| c before IH]; intros Hb.
  - reflexivity.
  - simpl in Hb. apply andb_true_iff in Hb as [Hc Hb].
    cbn [append search]. rewrite (Hq c _ Hc). now apply IH.
Qed.

Lemma search_suffix {A : Type} (m : string -> option A) (s : string) (g : A) :
  search m s = Some g ->
  exists suffix,
    m suffix = Some g /\ (String.length suffix <= String.length s)%nat.
Proof.
  induction s as [| c s IH]; simpl.
  - destruct (m "") eqn:E; [| discriminate].
    intros H. exists "". split; [congruence | simpl; lia].
  - destruct (m (String c s)) eqn:E.
    + intros H. exists (String c s). split; [congruence | simpl; lia].
    + intros H. destruct (IH H) as (suffix & H1 & H2).
      exists suffix. split; [exact H1 | lia].
Qed.

Lemma days_at_not_digit (c : ascii) (r : string) :
  not_digit c = true -> days_at (String c r) = None.
Proof.
  unfold not_digit, days_at. intros H. apply negb_true_iff in H.
  cbn [span]. now rewrite H.
Qed.

Lemma budget_at_not_b (c : ascii) (r : string) :
  not_b c = true -> budget_at (String c r) = None.
Proof.
  unfold not_b, budget_at. intros H. apply negb_true_iff in H.
  cbn [literal]. now rewrite H.
Qed.

Lemma eqb_empty_false (s : string) : s <> "" -> (s =? "") = false.
Proof. intros H. now apply String.eqb_neq. Qed.

Lemma digits_of_uint (d : Decimal.uint) :
  all_chars is_digit (NilEmpty.string_of_uint d) = true.
Proof. induction d; simpl; auto. Qed.

Lemma decimal_uint (n : Z) :
  (0 <= n)%Z ->
  exists d,
    decimal n = NilEmpty.string_of_uint d /\ d <> Decimal.Nil
    /\ Z.of_uint d = n.
Proof.
  intros Hn. destruct n as [| p | p]; [| | lia].
  - exists (Decimal.D0 Decimal.Nil). repeat split; discriminate.
  - exists (Pos.to_uint p). unfold decimal. cbn [Z.to_int NilZero.string_of_int].
    assert (Hp : Pos.to_uint p <> Decimal.Nil)
      by apply DecimalPos.Unsigned.to_uint_nonnil.
    repeat split; [| exact Hp |].
    + unfold NilZero.string_of_uint. now destruct (Pos.to_uint p).
    + unfold Z.of_uint. now rewrite DecimalPos.Unsigned.of_to.
Qed.

Lemma decimal_digits (n : Z) :
  (0 <= n)%Z -> all_chars is_digit (decimal n) = true /\ decimal n <> "".
Proof.
  intros Hn. destruct (decimal_uint n Hn) as (d & -> & Hd & _). split.
  - apply digits_of_uint.
  - destruct d; try discriminate. congruence.
Qed.

Lemma py_int_decimal (n : Z) :
  (0 <= n)%Z -> (String.length (decimal n) <= max_str_digits)%nat ->
  py_int (decimal n) = Value n.
Proof.
  intros Hn Hl. unfold py_int.
  destruct (decimal_digits n Hn) as [_ Hne].
  rewrite (eqb_empty_false _ Hne).
  apply Nat.ltb_ge in Hl. rewrite Hl. cbn [orb].
  destruct (decimal_uint n Hn) as (d & -> & _ & <-).
  now rewrite NilEmpty.usu.
Qed.

Lemma uint_of_digits (s : string) :
  all_chars is_digit s = true ->
  exists d, NilEmpty.uint_of_string s = Some d.
Proof.
  induction s as [| c s IH]; simpl; intros H; [now eexists |].
  apply andb_true_iff in H as [Hc H]. destruct (IH H) as (d & ->).
  destruct c as [[] [] [] [] [] [] [] []]; try discriminate Hc;
    simpl; now eexists.
Qed.

Lemma of_uint_nonneg (d : Decimal.uint) : (0 <= Z.of_uint d)%Z.
Proof. unfold Z.of_uint. lia. Qed.

Lemma py_int_digits (s : string) :
  all_chars is_digit s = true -> s <> "" ->
  (String.length s <= max_str_digits)%nat ->
  exists n, py_int s = Value n /\ (0 <= n)%Z.
Proof.
  intros Hd Hne Hl. unfold py_int. rewrite (eqb_empty_false _ Hne).
  apply Nat.ltb_ge in Hl. rewrite Hl. cbn [orb].
  destruct (uint_of_digits s Hd) as (d & ->).
  eexists. split; [reflexivity | apply of_uint_nonneg].
Qed.

Lemma head_in_app (p : ascii -> bool) (a b : string) :
  a <> "" -> head_in p (a ++ b) = head_in p a.
Proof. intros H. destruct a; [congruence | reflexivity]. Qed.

Lemma all_chars_head (p q : ascii -> bool) (s : string) :
  (forall c, p c = true -> q c = false) ->
  all_chars p s = true -> head_in q s = false.
Proof.
  intros Hpq H. destruct s as [| c s]; [reflexivity |]. simpl in *.
  apply andb_true_iff in H as [H _]. now apply Hpq.
Qed.

Lemma space_not_digit (c : ascii) : is_space c = true -> is_digit c = false.
Proof.
  unfold is_space, is_digit. generalize (nat_of_ascii c). intros n H.
  apply andb_false_iff.
  destruct (48 <=? n)%nat eqn:E1; [right | now left].
  apply Nat.leb_le in E1. apply Nat.leb_gt.
  repeat (apply orb_true_iff in H as [H | H]);
    try apply andb_true_iff in H as [H1 H2];
    repeat match goal with
      | H : (_ <=? _)%nat = true |- _ => apply Nat.leb_le in H
      | H : (_ =? _)%nat = true |- _ => apply Nat.eqb_eq in H
      end; lia.
Qed.

Lemma days_at_number (n : Z) (spaces word after : string) :
  (0 <= n)%Z ->
  all_chars is_space spaces = true -> spaces <> "" ->
  toLower word = "day" ->
  days_at (decimal n ++ spaces ++ word ++ after) = Some (decimal n).
Proof.
  intros Hn Hs Hne Hw. destruct (decimal_digits n Hn) as [Hd Hdne].
  unfold days_at.
  rewrite (span_app is_digit (decimal n) (spaces ++ word ++ after) Hd).
  2:{ rewrite head_in_app by exact Hne.
      apply (all_chars_head is_space); [apply space_not_digit | exact Hs]. }
  rewrite (eqb_empty_false _ Hdne).
  rewrite (span_app is_space spaces (word ++ after) Hs).
  2:{ destruct word as [| c word]; [discriminate Hw |].
      simpl. injection Hw as Hc _.
      destruct (is_space c) eqn:E; [| reflexivity].
      exfalso. revert Hc E. clear.
      destruct c as [[] [] [] [] [] [] [] []]; vm_compute; congruence. }
  rewrite (eqb_empty_false _ Hne).
  rewrite <- Hw at 1. now rewrite literal_toLower.
Qed.

(** X14. [extract_days] reads the number of a query: where the text has no
    digit before a non-negative number that white space and the word DAY,
    in any case, follow, the number is returned, as long as it has no more
    digits than [int] converts. *)
Theorem extract_days_reads_number (before spaces word after : string) (n : Z) :
  all_chars not_digit before = true ->
  (0 <= n)%Z ->
  (String.length (decimal n) <= max_str_digits)%nat ->
  all_chars is_space spaces = true -> spaces <> "" ->
  toLower word = "day" ->
  extract_days (before ++ decimal n ++ spaces ++ word ++ after)
  = Value (Some n).
Proof.
  intros Hb Hn Hl Hs Hne Hw. unfold extract_days.
  rewrite (search_skip days_at not_digit days_at_not_digit _ _ Hb).
  rewrite (search_found _ _ _ (days_at_number n spaces word after Hn Hs Hne Hw)).
  now rewrite py_int_decimal.
Qed.

Lemma extract_days_reads_number_witness :
  extract_days ("I want a trip from Boston to Denver for " ++ decimal 5
                ++ " " ++ "Day" ++ "s with a budget of $1,200")
  = Value (Some 5%Z).
Proof.
  apply extract_days_reads_number;
    [reflexivity | lia | vm_compute; lia | reflexivity | discriminate
    | reflexivity].
Defined.

Lemma budget_at_amount (rest : string) :
  budget_at ("budget of $" ++ rest)
  = let group := fst (span digit_or_comma rest) in
    if group =? "" then None else Some group.
Proof. reflexivity. Qed.

Lemma budget_at_group (group after : string) :
  all_chars digit_or_comma group = true -> group <> "" ->
  head_in digit_or_comma after = false ->
  budget_at ("budget of $" ++ group ++ after) = Some group.
Proof.
  intros Hg Hne Ha. rewrite budget_at_amount.
  rewrite (span_app digit_or_comma group after Hg Ha). cbn [fst].
  now rewrite (eqb_empty_false _ Hne).
Qed.

(** X15. [extract_budget] drops the commas of the amount before it
    converts it, wherever they stand; an amount made of commas alone makes
    it raise ValueError. *)
Theorem extract_budget_drops_commas (before group after : string) :
  all_chars not_b before = true ->
  all_chars digit_or_comma group = true -> group <> "" ->
  head_in digit_or_comma after = false ->
  (forall n,
      (0 <= n)%Z -> (String.length (decimal n) <= max_str_digits)%nat ->
      remove_commas group = decimal n ->
      extract_budget (before ++ "budget of $" ++ group ++ after)
      = Value (Some n))
  /\ (remove_commas group = "" ->
      extract_budget (before ++ "budget of $" ++ group ++ after)
      = ValueError).
Proof.
  intros Hb Hg Hne Ha.
  assert (E : search budget_at (before ++ "budget of $" ++ group ++ after)
              = Some group).
  { rewrite (search_skip budget_at not_b budget_at_not_b _ _ Hb).
    apply search_found. now apply budget_at_group. }
  unfold extract_budget. rewrite E. split.
  - intros n Hn Hl ->. now rewrite py_int_decimal.
  - intros ->. reflexivity.
Qed.

Lemma extract_budget_drops_commas_witness :
  extract_budget ("5 days, " ++ "budget of $" ++ "1,200" ++ " please")
  = Value (Some 1200%Z)
  /\ extract_budget ("5 days, " ++ "budget of $" ++ ",," ++ " please")
     = ValueError.
Proof.
  split.
  - apply (extract_budget_drops_commas "5 days, " "1,200" " please");
      [reflexivity | reflexivity | discriminate | reflexivity | lia
      | vm_compute; lia | reflexivity].
  - apply (extract_budget_drops_commas "5 days, " ",," " please");
      [reflexivity | reflexivity | discriminate | reflexivity | reflexivity].
Defined.

Lemma remove_commas_digits (s : string) :
  all_chars digit_or_comma s = true ->
  all_chars is_digit (remove_commas s) = true
  /\ (String.length (remove_commas s) <= String.length s)%nat.
Proof.
  induction s as [| c s IH]; simpl; intros H; [split; [reflexivity | lia] |].
  apply andb_true_iff in H as [Hc H]. destruct (IH H) as [IH1 IH2].
  unfold digit_or_comma in Hc.
  destruct (Ascii.eqb c ",") eqn:E; [split; [exact IH1 | lia] |].
  rewrite orb_false_r in Hc. simpl. rewrite Hc. split; [exact IH1 | lia].
Qed.

Lemma days_at_group (s group : string) :
  days_at s = Some group ->
  all_chars is_digit group = true /\ group <> ""
  /\ (String.length group <= String.length s)%nat.
Proof.
  unfold days_at. intros H.
  pose proof (span_run is_digit s) as [H1 H2].
  destruct (span is_digit s) as [run s1]. cbn [fst] in *.
  destruct (run =? "") eqn:E; [discriminate |].
  destruct (span is_space s1) as [spaces s2].
  destruct (spaces =? ""); [discriminate |].
  destruct (literal "day" s2); [| discriminate].
  injection H as <-. apply String.eqb_neq in E. now repeat split.
Qed.

Lemma budget_at_group_inv (s group : string) :
  budget_at s = Some group ->
  all_chars digit_or_comma group = true /\ group <> ""
  /\ (String.length group <= String.length s)%nat.
Proof.
  unfold budget_at. intros H.
  destruct (literal "budget" s) as [s1 |] eqn:E1; [| discriminate].
  destruct (literal "of" (snd (span is_space s1))) as [s2 |] eqn:E2;
    [| discriminate].
  fold digit_or_comma in H.
  set (s3 := snd (span is_space s2)) in *.
  set (s4 := match s3 with String "$" rest => rest | _ => s3 end) in *.
  pose proof (span_run digit_or_comma s4) as [H1 H2].
  destruct (fst (span digit_or_comma s4) =? "") eqn:E; [discriminate |].
  injection H as <-. apply String.eqb_neq in E.
  repeat split; [exact H1 | exact E |].
  apply literal_length in E1, E2.
  pose proof (span_rest_length is_space s1).
  pose proof (span_rest_length is_space s2). fold s3 in H0.
  assert (String.length s4 <= String.length s3)%nat.
  { subst s4. destruct s3 as [| c r]; [lia |].
    destruct c as [[] [] [] [] [] [] [] []]; simpl; lia. }
  lia.
Qed.

Lemma remove_commas_empty (s : string) :
  remove_commas s = "" <-> all_chars (fun c => Ascii.eqb c ",") s = true.
Proof.
  induction s as [| c s IH]; simpl; [tauto |].
  destruct (Ascii.eqb c ","); simpl; [exact IH |].
  split; discriminate.
Qed.

Lemma py_int_nonneg (s : string) (n : Z) : py_int s = Value n -> (0 <= n)%Z.
Proof.
  unfold py_int.
  destruct ((s =? "") || (max_str_digits <? String.length s)%nat);
    [discriminate |].
  destruct (NilEmpty.uint_of_string s); [| discriminate].
  intros H. injection H as <-. apply of_uint_nonneg.
Qed.

(** X16. On a text of at most [max_str_digits] characters [extract_days]
    never raises, and [extract_budget] raises exactly when the amount it
    finds is made of commas alone; a number either of them returns is not
    negative. *)
Theorem extractors_raise_only_on_commas (text : string) :
  (String.length text <= max_str_digits)%nat ->
  (exists r, extract_days text = Value r
             /\ forall n, r = Some n -> (0 <= n)%Z)
  /\ (extract_budget text = ValueError
      <-> exists group,
            search budget_at text = Some group
            /\ all_chars (fun c => Ascii.eqb c ",") group = true)
  /\ (forall n, extract_budget text = Value (Some n) -> (0 <= n)%Z).
Proof.
  intros Hl. split; [| split].
  - unfold extract_days.
    destruct (search days_at text) as [group |] eqn:E.
    + apply search_suffix in E as (suffix & E & Hs).
      apply days_at_group in E as (Hd & Hne & Hg).
      destruct (py_int_digits group Hd Hne) as (n & -> & Hn); [lia |].
      eexists. split; [reflexivity |]. intros m H. now injection H as <-.
    + eexists. split; [reflexivity | discriminate].
  - unfold extract_budget.
    destruct (search budget_at text) as [group |] eqn:E.
    + split.
      * intros H. exists group. split; [reflexivity |].
        apply remove_commas_empty.
        destruct (string_dec (remove_commas group) "") as [E0 | Hne];
          [exact E0 | exfalso].
        apply search_suffix in E as (suffix & E & Hs).
        apply budget_at_group_inv in E as (Hd & _ & Hg).
        apply remove_commas_digits in Hd as [Hd Hr].
        destruct (py_int_digits _ Hd Hne) as (n & En & _); [lia |].
        rewrite En in H. discriminate H.
      * intros (group' & Eg & Hc). injection Eg as <-.
        apply remove_commas_empty in Hc. now rewrite Hc.
    + split; [discriminate |]. intros (group & Eg & _). discriminate Eg.
  - unfold extract_budget. intros n.
    destruct (search budget_at text) as [group |]; [| discriminate].
    destruct (py_int (remove_commas group)) as [m |] eqn:E; [| discriminate].
    intros H. injection H as <-. now apply py_int_nonneg in E.
Qed.

Lemma extractors_raise_only_on_commas_witness :
  (exists r, extract_days "a budget of ,, for 3 days" = Value r
             /\ forall n, r = Some n -> (0 <= n)%Z)
  /\ (extract_budget "a budget of ,, for 3 days" = ValueError
      <-> exists group,
            search budget_at "a budget of ,, for 3 days" = Some group
            /\ all_chars (fun c => Ascii.eqb c ",") group = true)
  /\ (forall n,
        extract_budget "a budget of ,, for 3 days" = Value (Some n) ->
        (0 <= n)%Z).
Proof.
  apply extractors_raise_only_on_commas. vm_compute. lia.
Defined.
